(** * WeatherForecastBot: the analysis engine of [src/weather_analyzer.py]

    A shallow embedding of the class [WeatherAnalyzer] and of the Python
    built-ins it relies on, followed by the properties of the analysis,
    of the advisory texts and of the rendered report.

    Modelling conventions.
    - A Python number is an [Int] or a [Float].  An int is an integer of any
      size.  A float is an IEEE 754 binary64 number, zeros with their sign,
      infinities and NaN included: the type [spec_float] of the standard
      library, with its correctly rounded operations at precision 53 and
      maximal exponent 1024.  An arithmetic operation on two ints is exact;
      on an int and a float the int is first converted, which raises
      [OverflowError] beyond the range of floats.  Comparisons are
      comparisons of the numbers denoted, as in Python, and are false on
      NaN.
    - [round], [str], the format specification [.Nf] and the functions
      [mean] and [stdev] of the module [statistics] follow CPython 3.11.
      Floats are written [Py.double q], the float nearest to the decimal
      [q], as a literal of the source denotes it.  The interpreter's limit
      on the number of digits of an int that is converted to text (4300 by
      default) is taken to be lifted.
    - A dictionary whose keys are fixed by the program is a record of
      options: [None] is an absent key, [d['k']] raises [KeyError] on it and
      [d.get('k', v)] yields [v].
    - A raised exception is the [Raise] branch of [result]; the binds follow
      Python's evaluation order, so the first exception met is the one
      reported.
    - [datetime.now()] is an explicit argument of [format_report]. *)

From Stdlib Require Import ZArith QArith Qabs Qround String Ascii List Bool.
From Stdlib Require Import Lia Lqa DecimalString Sorted FinFun.
From Stdlib Require Import OrderedTypeEx Permutation.
From Stdlib Require Import Floats.SpecFloat.
Import ListNotations.

Local Open Scope string_scope.
Local Open Scope Z_scope.

(** ** Exceptions *)

Inductive exn : Type :=
| KeyError (key : string)
| ValueError (msg : string)
| StatisticsError (msg : string)
| OverflowError (msg : string)
| AttributeError (msg : string).

Inductive result (A : Type) : Type :=
| Ok (a : A)
| Raise (e : exn).

Arguments Ok {A} a.
Arguments Raise {A} e.

Definition bind {A B : Type} (r : result A) (k : A -> result B) : result B :=
  match r with
  | Ok a => k a
  | Raise e => Raise e
  end.

Notation "x <- r ;; k" := (bind r (fun x => k))
  (at level 61, r at next level, right associativity).

(** [d[key]] on an optional field. *)
Definition getitem {A : Type} (key : string) (field : option A) : result A :=
  match field with
  | Some v => Ok v
  | None => Raise (KeyError key)
  end.

(** [d.get(key, default)] on an optional field. *)
Definition get {A : Type} (field : option A) (default : A) : A :=
  match field with
  | Some v => v
  | None => default
  end.

(** ** Python numbers *)

Module Py.

(** The format binary64. *)
Definition prec : Z := 53.
Definition emax : Z := 1024.

Inductive num : Type :=
| Int (z : Z)
| Float (f : spec_float).

(** What a number denotes: a rational, an infinity, or nothing. *)
Inductive value : Type :=
| NaN
| NegInf
| Real (q : Q)
| PosInf.

(** The rational [(-1)^s * m * 2^e]. *)
Definition SF2Q (s : bool) (m : positive) (e : Z) : Q :=
  let a := if s then Zneg m else Zpos m in
  match e with
  | Z0 => inject_Z a
  | Zpos p => inject_Z (a * 2 ^ e)
  | Zneg p => a # (2 ^ p)
  end.

Definition float_val (f : spec_float) : value :=
  match f with
  | S754_nan => NaN
  | S754_infinity s => if s then NegInf else PosInf
  | S754_zero _ => Real 0
  | S754_finite s m e => Real (SF2Q s m e)
  end.

Definition val (a : num) : value :=
  match a with
  | Int z => Real (inject_Z z)
  | Float f => float_val f
  end.

(** Comparisons go through the denoted values: Python compares an int with
    a float exactly, and every comparison with NaN is false. *)
Definition lt_val (a b : value) : bool :=
  match a, b with
  | Real p, Real q => negb (Qle_bool q p)
  | NegInf, Real _ | NegInf, PosInf | Real _, PosInf => true
  | _, _ => false
  end.

Definition le_val (a b : value) : bool :=
  match a, b with
  | Real p, Real q => Qle_bool p q
  | NegInf, NegInf | PosInf, PosInf => true
  | NegInf, Real _ | NegInf, PosInf | Real _, PosInf => true
  | _, _ => false
  end.

Definition lt (a b : num) : bool := lt_val (val a) (val b).
Definition le (a b : num) : bool := le_val (val a) (val b).
Definition gt (a b : num) : bool := lt b a.
Definition ge (a b : num) : bool := le b a.

(** The least integer that rounds to an infinity: half a unit in the last
    place above the largest float. *)
Definition overflow_bound : Z := 2 ^ 1024 - 2 ^ 970.

(** The conversion of an operand to float: [float(x)]. *)
Definition to_float (a : num) : result spec_float :=
  match a with
  | Float f => Ok f
  | Int z =>
      if Z.abs z <? overflow_bound
      then Ok (binary_normalize prec emax z 0 false)
      else Raise (OverflowError "int too large to convert to float")
  end.

(** A binary operation: exact on two ints, the float operation after
    conversion otherwise. *)
Definition arith (on_int : Z -> Z -> Z)
    (on_float : spec_float -> spec_float -> spec_float) (a b : num)
    : result num :=
  match a, b with
  | Int x, Int y => Ok (Int (on_int x y))
  | _, _ =>
      x <- to_float a ;;
      y <- to_float b ;;
      Ok (Float (on_float x y))
  end.

Definition sub : num -> num -> result num := arith Z.sub (SFsub prec emax).
Definition add : num -> num -> result num := arith Z.add (SFadd prec emax).
Definition mul : num -> num -> result num := arith Z.mul (SFmul prec emax).

Definition abs (a : num) : num :=
  match a with
  | Int x => Int (Z.abs x)
  | Float f => Float (SFabs f)
  end.

(** The quotient of two positive integers as a float of sign [s], correctly
    rounded. *)
Definition quotient (s : bool) (n d : positive) : spec_float :=
  SFdiv prec emax (S754_finite s n 0) (S754_finite false d 0).

(** [n / d] on two ints, for a positive [d]. *)
Definition true_div (n : Z) (d : positive) : result spec_float :=
  if Z.abs n <? overflow_bound * Zpos d then
    Ok match n with
       | Z0 => S754_zero false
       | Zpos p => quotient false p d
       | Zneg p => quotient true p d
       end
  else Raise (OverflowError "integer division result too large for a float").

(** The float that a decimal literal denotes: the one nearest to it. *)
Definition double (q : Q) : spec_float :=
  match Qnum q with
  | Z0 => S754_zero false
  | Zpos p => quotient false p (Qden q)
  | Zneg p => quotient true p (Qden q)
  end.

(** Rounding to the nearest integer, ties to even. *)
Definition round_half_even (q : Q) : Z :=
  let f := Qfloor q in
  match (q - inject_Z f ?= 1 # 2)%Q with
  | Lt => f
  | Gt => f + 1
  | Eq => if Z.even f then f else f + 1
  end.

(** [round(x, 1)]: an int is returned unchanged; the value of a finite float
    is rounded to one decimal and the float nearest to that decimal is
    returned, with the sign of [x]; an infinity or a NaN is returned
    unchanged. *)
Definition round1 (a : num) : num :=
  match a with
  | Int x => Int x
  | Float (S754_finite s m e) =>
      match round_half_even (SF2Q false m e * 10) with
      | Zpos k => Float (quotient s k 10)
      | _ => Float (S754_zero s)
      end
  | Float f => Float f
  end.

(** *** Text of numbers *)

Definition str_Z (z : Z) : string := NilZero.string_of_int (Z.to_int z).

Definition digit (d : Z) : ascii := ascii_of_nat (48 + Z.to_nat d).

Fixpoint pad_zeros (width : nat) (s : string) : string :=
  match width with
  | O => s
  | S w => if (String.length s <? width)%nat then pad_zeros w ("0" ++ s) else s
  end.

Fixpoint zeros (n : nat) : string :=
  match n with
  | O => ""
  | S n' => String "0" (zeros n')
  end.

Definition pow10 (e : Z) : Q :=
  match e with
  | Z0 => 1
  | Zpos p => inject_Z (10 ^ e)
  | Zneg p => 1 # (10 ^ p)
  end.

(** The exponent [e] with [10 ^ e <= v < 10 ^ (e + 1)] for a positive [v],
    searched from an estimate. *)
Fixpoint adjust_exponent (fuel : nat) (v : Q) (e : Z) : Z :=
  match fuel with
  | O => e
  | S fuel' =>
      if Qle_bool (pow10 (e + 1)) v then adjust_exponent fuel' v (e + 1)
      else if Qle_bool (pow10 e) v then e
      else adjust_exponent fuel' v (e - 1)
  end.

Definition decimal_exponent (v : Q) : Z :=
  let bits := Z.log2 (Qnum v) - Z.log2 (Zpos (Qden v)) in
  adjust_exponent 8 v (bits * 30103 / 100000).

Definition same_value (f : spec_float) (v : Q) : bool :=
  match float_val f with
  | Real q => Qeq_bool q v
  | _ => false
  end.

(** Among the two decimals of [n] significant digits next to [v], one that
    reads back as [v]: the nearer one, the even one on a tie. *)
Definition shortest_candidate (v : Q) (e : Z) (n : Z) : option Z :=
  let scale := pow10 (e - n + 1) in
  let lo := Qfloor (v / scale) in
  let hi := lo + 1 in
  let lo_ok := same_value (double (inject_Z lo * scale)) v in
  let hi_ok := same_value (double (inject_Z hi * scale)) v in
  match lo_ok, hi_ok with
  | true, true =>
      match (v - inject_Z lo * scale ?= inject_Z hi * scale - v)%Q with
      | Lt => Some lo
      | Gt => Some hi
      | Eq => Some (if Z.even lo then lo else hi)
      end
  | true, false => Some lo
  | false, true => Some hi
  | false, false => None
  end.

Fixpoint shortest_digits (fuel : nat) (v : Q) (e : Z) (n : Z) : Z * Z :=
  match fuel with
  | O => (Qfloor (v / pow10 (e - n + 1)), n)
  | S fuel' =>
      match shortest_candidate v e n with
      | Some c => (c, n)
      | None => shortest_digits fuel' v e (n + 1)
      end
  end.

Fixpoint strip_zeros (fuel : nat) (c : Z) : Z :=
  match fuel with
  | O => c
  | S fuel' =>
      if (c mod 10 =? 0) && negb (c =? 0) then strip_zeros fuel' (c / 10)
      else c
  end.

(** [repr] of a float of positive value [v]: the shortest digits that read
    back as the float, in fixed notation when the decimal point falls in
    (-4, 16], in exponent notation otherwise. *)
Definition repr_positive (v : Q) : string :=
  let e := decimal_exponent v in
  let (c, n) := shortest_digits 17 v e 1 in
  let decpt := if c =? 10 ^ n then e + 2 else e + 1 in
  let digits := str_Z (strip_zeros 20 c) in
  let len := Z.of_nat (String.length digits) in
  if (decpt <=? -4) || (16 <? decpt) then
    let x := decpt - 1 in
    String.substring 0 1 digits
      ++ (if 1 <? len
          then "." ++ String.substring 1 (String.length digits - 1) digits
          else "")
      ++ "e" ++ (if x <? 0 then "-" else "+") ++ pad_zeros 2 (str_Z (Z.abs x))
  else if decpt <=? 0 then "0." ++ zeros (Z.to_nat (- decpt)) ++ digits
  else if len <=? decpt then digits ++ zeros (Z.to_nat (decpt - len)) ++ ".0"
  else String.substring 0 (Z.to_nat decpt) digits ++ "."
         ++ String.substring (Z.to_nat decpt)
              (String.length digits - Z.to_nat decpt) digits.

Definition repr (f : spec_float) : string :=
  match f with
  | S754_nan => "nan"
  | S754_infinity s => if s then "-inf" else "inf"
  | S754_zero s => if s then "-0.0" else "0.0"
  | S754_finite s m e => (if s then "-" else "") ++ repr_positive (SF2Q false m e)
  end.

(** [str(x)], which is also the text of [x] in an f-string and in
    [str.format] without a format specification: the digits of an int, the
    [repr] of a float ([str(23.456) = '23.456'], [str(80.0) = '80.0']). *)
Definition str (a : num) : string :=
  match a with
  | Int x => str_Z x
  | Float f => repr f
  end.

(** *** The format mini-language, as far as the program uses it:
    [[+].<precision>f].  A point that is not followed by a digit is
    refused, as CPython does ("Format specifier missing precision"). *)

Definition is_digit (c : ascii) : bool :=
  let n := nat_of_ascii c in (48 <=? n)%nat && (n <=? 57)%nat.

Fixpoint read_digits (s : string) (acc : option nat) : option nat * string :=
  match s with
  | String c rest =>
      if is_digit c
      then read_digits rest (Some (10 * get acc 0 + (nat_of_ascii c - 48))%nat)
      else (acc, s)
  | EmptyString => (acc, s)
  end.

(** The digits of a non-negative [q] with [p] decimals, correctly
    rounded. *)
Definition fixed_digits (p : nat) (q : Q) : string :=
  let scale := 10 ^ Z.of_nat p in
  let k := round_half_even (q * inject_Z scale) in
  let ip := str_Z (k / scale) in
  match p with
  | O => ip
  | _ => ip ++ "." ++ pad_zeros p (str_Z (k mod scale))
  end.

Definition sign_text (plus s : bool) : string :=
  if s then "-" else if plus then "+" else "".

Definition signbit (f : spec_float) : bool :=
  match f with
  | S754_zero s | S754_infinity s | S754_finite s _ _ => s
  | S754_nan => false
  end.

(** The absolute value of a finite float. *)
Definition magnitude (f : spec_float) : Q :=
  match f with
  | S754_finite _ m e => SF2Q false m e
  | _ => 0
  end.

(** Fixed-point text of a float: the sign is the sign bit, also on a zero
    and on a value that rounds to zero. *)
Definition fixed (plus : bool) (p : nat) (f : spec_float) : string :=
  match f with
  | S754_nan => (if plus then "+" else "") ++ "nan"
  | S754_infinity s => sign_text plus s ++ "inf"
  | _ => sign_text plus (signbit f) ++ fixed_digits p (magnitude f)
  end.

(** [format(x, spec)]: the specification is read first, then an int is
    converted to float. *)
Definition format (a : num) (spec : string) : result string :=
  let (plus, s1) :=
    match spec with
    | String "+" rest => (true, rest)
    | _ => (false, spec)
    end in
  match s1 with
  | String "." s2 =>
      match read_digits s2 None with
      | (None, _) => Raise (ValueError "Format specifier missing precision")
      | (Some p, "f") => f <- to_float a ;; Ok (fixed plus p f)
      | (Some _, _) => Raise (ValueError "Invalid format specifier")
      end
  | _ => Raise (ValueError "Invalid format specifier")
  end.

(** *** Strings *)

Definition nl : string := String (ascii_of_nat 10) "".

(** [needle in hay]. *)
Fixpoint contains (needle hay : string) : bool :=
  prefix needle hay ||
  match hay with
  | String _ rest => contains needle rest
  | EmptyString => false
  end.

(** [sep.join(parts)]. *)
Fixpoint join (sep : string) (parts : list string) : string :=
  match parts with
  | [] => ""
  | [p] => p
  | p :: rest => p ++ sep ++ join sep rest
  end.

(** *** The module [statistics]

    The data are summed as exact fractions; an infinity or a NaN among
    them replaces the sum by the float sum of the infinities and NaNs. *)

Definition is_int (a : num) : bool :=
  match a with
  | Int _ => true
  | Float _ => false
  end.

Definition is_finite (a : num) : bool :=
  match val a with
  | Real _ => true
  | _ => false
  end.

(** [x.as_integer_ratio()] on a finite number. *)
Definition exact (a : num) : Q :=
  match val a with
  | Real q => q
  | _ => 0
  end.

Definition total (data : list num) : Q :=
  fold_right (fun a acc => exact a + acc)%Q 0%Q data.

Definition total_of_squares (data : list num) : Q :=
  fold_right (fun a acc => exact a * exact a + acc)%Q 0%Q data.

(** The sum of the infinities and NaNs of the data, in their order. *)
Definition special_total (data : list num) : spec_float :=
  fold_left
    (fun acc a =>
       match a with
       | Float f => if is_finite a then acc else SFadd prec emax acc f
       | Int _ => acc
       end)
    data (S754_zero false).

(** [statistics.mean]: the exact mean, returned as an int when every datum
    is an int and the mean is integral, converted to the nearest float
    otherwise; no data is an error. *)
Definition mean (data : list num) : result num :=
  match data with
  | [] => Raise (StatisticsError "mean requires at least one data point")
  | _ =>
      let n := Z.of_nat (List.length data) in
      if forallb is_finite data then
        let m := Qred (total data / inject_Z n) in
        if forallb is_int data && (Qden m =? 1)%positive
        then Ok (Int (Qnum m))
        else f <- true_div (Qnum m) (Qden m) ;; Ok (Float f)
      else
        count <- to_float (Int n) ;;
        Ok (Float (SFdiv prec emax (special_total data) count))
  end.

(** [z.bit_length()]. *)
Definition bit_length (z : Z) : Z :=
  if z =? 0 then 0 else Z.log2 (Z.abs z) + 1.

(** The square root of [n / m] rounded to an integer, to the odd one when
    it is not exact. *)
Definition _integer_sqrt_of_frac_rto (n m : Z) : Z :=
  let a := Z.sqrt (n / m) in
  Z.lor a (if a * a * m =? n then 0 else 1).

(** The square root of [n / m] as a float, correctly rounded. *)
Definition _float_sqrt_of_frac (n m : Z) : result spec_float :=
  let q := (bit_length n - bit_length m - 109) / 2 in
  if 0 <=? q then
    true_div (Z.shiftl (_integer_sqrt_of_frac_rto n (Z.shiftl m (2 * q))) q) 1
  else
    true_div (_integer_sqrt_of_frac_rto (Z.shiftl n (- 2 * q)) m)
      (Z.to_pos (Z.shiftl 1 (- q))).

(** [statistics.stdev]: the root of the exact sample variance; an infinity
    or a NaN among the data ends in [AttributeError]. *)
Definition stdev (data : list num) : result num :=
  let n := Z.of_nat (List.length data) in
  if n <? 2
  then Raise (StatisticsError "stdev requires at least two data points")
  else if forallb is_finite data then
    let count := inject_Z n in
    let sx := total data in
    let sxx := total_of_squares data in
    let ssd := ((count * sxx - sx * sx) / count)%Q in
    let mss := Qred (ssd / (count - 1))%Q in
    f <- _float_sqrt_of_frac (Qnum mss) (Zpos (Qden mss)) ;;
    Ok (Float f)
  else Raise (AttributeError "'float' object has no attribute 'numerator'").

End Py.

(** ** The class [WeatherAnalyzer] *)

Module WeatherAnalyzer.

Import Py.

(** The forecast of a day, and a day of the history: the dictionary built by
    [get_weather_forecast] in [src/main.py]. *)
Record WeatherData : Type := {
  date : option string;
  temp_max : option num;
  temp_min : option num;
  weather : option string;
  humidity : option num;
  precipitation_probability : option num;
  wind_scale : option string;
  wind_dir : option string
}.

(** [self.analysis_config], the section ['analysis'] of the configuration. *)
Record AnalysisConfig : Type := {
  temp_change_threshold : option num;
  temp_diff_threshold : option num;
  hot_warning_temp : option num;
  cold_warning_temp : option num
}.

(** [config.get('analysis', {})] when the section is absent or empty. *)
Definition default_config : AnalysisConfig :=
  {| temp_change_threshold := None; temp_diff_threshold := None;
     hot_warning_temp := None; cold_warning_temp := None |}.

(** The dictionary under ['temperature_trend']: empty, reduced to ['trend']
    (no history) or complete.  Field [tt_k] is key [k]. *)
Record TemperatureTrend : Type := {
  tt_trend : option string;
  tt_max_temp_change : option num;
  tt_min_temp_change : option num;
  tt_avg_max_temp : option num;
  tt_avg_min_temp : option num;
  tt_tomorrow_diff : option num;
  tt_avg_hist_diff : option num;
  tt_volatility : option string;
  tt_temp_std : option num
}.

Definition empty_trend : TemperatureTrend :=
  {| tt_trend := None; tt_max_temp_change := None; tt_min_temp_change := None;
     tt_avg_max_temp := None; tt_avg_min_temp := None; tt_tomorrow_diff := None;
     tt_avg_hist_diff := None; tt_volatility := None; tt_temp_std := None |}.

Definition present {A : Type} (field : option A) : bool :=
  match field with
  | Some _ => true
  | None => false
  end.

(** Truth value of the dictionary: it has a key. *)
Definition trend_nonempty (t : TemperatureTrend) : bool :=
  present (tt_trend t) || present (tt_max_temp_change t)
  || present (tt_min_temp_change t) || present (tt_avg_max_temp t)
  || present (tt_avg_min_temp t) || present (tt_tomorrow_diff t)
  || present (tt_avg_hist_diff t) || present (tt_volatility t)
  || present (tt_temp_std t).

(** The dictionary under ['precipitation_trend']; it is only ever built with
    its four keys. *)
Record PrecipitationTrend : Type := {
  pt_probability : num;
  pt_trend : string;
  pt_recent_rainy_days : nat;
  pt_weather_desc : string
}.

(** The dictionary under ['comfort_analysis']; it is only ever built with
    its four keys. *)
Record ComfortAnalysis : Type := {
  ca_apparent_temp : num;
  ca_comfort_level : string;
  ca_humidity : num;
  ca_temp_diff : num
}.

(** The dictionary under ['suggestions']: empty, or with its three keys. *)
Record Suggestions : Type := {
  clothing : option string;
  activity : option string;
  health : option string
}.

Definition no_suggestions : Suggestions :=
  {| clothing := None; activity := None; health := None |}.

Definition suggestions_nonempty (s : Suggestions) : bool :=
  present (clothing s) || present (activity s) || present (health s).

(** The analysis; the keys ['precipitation_trend'] and ['comfort_analysis']
    are absent from the report without history. *)
Record Analysis : Type := {
  tomorrow : WeatherData;
  temperature_trend : TemperatureTrend;
  precipitation_trend : option PrecipitationTrend;
  comfort_analysis : option ComfortAnalysis;
  weather_warnings : list string;
  suggestions : Suggestions
}.

(** [[f(h) for h in l if f is defined on h]]. *)
Fixpoint collect {A B : Type} (f : A -> option B) (l : list A) : list B :=
  match l with
  | [] => []
  | h :: rest =>
      match f h with
      | Some b => b :: collect f rest
      | None => collect f rest
      end
  end.

Section Methods.

Variable analysis_config : AnalysisConfig.

Definition _analyze_temperature_trend (tomorrow : WeatherData)
    (historical : list WeatherData) : result TemperatureTrend :=
  let hist_max_temps := collect temp_max historical in
  let hist_min_temps := collect temp_min historical in
  match hist_max_temps with
  | [] => Ok empty_trend
  | _ :: _ =>
      avg_max_temp <- mean hist_max_temps ;;
      avg_min_temp <- mean hist_min_temps ;;
      t_max <- getitem "temp_max" (temp_max tomorrow) ;;
      max_temp_change <- sub t_max avg_max_temp ;;
      t_min <- getitem "temp_min" (temp_min tomorrow) ;;
      min_temp_change <- sub t_min avg_min_temp ;;
      temp_std <-
        (if (1 <? List.length hist_max_temps)%nat
         then stdev hist_max_temps else Ok (Int 0)) ;;
      let trend :=
        if gt (abs max_temp_change)
              (get (temp_change_threshold analysis_config) (Int 3))
        then (if gt max_temp_change (Int 0) then "显著升温" else "显著降温")
        else if gt (abs max_temp_change) (Float (double (3 # 2)))
        then (if gt max_temp_change (Int 0) then "小幅升温" else "小幅降温")
        else "稳定" in
      tomorrow_diff <- sub t_max t_min ;;
      avg_hist_diff <- sub avg_max_temp avg_min_temp ;;
      Ok {| tt_trend := Some trend;
            tt_max_temp_change := Some (round1 max_temp_change);
            tt_min_temp_change := Some (round1 min_temp_change);
            tt_avg_max_temp := Some (round1 avg_max_temp);
            tt_avg_min_temp := Some (round1 avg_min_temp);
            tt_tomorrow_diff := Some (round1 tomorrow_diff);
            tt_avg_hist_diff := Some (round1 avg_hist_diff);
            tt_volatility :=
              Some (if gt temp_std (Int 5) then "high" else "normal");
            tt_temp_std := Some (round1 temp_std) |}
  end.

Definition is_rainy (h : WeatherData) : bool :=
  contains "雨" (get (weather h) "")
  || gt (get (precipitation_probability h) (Int 0)) (Int 50).

Definition _analyze_precipitation (tomorrow : WeatherData)
    (historical : list WeatherData) : PrecipitationTrend :=
  let rain_prob := get (precipitation_probability tomorrow) (Int 0) in
  let recent_rainy_days := List.length (filter is_rainy historical) in
  let rain_trend :=
    if gt rain_prob (Int 70) then "大概率降雨"
    else if gt rain_prob (Int 40) then "可能降雨"
    else "少雨" in
  {| pt_probability := rain_prob;
     pt_trend := rain_trend;
     pt_recent_rainy_days := recent_rainy_days;
     pt_weather_desc := get (weather tomorrow) "未知" |}.

(** The local [apparent_temp] of [_analyze_comfort], before it is rounded
    for the report. *)
Definition apparent_temp (t_max hum : num) : result num :=
  if gt t_max (Int 25)
  then excess <- sub hum (Int 50) ;;
       share <- mul excess (Float (double (1 # 10))) ;;
       add t_max share
  else Ok t_max.

(** The rating of [_analyze_comfort]. *)
Definition comfort_level (apparent : num) : string :=
  if le (Int 18) apparent && le apparent (Int 26) then "舒适"
  else if (le (Int 15) apparent && lt apparent (Int 18))
          || (lt (Int 26) apparent && le apparent (Int 30)) then "较舒适"
  else if lt apparent (Int 15) then "偏冷"
  else "偏热".

Definition _analyze_comfort (tomorrow : WeatherData)
    (historical : list WeatherData) : result ComfortAnalysis :=
  t_max <- getitem "temp_max" (temp_max tomorrow) ;;
  t_min <- getitem "temp_min" (temp_min tomorrow) ;;
  let hum := get (humidity tomorrow) (Int 50) in
  apparent <- apparent_temp t_max hum ;;
  temp_diff <- sub t_max t_min ;;
  Ok {| ca_apparent_temp := round1 apparent;
        ca_comfort_level := comfort_level apparent;
        ca_humidity := hum;
        ca_temp_diff := temp_diff |}.

(** The five warning texts. *)
Definition hot_warning (t_max : num) : string :=
  "⚠️ 高温预警：明天最高温度将达到" ++ str t_max ++ "°C，请注意防暑降温".

Definition cold_warning (t_min : num) : string :=
  "⚠️ 低温预警：明天最低温度" ++ str t_min ++ "°C，注意保暖防寒".

Definition diff_warning (temp_diff : num) : string :=
  "⚠️ 温差较大：早晚温差达" ++ str (round1 temp_diff) ++ "°C，注意适时增减衣物".

Definition rain_warning (prob : num) : string :=
  "⚠️ 降雨预警：明天降雨概率" ++ str prob ++ "%，记得带伞".

Definition change_warning (temp_change : num) : string :=
  let direction := if gt temp_change (Int 0) then "升高" else "降低" in
  "⚠️ 气温剧变：较今天" ++ direction ++ str (abs (round1 temp_change))
    ++ "°C，请注意身体适应".

Definition _check_warnings (tomorrow : WeatherData)
    (historical : list WeatherData) : result (list string) :=
  let warnings : list string := [] in
  t_max <- getitem "temp_max" (temp_max tomorrow) ;;
  let warnings :=
    if ge t_max (get (hot_warning_temp analysis_config) (Int 35))
    then (warnings ++ [hot_warning t_max])%list else warnings in
  t_min <- getitem "temp_min" (temp_min tomorrow) ;;
  let warnings :=
    if le t_min (get (cold_warning_temp analysis_config) (Int 5))
    then (warnings ++ [cold_warning t_min])%list else warnings in
  temp_diff <- sub t_max t_min ;;
  let warnings :=
    if gt temp_diff (get (temp_diff_threshold analysis_config) (Int 10))
    then (warnings ++ [diff_warning temp_diff])%list else warnings in
  warnings <-
    (if gt (get (precipitation_probability tomorrow) (Int 0)) (Int 70)
     then prob <- getitem "precipitation_probability"
                    (precipitation_probability tomorrow) ;;
          Ok (warnings ++ [rain_warning prob])%list
     else Ok warnings) ;;
  match historical with
  | [] => Ok warnings
  | last_day :: _ =>
      temp_change <- sub t_max (get (temp_max last_day) t_max) ;;
      if gt (abs temp_change) (Int 8)
      then Ok (warnings ++ [change_warning temp_change])%list
      else Ok warnings
  end.

Definition morning_clothing (t_min : num) : string :=
  if lt t_min (Int (-5)) then "🧥 厚羽绒服 + 毛衣 + 保暖内衣"
  else if lt t_min (Int 0) then "🧥 羽绒服/厚棉衣 + 毛衣"
  else if lt t_min (Int 5) then "🧥 厚外套/大衣 + 毛衣"
  else if lt t_min (Int 10) then "🧥 夹克/风衣 + 卫衣/毛衣"
  else if lt t_min (Int 15) then "👔 外套 + 长袖"
  else if lt t_min (Int 20) then "👕 长袖衬衫/卫衣"
  else if lt t_min (Int 25) then "👕 短袖 + 薄外套（备用）"
  else "👕 短袖 + 短裤".

(** The format specification of the first midday tip is written [". 0f"] in
    the source, with a space after the point; the others are [".0f"]. *)
Definition _get_clothing_suggestion (t_max t_min apparent : num)
    : result string :=
  temp_diff <- sub t_max t_min ;;
  let morning := morning_clothing t_min in
  if ge temp_diff (Int 12) then
    midday_tip <-
      (if ge t_max (Int 20) then
         f <- format t_max ". 0f" ;;
         Ok ("中午可达" ++ f ++ "°C，可脱至长袖或短袖")
       else if ge t_max (Int 15) then
         f <- format t_max ".0f" ;;
         Ok ("中午可达" ++ f ++ "°C，可脱外套")
       else
         f <- format t_max ".0f" ;;
         Ok ("中午可达" ++ f ++ "°C，可适当减少衣物")) ;;
    d <- format temp_diff ".0f" ;;
    Ok ("**早晚**：" ++ morning ++ nl ++ "**温差提示**：⚠️ 温差" ++ d ++ "°C，"
          ++ midday_tip ++ "，建议洋葱式穿衣")
  else if ge temp_diff (Int 8) then
    midday_tip <-
      (if ge t_max (Int 20) then
         f <- format t_max ".0f" ;;
         Ok ("中午" ++ f ++ "°C较暖，可减少外套")
       else
         f <- format t_max ".0f" ;;
         Ok ("中午" ++ f ++ "°C，可适当减衣")) ;;
    d <- format temp_diff ".0f" ;;
    Ok (morning ++ nl ++ "💡 温差" ++ d ++ "°C，" ++ midday_tip)
  else Ok morning.

Definition _get_activity_suggestion (weather comfort : string) (rain_prob : num)
    : string :=
  if gt rain_prob (Int 70) then "☔ 不适宜户外活动，建议室内运动或休息"
  else if contains "雨" weather || contains "雪" weather
  then "🏠 户外活动受限，可选择室内健身、看书等"
  else if String.eqb comfort "舒适" then "🎯 天气宜人，适合户外运动、郊游、散步"
  else if String.eqb comfort "较舒适" then "🚶 适合适度户外活动，避免剧烈运动"
  else if String.eqb comfort "偏热"
  then "🌡️ 天气较热，户外活动请选择早晚时段，注意防暑"
  else if String.eqb comfort "偏冷" then "❄️ 天气较冷，户外活动请做好保暖措施"
  else "🚶 可适度户外活动".

Definition _get_health_suggestion (trend : string) (t_max t_min : num)
    : result string :=
  let suggestions : list string := [] in
  let suggestions :=
    if contains "降温" trend
    then (suggestions ++ ["气温下降，注意预防感冒"])%list
    else if contains "升温" trend
    then (suggestions ++ ["气温上升，注意补充水分"])%list
    else suggestions in
  temp_diff <- sub t_max t_min ;;
  let suggestions :=
    if gt temp_diff (Int 12)
    then (suggestions ++ ["温差较大，心血管疾病患者请注意"])%list
    else suggestions in
  let suggestions :=
    if lt t_min (Int 10)
    then (suggestions ++ ["早晨气温低，晨练请做好保暖"])%list
    else suggestions in
  let suggestions :=
    if gt t_max (Int 30)
    then (suggestions ++ ["气温较高，避免长时间户外暴晒"])%list
    else suggestions in
  match suggestions with
  | [] => Ok "💊 天气适宜，注意规律作息"
  | _ :: _ => Ok ("💊 " ++ join "；" suggestions)
  end.

Definition _generate_suggestions (analysis : Analysis) : result Suggestions :=
  let tomorrow := tomorrow analysis in
  let temp_trend := temperature_trend analysis in
  let comfort := comfort_analysis analysis in
  t_max <- getitem "temp_max" (temp_max tomorrow) ;;
  t_min <- getitem "temp_min" (temp_min tomorrow) ;;
  default_apparent <- getitem "temp_max" (temp_max tomorrow) ;;
  clothing <-
    _get_clothing_suggestion t_max t_min
      (match comfort with
       | Some c => ca_apparent_temp c
       | None => default_apparent
       end) ;;
  let activity :=
    _get_activity_suggestion
      (get (weather tomorrow) "")
      (match comfort with
       | Some c => ca_comfort_level c
       | None => ""
       end)
      (get (precipitation_probability tomorrow) (Int 0)) in
  t_max' <- getitem "temp_max" (temp_max tomorrow) ;;
  t_min' <- getitem "temp_min" (temp_min tomorrow) ;;
  health <-
    _get_health_suggestion (get (tt_trend temp_trend) "") t_max' t_min' ;;
  Ok {| clothing := Some clothing;
        activity := Some activity;
        health := Some health |}.

Definition _generate_simple_report (tomorrow : WeatherData) : result Analysis :=
  t_max <- getitem "temp_max" (temp_max tomorrow) ;;
  t_min <- getitem "temp_min" (temp_min tomorrow) ;;
  apparent <- getitem "temp_max" (temp_max tomorrow) ;;
  clothing <- _get_clothing_suggestion t_max t_min apparent ;;
  Ok {| tomorrow := tomorrow;
        temperature_trend :=
          {| tt_trend := Some "暂无历史数据对比";
             tt_max_temp_change := None; tt_min_temp_change := None;
             tt_avg_max_temp := None; tt_avg_min_temp := None;
             tt_tomorrow_diff := None; tt_avg_hist_diff := None;
             tt_volatility := None; tt_temp_std := None |};
        precipitation_trend := None;
        comfort_analysis := None;
        weather_warnings := [];
        suggestions :=
          {| clothing := Some clothing;
             activity := Some "暂无建议";
             health := Some "注意关注天气变化" |} |}.

Definition analyze_weather_trend (tomorrow : WeatherData)
    (historical : list WeatherData) : result Analysis :=
  match historical with
  | [] => _generate_simple_report tomorrow
  | _ :: _ =>
      temperature_trend <- _analyze_temperature_trend tomorrow historical ;;
      let precipitation_trend := _analyze_precipitation tomorrow historical in
      comfort_analysis <- _analyze_comfort tomorrow historical ;;
      weather_warnings <- _check_warnings tomorrow historical ;;
      let analysis :=
        {| tomorrow := tomorrow;
           temperature_trend := temperature_trend;
           precipitation_trend := Some precipitation_trend;
           comfort_analysis := Some comfort_analysis;
           weather_warnings := weather_warnings;
           suggestions := no_suggestions |} in
      suggestions <- _generate_suggestions analysis ;;
      Ok {| tomorrow := tomorrow;
            temperature_trend := temperature_trend;
            precipitation_trend := Some precipitation_trend;
            comfort_analysis := Some comfort_analysis;
            weather_warnings := weather_warnings;
            suggestions := suggestions |}
  end.

End Methods.

(** ** Rendering

    [format_report] appends one f-string per section of the report; each
    of them is a definition below, named after its section.  A sub-dictionary
    of the analysis is rendered when it is not empty: [precip] and
    [comfort] are absent or built with all their keys, so that their
    [.get(key, default)] never falls back on the default. *)

(** A reading of the clock, [datetime.now()]. *)
Record datetime : Type := {
  year : Z; month : Z; day : Z; hour : Z; minute : Z; second : Z
}.

(** [now.strftime('%Y-%m-%d %H:%M:%S')]. *)
Definition strftime (now : datetime) : string :=
  pad_zeros 4 (str_Z (year now)) ++ "-" ++ pad_zeros 2 (str_Z (month now))
    ++ "-" ++ pad_zeros 2 (str_Z (day now)) ++ " "
    ++ pad_zeros 2 (str_Z (hour now)) ++ ":" ++ pad_zeros 2 (str_Z (minute now))
    ++ ":" ++ pad_zeros 2 (str_Z (second now)).

Definition header_section (tomorrow : WeatherData) : result string :=
  d <- getitem "date" (date tomorrow) ;;
  t_min <- getitem "temp_min" (temp_min tomorrow) ;;
  t_max <- getitem "temp_max" (temp_max tomorrow) ;;
  Ok ("# 🌤️ 南京明日天气播报" ++ nl ++ nl
      ++ "## 📅 基本信息" ++ nl
      ++ "**日期**:  " ++ d ++ "  " ++ nl
      ++ "**天气**: " ++ get (weather tomorrow) "未知" ++ "  " ++ nl
      ++ "**温度**: " ++ str t_min ++ "°C ~ " ++ str t_max ++ "°C  " ++ nl
      ++ "**湿度**: "
      ++ match humidity tomorrow with Some h => str h | None => "-" end
      ++ "%  " ++ nl
      ++ "**风力**: " ++ get (wind_scale tomorrow) "-" ++ nl ++ nl).

Definition trend_section (temp_trend : TemperatureTrend) : result string :=
  max_change <- format (get (tt_max_temp_change temp_trend) (Int 0)) "+.1f" ;;
  min_change <- format (get (tt_min_temp_change temp_trend) (Int 0)) "+.1f" ;;
  t_diff <- format (get (tt_tomorrow_diff temp_trend) (Int 0)) ".1f" ;;
  h_diff <- format (get (tt_avg_hist_diff temp_trend) (Int 0)) ".1f" ;;
  Ok ("## 📊 温度趋势分析" ++ nl
      ++ "**趋势**: " ++ get (tt_trend temp_trend) "稳定" ++ "  " ++ nl
      ++ "**较近期平均温度**: 最高温" ++ max_change ++ "°C，最低温" ++ min_change
      ++ "°C  " ++ nl
      ++ "**早晚温差**: " ++ t_diff ++ "°C  " ++ nl
      ++ "**近期平均温差**: " ++ h_diff ++ "°C  " ++ nl ++ nl).

Definition precipitation_section (precip : PrecipitationTrend) : string :=
  "## 🌧️ 降水分析" ++ nl
  ++ "**降水概率**: " ++ str (pt_probability precip) ++ "%  " ++ nl
  ++ "**趋势**: " ++ pt_trend precip ++ "  " ++ nl
  ++ "**近7天降雨**:  " ++ str_Z (Z.of_nat (pt_recent_rainy_days precip))
  ++ "天  " ++ nl ++ nl.

Definition comfort_section (comfort : ComfortAnalysis) : string :=
  "## 🌡️ 体感舒适度" ++ nl
  ++ "**体感温度**: " ++ str (ca_apparent_temp comfort) ++ "°C  " ++ nl
  ++ "**舒适等级**: " ++ ca_comfort_level comfort ++ "  " ++ nl ++ nl.

Definition warnings_section (warnings : list string) : string :=
  match warnings with
  | [] => ""
  | _ :: _ =>
      fold_left (fun report warning => report ++ warning ++ nl ++ nl)
        warnings ("## ⚠️ 天气预警" ++ nl)
  end.

Definition suggestions_section (s : Suggestions) : string :=
  "## 💡 生活建议" ++ nl ++ nl
  ++ "**穿衣建议**  " ++ nl ++ get (clothing s) "暂无建议" ++ nl ++ nl
  ++ "**活动建议**  " ++ nl ++ get (activity s) "暂无建议" ++ nl ++ nl
  ++ "**健康提示**  " ++ nl ++ get (health s) "暂无建议" ++ nl ++ nl.

Definition footer (now : datetime) : string :=
  "---" ++ nl ++ "*数据来源: 和风天气*  " ++ nl
  ++ "*生成时间: " ++ strftime now ++ "*" ++ nl.

Definition format_report (now : datetime) (analysis : Analysis)
    : result string :=
  report <- header_section (tomorrow analysis) ;;
  report <-
    (if trend_nonempty (temperature_trend analysis)
     then section <- trend_section (temperature_trend analysis) ;;
          Ok (report ++ section)
     else Ok report) ;;
  let report :=
    match precipitation_trend analysis with
    | Some precip => report ++ precipitation_section precip
    | None => report
    end in
  let report :=
    match comfort_analysis analysis with
    | Some comfort => report ++ comfort_section comfort
    | None => report
    end in
  let report := report ++ warnings_section (weather_warnings analysis) in
  let report :=
    if suggestions_nonempty (suggestions analysis)
    then report ++ suggestions_section (suggestions analysis)
    else report in
  Ok (report ++ footer now).

End WeatherAnalyzer.

(** ** The class [DataManager] of [src/data_manager.py]

    The two JSON files are the state.  A file is missing, unreadable (not
    JSON) or holds a dictionary; [_load_json] answers the empty dictionary
    for the first two.  A write is taken to succeed: a failing disk is
    outside the model.  The readings of the clock are arguments. *)

Module DataManager.

Import Py WeatherAnalyzer.

Inductive file (A : Type) : Type :=
| Missing
| Unreadable
| Holds (content : A).

Arguments Missing {A}.
Arguments Unreadable {A}.
Arguments Holds {A} content.

(** The dictionary of [weather_data.json]: the key ['records'], and the
    other keys, which the program carries over and never reads. *)
Record DataDoc : Type := {
  records : option (list WeatherData);
  other_keys : list (string * string)
}.

(** The dictionary of [run_record.json]. *)
Record RunRecord : Type := {
  last_run_date : option string;
  last_run_time : option string
}.

Record Store : Type := {
  data_file : file DataDoc;
  record_file : file RunRecord
}.

Definition empty_doc : DataDoc := {| records := None; other_keys := [] |}.

Definition empty_record : RunRecord :=
  {| last_run_date := None; last_run_time := None |}.

Definition _ensure_files (s : Store) : Store :=
  {| data_file :=
       match data_file s with
       | Missing => Holds {| records := Some []; other_keys := [] |}
       | f => f
       end;
     record_file :=
       match record_file s with
       | Missing => Holds empty_record
       | f => f
       end |}.

Definition _load_json {A : Type} (empty : A) (f : file A) : A :=
  match f with
  | Holds content => content
  | Missing | Unreadable => empty
  end.

(** [now.strftime('%Y-%m-%d')]. *)
Definition strftime_date (now : datetime) : string :=
  pad_zeros 4 (str_Z (year now)) ++ "-" ++ pad_zeros 2 (str_Z (month now))
    ++ "-" ++ pad_zeros 2 (str_Z (day now)).

(** [[(x['date'], x) for x in records]]: the keys that [list.sort] computes
    before it moves anything; a record without date raises [KeyError] and
    leaves the list as it was. *)
Fixpoint keyed (l : list WeatherData) : result (list (string * WeatherData)) :=
  match l with
  | [] => Ok []
  | x :: rest =>
      k <- getitem "date" (date x) ;;
      ks <- keyed rest ;;
      Ok ((k, x) :: ks)
  end.

(** Insertion in a list sorted by decreasing key, before the first element
    whose key is not greater: elements of equal key keep their order. *)
Fixpoint insert_desc (x : string * WeatherData)
    (l : list (string * WeatherData)) : list (string * WeatherData) :=
  match l with
  | [] => [x]
  | y :: rest =>
      if String.ltb (fst x) (fst y) then y :: insert_desc x rest
      else x :: y :: rest
  end.

Fixpoint sort_desc (l : list (string * WeatherData))
    : list (string * WeatherData) :=
  match l with
  | [] => []
  | x :: rest => insert_desc x (sort_desc rest)
  end.

(** [records.sort(key=lambda x: x['date'], reverse=True)]: the stable sort
    on decreasing dates. *)
Definition sort_by_date_reverse (l : list WeatherData)
    : result (list WeatherData) :=
  ks <- keyed l ;; Ok (map snd (sort_desc ks)).

(** [l[:n]] for an int [n]: a negative [n] counts from the end. *)
Definition slice_to {A : Type} (n : Z) (l : list A) : list A :=
  if 0 <=? n then firstn (Z.to_nat n) l
  else firstn (List.length l - Z.to_nat (- n)) l.

Definition get_historical_data (days : Z) (s : Store)
    : result (list WeatherData) :=
  let data := _load_json empty_doc (data_file s) in
  let records := get (records data) [] in
  records <- sort_by_date_reverse records ;;
  Ok (slice_to days records).

Definition save_weather_data (weather_data : WeatherData) (s : Store)
    : result Store :=
  let data := _load_json empty_doc (data_file s) in
  let records := get (records data) [] in
  let records := (records ++ [weather_data])%list in
  records <- sort_by_date_reverse records ;;
  let records := slice_to 60 records in
  Ok {| data_file :=
          Holds {| records := Some records; other_keys := other_keys data |};
        record_file := record_file s |}.

(** [cutoff] is the value of [datetime.now() - timedelta(days=days)]. *)
Definition cleanup_old_data (cutoff : datetime) (s : Store) : result Store :=
  let data := _load_json empty_doc (data_file s) in
  let records := get (records data) [] in
  let cutoff_date := strftime_date cutoff in
  ks <- keyed records ;;
  let records :=
    map snd (filter (fun kx => String.leb cutoff_date (fst kx)) ks) in
  Ok {| data_file :=
          Holds {| records := Some records; other_keys := other_keys data |};
        record_file := record_file s |}.

Definition check_already_run_today (now : datetime) (s : Store) : bool :=
  let record := _load_json empty_record (record_file s) in
  let today := strftime_date now in
  match last_run_date record with
  | Some last_run => String.eqb last_run today
  | None => false
  end.

(** The clock is read twice, once for each key. *)
Definition update_run_record (now1 now2 : datetime) (s : Store) : Store :=
  {| data_file := data_file s;
     record_file :=
       Holds {| last_run_date := Some (strftime_date now1);
                last_run_time := Some (strftime now2) |} |}.

End DataManager.

(** ** The class [WeatherBot] of [src/main.py]: the gate and the retries *)

Module WeatherBot.

Import Py WeatherAnalyzer DataManager.

(** [config['settings']], as far as the two methods read it. *)
Record Settings : Type := {
  start_hour : Z;
  end_hour : Z;
  retry_interval : Z
}.

(** [should_run]; [today] is the reading of the clock made by
    [check_already_run_today], [now] the one made next. *)
Definition should_run (settings : Settings) (today now : datetime) (s : Store)
    : bool * string :=
  if check_already_run_today today s then (false, "今天已经运行过")
  else if negb ((start_hour settings <=? hour now)
                && (hour now <? end_hour settings))
  then (false,
        "当前时间" ++ str_Z (hour now) ++ ":" ++ str_Z (minute now)
          ++ "不在执行窗口(" ++ str_Z (start_hour settings) ++ ": 00-"
          ++ str_Z (end_hour settings) ++ ": 00)")
  else (true, "可以执行").

(** What one pass through the [try] statement of [get_weather_forecast]
    ends in: the request, its decoding and the conversion of the fields
    belong to the environment. *)
Inductive attempt : Type :=
| Fetched (weather_data : WeatherData)
| Refused
| Failed.

(** What the method does that can be seen from outside. *)
Inductive event : Type :=
| Request (number : nat)
| Sleep (seconds : Z).

Inductive fetch : Type :=
| Forecast (weather_data : WeatherData)
| GaveUp.

(** The loop [for attempt in range(retry_times)], from [attempt] on, with
    [remaining] turns left; [answer n] is what the [n]-th pass ends in. *)
Fixpoint retry_loop (settings : Settings) (answer : nat -> attempt)
    (retry_times : Z) (attempt : nat) (remaining : nat)
    : fetch * list event :=
  match remaining with
  | O => (GaveUp, [])
  | S remaining' =>
      match answer attempt with
      | Fetched weather_data => (Forecast weather_data, [Request attempt])
      | Refused | Failed =>
          let pause :=
            if Z.of_nat attempt <? retry_times - 1
            then [Sleep (retry_interval settings)] else [] in
          let (outcome, events) :=
            retry_loop settings answer retry_times (S attempt) remaining' in
          (outcome, (Request attempt :: pause ++ events)%list)
      end
  end.

(** [get_weather_forecast]; [GaveUp] is the exception raised after the
    loop. *)
Definition get_weather_forecast (settings : Settings)
    (answer : nat -> attempt) (retry_times : Z) : fetch * list event :=
  retry_loop settings answer retry_times 0 (Z.to_nat retry_times).

End WeatherBot.
(** * Definitions of the specification *)

Import WeatherAnalyzer.

(** ** The order on numbers

    [a < b] and [a <= b] on the numbers denoted; both are false as soon as
    one side is NaN. *)

Definition value_lt (a b : Py.value) : Prop :=
  match a, b with
  | Py.Real p, Py.Real q => (p < q)%Q
  | Py.NegInf, Py.Real _ | Py.NegInf, Py.PosInf | Py.Real _, Py.PosInf => True
  | _, _ => False
  end.

Definition value_le (a b : Py.value) : Prop :=
  match a, b with
  | Py.Real p, Py.Real q => (p <= q)%Q
  | Py.NegInf, Py.NegInf | Py.PosInf, Py.PosInf => True
  | Py.NegInf, Py.Real _ | Py.NegInf, Py.PosInf | Py.Real _, Py.PosInf => True
  | _, _ => False
  end.

Definition num_lt (a b : Py.num) : Prop := value_lt (Py.val a) (Py.val b).
Definition num_le (a b : Py.num) : Prop := value_le (Py.val a) (Py.val b).

(** [a] is a finite number of value [q]. *)
Definition denotes (a : Py.num) (q : Q) : Prop :=
  match Py.val a with
  | Py.Real p => (p == q)%Q
  | _ => False
  end.

(** An int of at most [2 ^ 1000] in absolute value, or a float: a number
    whose conversion to float, and that of its difference with another such
    number, cannot overflow. *)
Definition moderate (a : Py.num) : Prop :=
  match a with
  | Py.Int z => Z.abs z <= 2 ^ 1000
  | Py.Float _ => True
  end.

(** A finite number of at most [2 ^ 500] in absolute value: the statistics
    of such numbers cannot overflow. *)
Definition ordinary (a : Py.num) : Prop :=
  exists q, Py.val a = Py.Real q /\ (Qabs q <= inject_Z (2 ^ 500))%Q.

(** A record whose temperatures and humidity, where present, are
    ordinary. *)
Definition ordinary_day (d : WeatherData) : Prop :=
  (forall v, temp_max d = Some v -> ordinary v)
  /\ (forall v, temp_min d = Some v -> ordinary v)
  /\ (forall v, humidity d = Some v -> ordinary v).

(** The absolute value of a denoted number. *)
Definition abs_val (v : Py.value) : Py.value :=
  match v with
  | Py.NaN => Py.NaN
  | Py.NegInf | Py.PosInf => Py.PosInf
  | Py.Real q => Py.Real (Qabs q)
  end.

(** ** Warnings *)

Inductive warning_kind : Type := Heat | Cold | Diurnal | Rain | Swing.

(** The order in which [_check_warnings] evaluates its rules. *)
Definition evaluation_order : list warning_kind :=
  [Heat; Cold; Diurnal; Rain; Swing].

Definition rank (k : warning_kind) : nat :=
  match k with
  | Heat => 0
  | Cold => 1
  | Diurnal => 2
  | Rain => 3
  | Swing => 4
  end.

Definition before (a b : warning_kind) : Prop := (rank a < rank b)%nat.

Section Warnings.

Variable cfg : AnalysisConfig.
Variable day : WeatherData.
Variable historical : list WeatherData.
Variables t_max t_min : Py.num.

(** What tomorrow's maximum is compared with for the swing: the [temp_max]
    of the first record of the history, tomorrow's own when the record has
    none. *)
Definition recent_max : Py.num :=
  match historical with
  | last :: _ => get (temp_max last) t_max
  | [] => t_max
  end.

(** The condition of each warning, in the words of the specification; the
    two differences are the ones Python computes. *)
Definition fires (k : warning_kind) : Prop :=
  match k with
  | Heat => num_le (get (hot_warning_temp cfg) (Py.Int 35)) t_max
  | Cold => num_le t_min (get (cold_warning_temp cfg) (Py.Int 5))
  | Diurnal =>
      exists diff,
        Py.sub t_max t_min = Ok diff
        /\ num_lt (get (temp_diff_threshold cfg) (Py.Int 10)) diff
  | Rain => num_lt (Py.Int 70) (get (precipitation_probability day) (Py.Int 0))
  | Swing =>
      exists last rest recent change,
        historical = last :: rest /\ temp_max last = Some recent
        /\ Py.sub t_max recent = Ok change
        /\ num_lt (Py.Int 8) (Py.abs change)
  end.

(** The two differences that the code has computed. *)
Variables diff change : Py.num.

(** The tests of the code. *)
Definition tested (k : warning_kind) : bool :=
  match k with
  | Heat => Py.ge t_max (get (hot_warning_temp cfg) (Py.Int 35))
  | Cold => Py.le t_min (get (cold_warning_temp cfg) (Py.Int 5))
  | Diurnal => Py.gt diff (get (temp_diff_threshold cfg) (Py.Int 10))
  | Rain => Py.gt (get (precipitation_probability day) (Py.Int 0)) (Py.Int 70)
  | Swing =>
      match historical with
      | [] => false
      | _ :: _ => Py.gt (Py.abs change) (Py.Int 8)
      end
  end.

(** The text the code appends for each warning. *)
Definition warning_text (k : warning_kind) : string :=
  match k with
  | Heat => hot_warning t_max
  | Cold => cold_warning t_min
  | Diurnal => diff_warning diff
  | Rain => rain_warning (get (precipitation_probability day) (Py.Int 0))
  | Swing => change_warning change
  end.

End Warnings.

(** The first ten bytes of a warning: the sign and the first character of
    its title, which tell the five warnings apart. *)
Definition tag (w : string) : string := substring 0 10 w.

Definition kind_tag (k : warning_kind) : string :=
  match k with
  | Heat => tag "⚠️ 高"
  | Cold => tag "⚠️ 低"
  | Diurnal => tag "⚠️ 温"
  | Rain => tag "⚠️ 降"
  | Swing => tag "⚠️ 气"
  end.

(** ** Texts *)

(** The clothing part of a composition, exception included. *)
Definition clothing_of (composed : result Suggestions) : result (option string) :=
  s <- composed ;; Ok (clothing s).

Fixpoint digits_only (s : string) : bool :=
  match s with
  | EmptyString => true
  | String c rest => Py.is_digit c && digits_only rest
  end.

(** [x] is printed as a number: it converts to a float that is neither an
    infinity nor a NaN. *)
Definition printable (x : Py.num) : Prop :=
  exists f, Py.to_float x = Ok f /\ Py.is_finite (Py.Float f) = true.

(** A text with exactly one decimal that denotes the float of [x] rounded to
    the nearest tenth: the sign of the float, the digits of the integer
    part, a point and one digit. *)
Definition one_decimal (plus : bool) (x : Py.num) (s : string) : Prop :=
  exists (f : spec_float) (k : Z),
    Py.to_float x = Ok f
    /\ (Qabs (inject_Z k - Py.magnitude f * 10) <= 1 # 2)%Q
    /\ s = Py.sign_text plus (Py.signbit f)
           ++ Py.str_Z (k / 10) ++ "." ++ String (Py.digit (k mod 10)) ""
    /\ digits_only (Py.str_Z (k / 10)) = true
    /\ Py.is_digit (Py.digit (k mod 10)) = true.

(** [x] converts to float: it is a float, or an int within their range. *)
Definition converts (x : Py.num) : Prop := exists f, Py.to_float x = Ok f.

(** A float that is not a NaN and whose sign bit is clear. *)
Definition unsigned (f : spec_float) : Prop :=
  f <> S754_nan /\ Py.signbit f = false.

(** The four figures of the temperature-trend section. *)
Definition trend_figures (t : TemperatureTrend) : list Py.num :=
  [get (tt_max_temp_change t) (Py.Int 0); get (tt_min_temp_change t) (Py.Int 0);
   get (tt_tomorrow_diff t) (Py.Int 0); get (tt_avg_hist_diff t) (Py.Int 0)].

Definition text_of (r : result string) : string :=
  match r with
  | Ok s => s
  | Raise _ => ""
  end.

(** ** Sample forecasts, histories and clock readings *)

(** The example of the specification: 36 and 4 degrees, 80 percent. *)
Definition four_warnings_day : WeatherData :=
  {| date := Some "2025-07-01"; temp_max := Some (Py.Int 36);
     temp_min := Some (Py.Int 4); weather := Some "晴";
     humidity := Some (Py.Int 40);
     precipitation_probability := Some (Py.Float (Py.double 80));
     wind_scale := Some "1-3"; wind_dir := Some "东风" |}.

Definition day_without_temp_max : WeatherData :=
  {| date := Some "2025-06-30"; temp_max := None;
     temp_min := Some (Py.Int 20); weather := Some "多云";
     humidity := Some (Py.Int 60);
     precipitation_probability := Some (Py.Float (Py.double 0));
     wind_scale := Some "1-3"; wind_dir := Some "东风" |}.

(** A hot and humid day: 29 degrees at 60 percent feel like 30.0, which is
    still 'fairly comfortable'. *)
Definition humid_day : WeatherData :=
  {| date := Some "2025-07-02"; temp_max := Some (Py.Int 29);
     temp_min := Some (Py.Int 24); weather := Some "多云";
     humidity := Some (Py.Int 60);
     precipitation_probability := Some (Py.Float (Py.double 0));
     wind_scale := Some "1-3"; wind_dir := Some "南风" |}.

(** Two days of 22 and 15 degrees that differ in everything else. *)
Definition dry_day : WeatherData :=
  {| date := Some "2025-04-10"; temp_max := Some (Py.Int 22);
     temp_min := Some (Py.Int 15); weather := Some "晴";
     humidity := Some (Py.Int 30);
     precipitation_probability := Some (Py.Float (Py.double 0));
     wind_scale := Some "1-3"; wind_dir := Some "北风" |}.

Definition wet_day : WeatherData :=
  {| date := Some "2025-10-10"; temp_max := Some (Py.Int 22);
     temp_min := Some (Py.Int 15); weather := Some "大雨";
     humidity := Some (Py.Int 95);
     precipitation_probability := Some (Py.Float (Py.double 90));
     wind_scale := Some "4-5"; wind_dir := None |}.

(** A summer day: 28 degrees, 14 at night. *)
Definition summer_day : WeatherData :=
  {| date := Some "2025-06-01"; temp_max := Some (Py.Int 28);
     temp_min := Some (Py.Int 14); weather := Some "晴";
     humidity := Some (Py.Int 55);
     precipitation_probability := Some (Py.Float (Py.double 0));
     wind_scale := Some "1-3"; wind_dir := Some "东南风" |}.

(** A day of the history as [src/main.py] stores it. *)
Definition spring_day : WeatherData :=
  {| date := Some "2025-04-01"; temp_max := Some (Py.Int 24);
     temp_min := Some (Py.Int 16); weather := Some "多云";
     humidity := Some (Py.Int 60);
     precipitation_probability := Some (Py.Float (Py.double 0));
     wind_scale := Some "1-3"; wind_dir := Some "东风" |}.

(** Tomorrow with its two temperatures and without the optional keys
    ['weather'], ['humidity'] and ['precipitation_probability']. *)
Definition bare_warm_day : WeatherData :=
  {| date := Some "2025-04-02"; temp_max := Some (Py.Int 30);
     temp_min := Some (Py.Int 15); weather := None; humidity := None;
     precipitation_probability := None;
     wind_scale := Some "1-3"; wind_dir := Some "东风" |}.

(** A day of the history that lacks [temp_max]. *)
Definition cold_night_without_temp_max : WeatherData :=
  {| date := Some "2025-03-30"; temp_max := None;
     temp_min := Some (Py.Int 0); weather := Some "晴";
     humidity := Some (Py.Int 40);
     precipitation_probability := Some (Py.Float (Py.double 0));
     wind_scale := Some "1-3"; wind_dir := Some "北风" |}.

(** A day of the history that lacks [temp_min]. *)
Definition day_without_temp_min : WeatherData :=
  {| date := Some "2025-03-31"; temp_max := Some (Py.Int 18);
     temp_min := None; weather := Some "阴";
     humidity := Some (Py.Int 70);
     precipitation_probability := Some (Py.Float (Py.double 0));
     wind_scale := Some "1-3"; wind_dir := Some "东风" |}.

Definition mild_day : WeatherData :=
  {| date := Some "2025-04-01"; temp_max := Some (Py.Int 20);
     temp_min := Some (Py.Int 14); weather := Some "晴";
     humidity := Some (Py.Int 50);
     precipitation_probability := Some (Py.Float (Py.double 0));
     wind_scale := Some "1-3"; wind_dir := Some "东风" |}.

(** A forecast 3.04 degrees above the maximum of [spring_day]. *)
Definition close_to_threshold_day : WeatherData :=
  {| date := Some "2025-04-02"; temp_max := Some (Py.Float (Py.double (2704 # 100)));
     temp_min := Some (Py.Int 17); weather := Some "晴";
     humidity := Some (Py.Int 50);
     precipitation_probability := Some (Py.Float (Py.double 0));
     wind_scale := Some "1-3"; wind_dir := Some "东风" |}.

(** A forecast with fractional temperatures. *)
Definition fractional_day : WeatherData :=
  {| date := Some "2025-05-01"; temp_max := Some (Py.Float (Py.double (23456 # 1000)));
     temp_min := Some (Py.Float (Py.double (31 # 2))); weather := Some "晴";
     humidity := Some (Py.Int 45);
     precipitation_probability := Some (Py.Float (Py.double 0));
     wind_scale := Some "1-3"; wind_dir := Some "东风" |}.

(** A forecast of 16.1 and 6.1 degrees: the difference of the two floats
    is 10.000000000000002. *)
Definition ten_degrees_apart_day : WeatherData :=
  {| date := Some "2025-03-20"; temp_max := Some (Py.Float (Py.double (161 # 10)));
     temp_min := Some (Py.Float (Py.double (61 # 10))); weather := Some "晴";
     humidity := Some (Py.Int 50);
     precipitation_probability := Some (Py.Float (Py.double 0));
     wind_scale := Some "1-3"; wind_dir := Some "东风" |}.

(** A forecast of 8.1 degrees, and a day of the history at 16.1. *)
Definition chilly_day : WeatherData :=
  {| date := Some "2025-03-21"; temp_max := Some (Py.Float (Py.double (81 # 10)));
     temp_min := Some (Py.Float (Py.double (61 # 10))); weather := Some "阴";
     humidity := Some (Py.Int 50);
     precipitation_probability := Some (Py.Float (Py.double 0));
     wind_scale := Some "1-3"; wind_dir := Some "北风" |}.

(** A forecast of 20.4 and 8.4 degrees: the difference of the two floats
    is 11.999999999999998. *)
Definition fair_day : WeatherData :=
  {| date := Some "2025-04-03"; temp_max := Some (Py.Float (Py.double (204 # 10)));
     temp_min := Some (Py.Float (Py.double (84 # 10))); weather := Some "晴";
     humidity := Some (Py.Int 50);
     precipitation_probability := Some (Py.Float (Py.double 0));
     wind_scale := Some "1-3"; wind_dir := Some "东风" |}.

(** A forecast of 30.04 degrees at the default humidity. *)
Definition just_above_thirty_day : WeatherData :=
  {| date := Some "2025-07-10"; temp_max := Some (Py.Float (Py.double (3004 # 100)));
     temp_min := Some (Py.Int 24); weather := Some "晴";
     humidity := None;
     precipitation_probability := Some (Py.Float (Py.double 0));
     wind_scale := Some "1-3"; wind_dir := Some "南风" |}.

(** A forecast of 32.2 degrees in dry air: 32.2 + (28 - 50) * 0.1 is
    30.000000000000004 in floats. *)
Definition dry_heat_day : WeatherData :=
  {| date := Some "2025-07-11"; temp_max := Some (Py.Float (Py.double (322 # 10)));
     temp_min := Some (Py.Int 25); weather := Some "晴";
     humidity := Some (Py.Int 28);
     precipitation_probability := Some (Py.Float (Py.double 0));
     wind_scale := Some "1-3"; wind_dir := Some "南风" |}.

(** A day of the history at 26 degrees. *)
Definition warm_day : WeatherData :=
  {| date := Some "2025-07-09"; temp_max := Some (Py.Int 26);
     temp_min := Some (Py.Int 22); weather := Some "多云";
     humidity := Some (Py.Int 60);
     precipitation_probability := Some (Py.Float (Py.double 0));
     wind_scale := Some "1-3"; wind_dir := Some "南风" |}.

(** A forecast whose temperatures are ints beyond the range of floats. *)
Definition frozen_day : WeatherData :=
  {| date := Some "2025-01-01"; temp_max := Some (Py.Int (- 10 ^ 400));
     temp_min := Some (Py.Int (- 10 ^ 400)); weather := Some "晴";
     humidity := Some (Py.Int 50);
     precipitation_probability := Some (Py.Float (Py.double 0));
     wind_scale := Some "1-3"; wind_dir := Some "北风" |}.

(** A forecast that lacks its date. *)
Definition undated_day : WeatherData :=
  {| date := None; temp_max := Some (Py.Int 20);
     temp_min := Some (Py.Int 14); weather := Some "晴";
     humidity := Some (Py.Int 50);
     precipitation_probability := Some (Py.Float (Py.double 0));
     wind_scale := Some "1-3"; wind_dir := Some "东风" |}.

Definition morning : datetime :=
  {| year := 2025; month := 4; day := 30; hour := 8; minute := 0; second := 7 |}.

Definition evening : datetime :=
  {| year := 2025; month := 4; day := 30; hour := 19; minute := 30; second := 0 |}.

(** The analysis of the dry day, without history. *)
Definition dry_analysis : Analysis :=
  {| tomorrow := dry_day;
     temperature_trend :=
       {| tt_trend := Some "暂无历史数据对比";
          tt_max_temp_change := None; tt_min_temp_change := None;
          tt_avg_max_temp := None; tt_avg_min_temp := None;
          tt_tomorrow_diff := None; tt_avg_hist_diff := None;
          tt_volatility := None; tt_temp_std := None |};
     precipitation_trend := None;
     comfort_analysis := None;
     weather_warnings := [];
     suggestions :=
       {| clothing := Some "👕 长袖衬衫/卫衣";
          activity := Some "暂无建议";
          health := Some "注意关注天气变化" |} |}.

(** ** Definitions for the further properties *)

(** The temperature-trend section of a report without history: the label
    of the reduced analysis and the defaults of the absent figures. *)
Definition no_history_trend_text : string :=
  "## 📊 温度趋势分析" ++ Py.nl
  ++ "**趋势**: 暂无历史数据对比  " ++ Py.nl
  ++ "**较近期平均温度**: 最高温+0.0°C，最低温+0.0°C  " ++ Py.nl
  ++ "**早晚温差**: 0.0°C  " ++ Py.nl
  ++ "**近期平均温差**: 0.0°C  " ++ Py.nl ++ Py.nl.

(** ** Definitions for the data manager and the bot *)

(** The records that the program reads from the data file. *)
Definition stored_records (s : DataManager.Store) : list WeatherData :=
  get (DataManager.records
         (DataManager._load_json DataManager.empty_doc
            (DataManager.data_file s))) [].

Definition dated (x : WeatherData) : Prop := date x <> None.

(** [x] is dated no earlier than [y]. *)
Definition not_older (x y : WeatherData) : Prop :=
  match date x, date y with
  | Some dx, Some dy => String.leb dy dx = true
  | _, _ => False
  end.

Definition newest_first (l : list WeatherData) : Prop :=
  StronglySorted not_older l.

Definition key_not_older (a b : string * WeatherData) : Prop :=
  String.leb (fst b) (fst a) = true.

(** A key is the date of its record. *)
Definition well_keyed (p : string * WeatherData) : Prop :=
  date (snd p) = Some (fst p).

(** The test of [cleanup_old_data] on a record. *)
Definition recent_enough (cutoff_date : string) (x : WeatherData) : bool :=
  match date x with
  | Some d => String.leb cutoff_date d
  | None => false
  end.

Fixpoint count_requests (events : list WeatherBot.event) : nat :=
  match events with
  | [] => 0
  | WeatherBot.Request _ :: rest => S (count_requests rest)
  | WeatherBot.Sleep _ :: rest => count_requests rest
  end.

Fixpoint count_sleeps (events : list WeatherBot.event) : nat :=
  match events with
  | [] => 0
  | WeatherBot.Request _ :: rest => count_sleeps rest
  | WeatherBot.Sleep _ :: rest => S (count_sleeps rest)
  end.

Definition not_fetched (a : WeatherBot.attempt) : Prop :=
  forall w, a <> WeatherBot.Fetched w.

(** ** Sample stores, answers and settings *)

Definition wet_analysis : Analysis :=
  Eval vm_compute in
    match analyze_weather_trend default_config wet_day [dry_day] with
    | Ok analysis => analysis
    | Raise _ => dry_analysis
    end.

Definition wet_report : string :=
  Eval vm_compute in text_of (format_report morning wet_analysis).

Definition mild_trend : TemperatureTrend :=
  Eval vm_compute in
    match _analyze_temperature_trend default_config mild_day [spring_day] with
    | Ok trend => trend
    | Raise _ => empty_trend
    end.

(** The trend of the mild day against two days of 24 and 22 degrees. *)
Definition two_day_trend : TemperatureTrend :=
  Eval vm_compute in
    match _analyze_temperature_trend default_config mild_day
            [spring_day; dry_day] with
    | Ok trend => trend
    | Raise _ => empty_trend
    end.

(** A configuration whose threshold for a significant change is 1. *)
Definition strict_config : AnalysisConfig :=
  {| temp_change_threshold := Some (Py.Int 1); temp_diff_threshold := None;
     hot_warning_temp := None; cold_warning_temp := None |}.

Definition strict_trend : TemperatureTrend :=
  Eval vm_compute in
    match _analyze_temperature_trend strict_config mild_day [spring_day] with
    | Ok trend => trend
    | Raise _ => empty_trend
    end.

(** A store of two records, the older one first, and no run record. *)
Definition sample_store : DataManager.Store :=
  {| DataManager.data_file :=
       DataManager.Holds
         {| DataManager.records := Some [spring_day; dry_day];
            DataManager.other_keys := [] |};
     DataManager.record_file := DataManager.Holds DataManager.empty_record |}.

Definition sample_store_saved : DataManager.Store :=
  Eval vm_compute in
    match DataManager.save_weather_data summer_day sample_store with
    | Ok s => s
    | Raise _ => sample_store
    end.

Definition broken_store : DataManager.Store :=
  {| DataManager.data_file := DataManager.Unreadable;
     DataManager.record_file := DataManager.Missing |}.

Definition april_fifth : datetime :=
  {| year := 2025; month := 4; day := 5; hour := 0; minute := 0; second := 0 |}.

(** Two passes that fail, then a forecast. *)
Definition third_time_lucky (n : nat) : WeatherBot.attempt :=
  match n with
  | 0%nat => WeatherBot.Failed
  | 1%nat => WeatherBot.Refused
  | _ => WeatherBot.Fetched summer_day
  end.

Definition sample_settings : WeatherBot.Settings :=
  {| WeatherBot.start_hour := 20; WeatherBot.end_hour := 23;
     WeatherBot.retry_interval := 5 |}.

(** * Properties *)

(** ** Samples of the Python built-ins *)

Example str_samples :
  (Py.str (Py.Int 23), Py.str (Py.Float (Py.double (23456 # 1000))),
   Py.str (Py.Float (Py.double 80)), Py.str (Py.Float (Py.double (- (5 # 2)))),
   Py.str (Py.Float (S754_zero true)), Py.str (Py.Float S754_nan))
  = ("23", "23.456", "80.0", "-2.5", "-0.0", "nan").
Proof. vm_compute. reflexivity. Qed.

Example format_samples :
  (Py.format (Py.Float (Py.double (23456 # 1000))) ".1f",
   Py.format (Py.Int 0) "+.1f",
   Py.format (Py.Float (Py.double (5 # 2))) ".0f",
   Py.format (Py.Float (Py.double (- (4 # 10)))) ".0f",
   Py.format (Py.Float (Py.double (1 # 4))) ".1f",
   Py.format (Py.Float (Py.double (- (4 # 100)))) "+.1f",
   Py.format (Py.Int 25) ". 0f")
  = (Ok "23.5", Ok "+0.0", Ok "2", Ok "-0", Ok "0.2", Ok "-0.0",
     Raise (ValueError "Format specifier missing precision")).
Proof. vm_compute. reflexivity. Qed.

Example statistics_samples :
  (Py.mean [Py.Int 1; Py.Int 2], Py.mean [Py.Int 1; Py.Int 3], Py.mean [],
   r <- Py.stdev [Py.Int 1; Py.Int 2; Py.Int 4] ;; Ok (Py.str r),
   Py.round1 (Py.Float (Py.double (23456 # 1000))), Py.round1 (Py.Int 23))
  = (Ok (Py.Float (Py.double (3 # 2))), Ok (Py.Int 2),
     Raise (StatisticsError "mean requires at least one data point"),
     Ok "1.5275252316519468",
     Py.Float (Py.double (47 # 2)), Py.Int 23).
Proof. vm_compute. reflexivity. Qed.

(** Float arithmetic is rounded: 16.1 - 6.1 is above 10, 20.4 - 8.4 below
    12, and 32.2 + (28 - 50) * 0.1 above 30. *)
Example float_arithmetic_samples :
  (r <- Py.sub (Py.Float (Py.double (161 # 10))) (Py.Float (Py.double (61 # 10))) ;;
   Ok (Py.str r, Py.gt r (Py.Int 10)),
   r <- Py.sub (Py.Float (Py.double (204 # 10))) (Py.Float (Py.double (84 # 10))) ;;
   Ok (Py.str r, Py.ge r (Py.Int 12)),
   r <- apparent_temp (Py.Float (Py.double (322 # 10))) (Py.Int 28) ;;
   Ok (Py.str r, Py.gt r (Py.Int 30)),
   Py.str (Py.round1 (Py.Float (Py.double (2015 # 100)))),
   Py.sub (Py.Int (10 ^ 400)) (Py.Float (Py.double (3 # 2))))
  = (Ok ("10.000000000000002", true), Ok ("11.999999999999998", false),
     Ok ("30.000000000000004", true), "20.1",
     Raise (OverflowError "int too large to convert to float")).
Proof. vm_compute. reflexivity. Qed.

(** ** Facts on Python numbers *)

Lemma lt_iff (a b : Py.num) : Py.lt a b = true <-> num_lt a b.
Proof.
  unfold Py.lt, num_lt. destruct (Py.val a), (Py.val b);
    cbn [Py.lt_val value_lt]; try tauto; try (split; [discriminate|tauto]).
  rewrite negb_true_iff. split; intro H.
  - apply Qnot_le_lt. intro Hle. apply Qle_bool_iff in Hle. congruence.
  - destruct (Qle_bool q0 q) eqn:E; [|reflexivity].
    apply Qle_bool_iff in E. exfalso. revert E. apply Qlt_not_le, H.
Qed.

Lemma le_iff (a b : Py.num) : Py.le a b = true <-> num_le a b.
Proof.
  unfold Py.le, num_le. destruct (Py.val a), (Py.val b);
    cbn [Py.le_val value_le]; try tauto; try (split; [discriminate|tauto]).
  apply Qle_bool_iff.
Qed.

Lemma gt_iff (a b : Py.num) : Py.gt a b = true <-> num_lt b a.
Proof. unfold Py.gt. apply lt_iff. Qed.

Lemma ge_iff (a b : Py.num) : Py.ge a b = true <-> num_le b a.
Proof. unfold Py.ge. apply le_iff. Qed.

Lemma bool_false_iff (b : bool) (P : Prop) :
  (b = true <-> P) -> (b = false <-> ~ P).
Proof. destruct b; intuition congruence. Qed.

Lemma lt_false_iff (a b : Py.num) : Py.lt a b = false <-> ~ num_lt a b.
Proof. apply bool_false_iff, lt_iff. Qed.

Lemma le_false_iff (a b : Py.num) : Py.le a b = false <-> ~ num_le a b.
Proof. apply bool_false_iff, le_iff. Qed.

Lemma gt_false_iff (a b : Py.num) : Py.gt a b = false <-> ~ num_lt b a.
Proof. apply bool_false_iff, gt_iff. Qed.

Lemma ge_false_iff (a b : Py.num) : Py.ge a b = false <-> ~ num_le b a.
Proof. apply bool_false_iff, ge_iff. Qed.

(** Turns the tests of the code found in the context into statements on
    the order of numbers. *)
Ltac tests_to_props :=
  repeat match goal with
    | H : Py.le _ _ = true |- _ => apply le_iff in H
    | H : Py.le _ _ = false |- _ => apply le_false_iff in H
    | H : Py.lt _ _ = true |- _ => apply lt_iff in H
    | H : Py.lt _ _ = false |- _ => apply lt_false_iff in H
    | H : Py.ge _ _ = true |- _ => apply ge_iff in H
    | H : Py.ge _ _ = false |- _ => apply ge_false_iff in H
    | H : Py.gt _ _ = true |- _ => apply gt_iff in H
    | H : Py.gt _ _ = false |- _ => apply gt_false_iff in H
    end.

(** Decides a statement on the order of numbers by cases on what they
    denote. *)
Ltac num_order :=
  tests_to_props; unfold num_lt, num_le in *; cbn [Py.val] in *;
  repeat match goal with
    | H : context [Py.val ?a] |- _ => destruct (Py.val a)
    | |- context [Py.val ?a] => destruct (Py.val a)
    | H : context [Py.float_val ?f] |- _ => destruct (Py.float_val f)
    | |- context [Py.float_val ?f] => destruct (Py.float_val f)
    end;
  cbn [value_lt value_le abs_val] in *;
  repeat match goal with
    | H : context [inject_Z ?z] |- _ =>
        let q := eval compute in (inject_Z z) in change (inject_Z z) with q in H
    | |- context [inject_Z ?z] =>
        let q := eval compute in (inject_Z z) in change (inject_Z z) with q
    end;
  try tauto; try (intuition lra).

Lemma val_abs (a : Py.num) : Py.val (Py.abs a) = abs_val (Py.val a).
Proof.
  destruct a as [z|[s|s| |s m e]]; cbn [Py.abs Py.val Py.float_val SFabs abs_val];
    try reflexivity; try (destruct s; reflexivity).
  f_equal. unfold Py.SF2Q. destruct e as [|p|p], s; try reflexivity.
  - unfold Qabs, inject_Z.
    rewrite Z.abs_mul, (Z.abs_eq (2 ^ Z.pos p)) by (apply Z.pow_nonneg; lia).
    reflexivity.
  - unfold Qabs, inject_Z.
    rewrite Z.abs_mul, (Z.abs_eq (2 ^ Z.pos p)) by (apply Z.pow_nonneg; lia).
    reflexivity.
Qed.

Lemma moderate_to_float (a : Py.num) :
  moderate a -> exists f, Py.to_float a = Ok f.
Proof.
  destruct a as [z|f]; intro H; [|exists f; reflexivity].
  cbn [Py.to_float]. cbn [moderate] in H.
  assert (E : (Z.abs z <? Py.overflow_bound) = true).
  { apply Z.ltb_lt. eapply Z.le_lt_trans; [exact H|]. vm_compute. reflexivity. }
  rewrite E. eexists. reflexivity.
Qed.

(** Two moderate numbers can be subtracted. *)
Lemma moderate_sub (a b : Py.num) :
  moderate a -> moderate b -> exists c, Py.sub a b = Ok c.
Proof.
  intros Ha Hb. destruct (moderate_to_float a Ha) as [x Hx].
  destruct (moderate_to_float b Hb) as [y Hy].
  unfold Py.sub, Py.arith. destruct a, b; try (eexists; reflexivity);
    rewrite ?Hx, ?Hy; cbn [bind Py.to_float]; eexists; reflexivity.
Qed.

(** The difference of a number with itself is a zero, or a NaN when the
    number is not finite; it is never above a positive bound. *)
Lemma sub_self (a : Py.num) :
  exists c, Py.sub a a = Ok c
            /\ (Py.is_finite a = true -> denotes c 0)
            /\ ~ num_lt (Py.Int 8) (Py.abs c).
Proof.
  assert (Hzero : forall c, Py.val c = Py.Real 0 ->
                    denotes c 0 /\ ~ num_lt (Py.Int 8) (Py.abs c)).
  { intros c Hc. unfold denotes, num_lt. rewrite val_abs, Hc. cbn.
    split; [reflexivity|]. intro H. compute in H. discriminate H. }
  assert (Hnan : ~ num_lt (Py.Int 8) (Py.abs (Py.Float S754_nan))).
  { unfold num_lt. cbn. tauto. }
  destruct a as [z|f].
  - exists (Py.Int 0). cbn [Py.sub Py.arith]. rewrite Z.sub_diag.
    split; [reflexivity|]. split; [intros _|]; apply Hzero; reflexivity.
  - unfold Py.sub, Py.arith. cbn [Py.to_float bind].
    destruct f as [s|s| |s m e]; cbn [SFsub].
    + exists (Py.Float (S754_zero false)). split; [destruct s; reflexivity|].
      split; [intros _|]; apply Hzero; reflexivity.
    + exists (Py.Float S754_nan). split; [destruct s; reflexivity|].
      split; [destruct s; discriminate|exact Hnan].
    + exists (Py.Float S754_nan). split; [reflexivity|].
      split; [discriminate|exact Hnan].
    + exists (Py.Float (S754_zero false)). rewrite Z.sub_diag.
      split; [reflexivity|]. split; [intros _|]; apply Hzero; reflexivity.
Qed.

(** ** Warnings *)

Lemma tested_iff cfg day historical t_max t_min diff change k :
  Py.sub t_max t_min = Ok diff ->
  Py.sub t_max (recent_max historical t_max) = Ok change ->
  tested cfg day historical t_max t_min diff change k = true
  <-> fires cfg day historical t_max t_min k.
Proof.
  intros Hdiff Hchange. destruct k; cbn [tested fires].
  - apply ge_iff.
  - apply le_iff.
  - rewrite gt_iff. split.
    + intro H. exists diff. auto.
    + intros (d & Hd & H). congruence.
  - apply gt_iff.
  - destruct historical as [|last rest].
    + split; [discriminate|]. intros (l & r & v & c & H & _). discriminate.
    + cbn [recent_max] in Hchange. rewrite gt_iff. split.
      * intro H. destruct (temp_max last) as [recent|] eqn:E.
        -- exists last, rest, recent, change. auto.
        -- exfalso. cbn [get] in Hchange.
           destruct (sub_self t_max) as (c & Hc & _ & Hno). congruence.
      * intros (l & r & v & c & H & Hv & Hc & Hgt). inversion H; subst l r.
        rewrite Hv in Hchange. cbn [get] in Hchange. congruence.
Qed.

(** On two ints the difference is exact. *)
Lemma diurnal_on_ints cfg day historical (x n : Z) :
  fires cfg day historical (Py.Int x) (Py.Int n) Diurnal
  <-> num_lt (get (temp_diff_threshold cfg) (Py.Int 10)) (Py.Int (x - n)).
Proof.
  cbn [fires Py.sub Py.arith]. split.
  - intros (d & Hd & H). injection Hd as <-. exact H.
  - intro H. eexists. split; [reflexivity|exact H].
Qed.

Lemma check_warnings_filter cfg day historical t_max t_min diff change :
  temp_max day = Some t_max -> temp_min day = Some t_min ->
  Py.sub t_max t_min = Ok diff ->
  Py.sub t_max (recent_max historical t_max) = Ok change ->
  _check_warnings cfg day historical
  = Ok (map (warning_text day t_max t_min diff change)
          (filter (tested cfg day historical t_max t_min diff change)
             evaluation_order)).
Proof.
  intros Hmax Hmin Hdiff Hchange. unfold _check_warnings. rewrite Hmax, Hmin.
  unfold warning_text, tested.
  cbn [getitem bind evaluation_order filter]. rewrite Hdiff. cbn [bind].
  destruct (precipitation_probability day) as [prob|]; cbn [get getitem];
    [|change (Py.gt (Py.Int 0) (Py.Int 70)) with false; cbn iota];
    destruct historical as [|last rest]; cbn [recent_max] in Hchange;
    rewrite ?Hchange;
    repeat match goal with
      | |- context [if ?b then _ else _] => destruct b; cbn [bind app map]
      end;
    reflexivity.
Qed.

Lemma tag_warning_text day t_max t_min diff change k :
  tag (warning_text day t_max t_min diff change k) = kind_tag k.
Proof.
  destruct k; reflexivity.
Qed.

Lemma tag_change_warning change : tag (change_warning change) = kind_tag Swing.
Proof. reflexivity. Qed.

Lemma kind_tag_inj k1 k2 : kind_tag k1 = kind_tag k2 -> k1 = k2.
Proof. destruct k1, k2; intro H; try reflexivity; vm_compute in H; discriminate. Qed.

Lemma warning_text_inj day t_max t_min diff change k1 k2 :
  warning_text day t_max t_min diff change k1
  = warning_text day t_max t_min diff change k2 -> k1 = k2.
Proof.
  intro H. apply kind_tag_inj.
  rewrite <- !(tag_warning_text day t_max t_min diff change). now rewrite H.
Qed.

Lemma sorted_filter {A : Type} (R : A -> A -> Prop) (f : A -> bool) l :
  StronglySorted R l -> StronglySorted R (filter f l).
Proof.
  induction 1 as [|a l Hs IH Hall]; cbn [filter].
  - constructor.
  - destruct (f a); [|exact IH]. constructor; [exact IH|].
    apply Forall_forall. intros x Hx. apply filter_In in Hx.
    rewrite Forall_forall in Hall. apply Hall, Hx.
Qed.

Lemma evaluation_order_sorted : StronglySorted before evaluation_order.
Proof.
  unfold evaluation_order, before.
  repeat (constructor; [|repeat constructor; simpl; lia]). constructor.
Qed.

Lemma evaluation_order_complete k : In k evaluation_order.
Proof. destruct k; simpl; auto 6. Qed.

Lemma evaluation_order_nodup : NoDup evaluation_order.
Proof.
  unfold evaluation_order.
  repeat (constructor; [simpl; intuition discriminate|]). constructor.
Qed.

(** C2. With [temp_max] and [temp_min] present and no int beyond the range
    of floats, [_check_warnings] returns the texts of exactly the warnings
    whose condition holds (heat: [temp_max >= hot_warning_temp], default 35;
    cold: [temp_min <= cold_warning_temp], default 5; diurnal range:
    [temp_max - temp_min > temp_diff_threshold], default 10; rain:
    [precipitation_probability > 70]; swing: the history is not empty and
    tomorrow's [temp_max] is more than 8 away from the [temp_max] of its
    first record), in the order of evaluation, without duplicates, at most
    five of them.  The two differences are the ones Python computes, in
    floats as soon as one operand is a float. *)
Theorem check_warnings_fire_exactly cfg day historical t_max t_min :
  temp_max day = Some t_max -> temp_min day = Some t_min ->
  moderate t_max -> moderate t_min ->
  moderate (recent_max historical t_max) ->
  exists (diff change : Py.num) (fired : list warning_kind),
    Py.sub t_max t_min = Ok diff
    /\ Py.sub t_max (recent_max historical t_max) = Ok change
    /\ _check_warnings cfg day historical
       = Ok (map (warning_text day t_max t_min diff change) fired)
    /\ (forall k, In k fired <-> fires cfg day historical t_max t_min k)
    /\ StronglySorted before fired
    /\ NoDup (map (warning_text day t_max t_min diff change) fired)
    /\ (List.length (map (warning_text day t_max t_min diff change) fired)
        <= 5)%nat.
Proof.
  intros Hmax Hmin Mmax Mmin Mrecent.
  destruct (moderate_sub t_max t_min Mmax Mmin) as [diff Hdiff].
  destruct (moderate_sub t_max _ Mmax Mrecent) as [change Hchange].
  exists diff, change,
    (filter (tested cfg day historical t_max t_min diff change)
       evaluation_order).
  split; [exact Hdiff|]. split; [exact Hchange|].
  split; [apply check_warnings_filter; assumption|].
  split; [|split; [|split]].
  - intro k. rewrite filter_In, (tested_iff _ _ _ _ _ _ _ _ Hdiff Hchange).
    split; [tauto|]. split; [apply evaluation_order_complete|assumption].
  - apply sorted_filter, evaluation_order_sorted.
  - apply Injective_map_NoDup.
    + intros k1 k2. apply warning_text_inj.
    + apply NoDup_filter, evaluation_order_nodup.
  - rewrite length_map.
    apply (Nat.le_trans _ _ _ (filter_length_le _ _)). reflexivity.
Qed.

Example four_warnings :
  _check_warnings default_config four_warnings_day []
  = Ok ["⚠️ 高温预警：明天最高温度将达到36°C，请注意防暑降温";
        "⚠️ 低温预警：明天最低温度4°C，注意保暖防寒";
        "⚠️ 温差较大：早晚温差达32°C，注意适时增减衣物";
        "⚠️ 降雨预警：明天降雨概率80.0%，记得带伞"].
Proof. vm_compute. reflexivity. Qed.

(** On floats the differences are rounded: 16.1 - 6.1 is above 10 and the
    warning of the diurnal range is given; 8.1 is more than 8 below 16.1 and
    the warning of the swing is given. *)
Example float_warnings :
  (_check_warnings default_config ten_degrees_apart_day [],
   _check_warnings default_config chilly_day [ten_degrees_apart_day])
  = (Ok ["⚠️ 温差较大：早晚温差达10.0°C，注意适时增减衣物"],
     Ok ["⚠️ 气温剧变：较今天降低8.0°C，请注意身体适应"]).
Proof. vm_compute. reflexivity. Qed.

Lemma check_warnings_fire_exactly_witness :
  temp_max chilly_day = Some (Py.Float (Py.double (81 # 10)))
  /\ temp_min chilly_day = Some (Py.Float (Py.double (61 # 10)))
  /\ moderate (Py.Float (Py.double (81 # 10)))
  /\ moderate (Py.Float (Py.double (61 # 10)))
  /\ moderate (recent_max [ten_degrees_apart_day]
                 (Py.Float (Py.double (81 # 10))))
  /\ exists (diff change : Py.num) (fired : list warning_kind),
       Py.sub (Py.Float (Py.double (81 # 10))) (Py.Float (Py.double (61 # 10)))
       = Ok diff
       /\ Py.sub (Py.Float (Py.double (81 # 10)))
            (recent_max [ten_degrees_apart_day] (Py.Float (Py.double (81 # 10))))
          = Ok change
       /\ _check_warnings default_config chilly_day [ten_degrees_apart_day]
          = Ok (map (warning_text chilly_day (Py.Float (Py.double (81 # 10)))
                       (Py.Float (Py.double (61 # 10))) diff change) fired)
       /\ (forall k, In k fired
                     <-> fires default_config chilly_day [ten_degrees_apart_day]
                           (Py.Float (Py.double (81 # 10)))
                           (Py.Float (Py.double (61 # 10))) k)
       /\ StronglySorted before fired
       /\ NoDup (map (warning_text chilly_day (Py.Float (Py.double (81 # 10)))
                        (Py.Float (Py.double (61 # 10))) diff change) fired)
       /\ (List.length
             (map (warning_text chilly_day (Py.Float (Py.double (81 # 10)))
                     (Py.Float (Py.double (61 # 10))) diff change) fired)
           <= 5)%nat.
Proof.
  split; [reflexivity|]. split; [reflexivity|]. split; [exact I|].
  split; [exact I|]. split; [exact I|].
  apply (check_warnings_fire_exactly default_config chilly_day
           [ten_degrees_apart_day] (Py.Float (Py.double (81 # 10)))
           (Py.Float (Py.double (61 # 10)))); try reflexivity; exact I.
Defined.

(** C10. When the first record of a non-empty history has no [temp_max],
    the value is replaced by tomorrow's own [temp_max]: the day-over-day
    change is tomorrow's maximum minus itself, which is zero (a NaN when the
    maximum is an infinity or a NaN) and never more than 8 away from zero;
    the warnings are those of a run without history, no text of the
    abrupt-change warning is among them, and every warning returned is one
    of the four others, with its condition holding. *)
Theorem no_swing_without_recent_temp_max cfg day last rest t_max t_min :
  temp_max day = Some t_max -> temp_min day = Some t_min ->
  temp_max last = None ->
  moderate t_max -> moderate t_min ->
  exists (change diff : Py.num) (warnings : list string),
    Py.sub t_max (get (temp_max last) t_max) = Ok change
    /\ (Py.is_finite t_max = true -> denotes change 0)
    /\ ~ num_lt (Py.Int 8) (Py.abs change)
    /\ Py.sub t_max t_min = Ok diff
    /\ _check_warnings cfg day (last :: rest) = _check_warnings cfg day []
    /\ _check_warnings cfg day (last :: rest) = Ok warnings
    /\ (forall c, ~ In (change_warning c) warnings)
    /\ (forall w, In w warnings ->
          exists k, k <> Swing
                    /\ w = warning_text day t_max t_min diff change k
                    /\ fires cfg day (last :: rest) t_max t_min k).
Proof.
  intros Hmax Hmin Hlast Mmax Mmin.
  destruct (moderate_sub t_max t_min Mmax Mmin) as [diff Hdiff].
  destruct (sub_self t_max) as (change & Hchange & Hzero & Hsmall).
  assert (Hrecent : Py.sub t_max (recent_max (last :: rest) t_max) = Ok change).
  { cbn [recent_max]. rewrite Hlast. exact Hchange. }
  assert (Hswing : tested cfg day (last :: rest) t_max t_min diff change Swing
                   = false).
  { cbn [tested]. apply gt_false_iff, Hsmall. }
  exists change, diff. eexists.
  split; [rewrite Hlast; exact Hchange|]. split; [exact Hzero|].
  split; [exact Hsmall|]. split; [exact Hdiff|]. split; [|split; [|split]].
  - rewrite (check_warnings_filter cfg day _ t_max t_min diff change
               Hmax Hmin Hdiff Hrecent).
    rewrite (check_warnings_filter cfg day [] t_max t_min diff change
               Hmax Hmin Hdiff Hchange).
    unfold evaluation_order. cbn [filter]. rewrite Hswing.
    change (tested cfg day [] t_max t_min diff change Swing) with false.
    unfold tested.
    repeat match goal with
      | |- context [if ?b then _ else _] => destruct b
      end; reflexivity.
  - apply check_warnings_filter; eassumption.
  - intros c Hin. apply in_map_iff in Hin. destruct Hin as (k & Hk & Hin).
    apply filter_In in Hin. destruct Hin as [_ Ht].
    assert (k = Swing).
    { apply kind_tag_inj.
      rewrite <- (tag_warning_text day t_max t_min diff change), Hk.
      apply tag_change_warning. }
    subst k. congruence.
  - intros w Hin. apply in_map_iff in Hin. destruct Hin as (k & Hk & Hin).
    apply filter_In in Hin. destruct Hin as [_ Ht].
    exists k. split; [congruence|]. split; [auto|].
    apply (tested_iff cfg day (last :: rest) t_max t_min diff change k
             Hdiff Hrecent), Ht.
Qed.

Lemma no_swing_without_recent_temp_max_witness :
  temp_max four_warnings_day = Some (Py.Int 36)
  /\ temp_min four_warnings_day = Some (Py.Int 4)
  /\ temp_max day_without_temp_max = None
  /\ moderate (Py.Int 36) /\ moderate (Py.Int 4)
  /\ exists (change diff : Py.num) (warnings : list string),
       Py.sub (Py.Int 36) (get (temp_max day_without_temp_max) (Py.Int 36))
       = Ok change
       /\ (Py.is_finite (Py.Int 36) = true -> denotes change 0)
       /\ ~ num_lt (Py.Int 8) (Py.abs change)
       /\ Py.sub (Py.Int 36) (Py.Int 4) = Ok diff
       /\ _check_warnings default_config four_warnings_day
            [day_without_temp_max]
          = _check_warnings default_config four_warnings_day []
       /\ _check_warnings default_config four_warnings_day
            [day_without_temp_max] = Ok warnings
       /\ (forall c, ~ In (change_warning c) warnings)
       /\ (forall w, In w warnings ->
             exists k, k <> Swing
                       /\ w = warning_text four_warnings_day (Py.Int 36)
                                (Py.Int 4) diff change k
                       /\ fires default_config four_warnings_day
                            [day_without_temp_max] (Py.Int 36) (Py.Int 4) k).
Proof.
  split; [reflexivity|]. split; [reflexivity|]. split; [reflexivity|].
  split; [cbn; lia|]. split; [cbn; lia|].
  apply (no_swing_without_recent_temp_max default_config four_warnings_day
           day_without_temp_max [] (Py.Int 36) (Py.Int 4));
    try reflexivity; cbn; lia.
Defined.

(** ** Comfort *)

Lemma moderate_apparent (t_max hum : Py.num) :
  moderate t_max -> moderate hum ->
  exists apparent, apparent_temp t_max hum = Ok apparent.
Proof.
  intros Mmax Mhum. unfold apparent_temp.
  destruct (Py.gt t_max (Py.Int 25)); [|exists t_max; reflexivity].
  destruct (moderate_to_float t_max Mmax) as [x Hx].
  assert (Hshare : exists share,
            (excess <- Py.sub hum (Py.Int 50) ;;
             Py.mul excess (Py.Float (Py.double (1 # 10)))) = Ok (Py.Float share)).
  { destruct hum as [h|f].
    - cbn [Py.sub Py.arith bind Py.mul Py.to_float].
      assert (E : (Z.abs (h - 50) <? Py.overflow_bound) = true).
      { apply Z.ltb_lt. cbn [moderate] in Mhum.
        apply (Z.le_lt_trans _ (2 ^ 1000 + 50)); [lia|]. vm_compute. reflexivity. }
      rewrite E. cbn [bind]. eexists. reflexivity.
    - eexists. reflexivity. }
  destruct Hshare as [share Hshare].
  destruct (Py.sub hum (Py.Int 50)) as [excess|]; [|discriminate Hshare].
  cbn [bind] in *. rewrite Hshare. cbn [bind].
  unfold Py.add, Py.arith. destruct t_max; rewrite ?Hx; cbn [bind Py.to_float];
    eexists; reflexivity.
Qed.

(** The four levels on the order of numbers; a NaN is rated hot. *)
Lemma comfort_level_bands (a : Py.num) :
  (num_le (Py.Int 18) a /\ num_le a (Py.Int 26) -> comfort_level a = "舒适")
  /\ ((num_le (Py.Int 15) a /\ num_lt a (Py.Int 18))
      \/ (num_lt (Py.Int 26) a /\ num_le a (Py.Int 30))
      -> comfort_level a = "较舒适")
  /\ (num_lt a (Py.Int 15) -> comfort_level a = "偏冷")
  /\ (num_lt (Py.Int 30) a -> comfort_level a = "偏热")
  /\ (Py.val a = Py.NaN -> comfort_level a = "偏热").
Proof.
  unfold comfort_level.
  destruct (Py.le (Py.Int 18) a) eqn:E18, (Py.le a (Py.Int 26)) eqn:E26,
    (Py.le (Py.Int 15) a) eqn:E15, (Py.lt a (Py.Int 18)) eqn:L18,
    (Py.lt (Py.Int 26) a) eqn:L26, (Py.le a (Py.Int 30)) eqn:E30,
    (Py.lt a (Py.Int 15)) eqn:L15;
    cbn [andb orb]; repeat split; intros; try reflexivity; exfalso;
    num_order; try discriminate.
Qed.

(** [_analyze_comfort] returns as soon as the two temperatures are present
    and no int is beyond the range of floats. *)
Lemma comfort_returns day historical t_max t_min :
  temp_max day = Some t_max -> temp_min day = Some t_min ->
  moderate t_max -> moderate t_min ->
  moderate (get (humidity day) (Py.Int 50)) ->
  exists apparent diff,
    apparent_temp t_max (get (humidity day) (Py.Int 50)) = Ok apparent
    /\ Py.sub t_max t_min = Ok diff
    /\ _analyze_comfort day historical
       = Ok {| ca_apparent_temp := Py.round1 apparent;
               ca_comfort_level := comfort_level apparent;
               ca_humidity := get (humidity day) (Py.Int 50);
               ca_temp_diff := diff |}.
Proof.
  intros Hmax Hmin Mmax Mmin Mhum.
  destruct (moderate_apparent t_max _ Mmax Mhum) as [apparent Happarent].
  destruct (moderate_sub t_max t_min Mmax Mmin) as [diff Hdiff].
  exists apparent, diff. split; [exact Happarent|]. split; [exact Hdiff|].
  unfold _analyze_comfort. rewrite Hmax, Hmin. cbn [getitem bind].
  rewrite Happarent, Hdiff. reflexivity.
Qed.

(** C3, counterexample.  At 30.04 degrees and the default humidity the
    analysis reports an apparent temperature of exactly 30.0 with the level
    'hot': the level is taken on 30.04, the report carries its rounding.  At
    32.2 degrees and 28 percent the sum 32.2 + (28 - 50) * 0.1, computed in
    floats, is 30.000000000000004: the report carries 30.0 again, and the
    level is 'hot'. *)
Lemma reported_thirty_degrees_rated_hot :
  (exists comfort,
     _analyze_comfort just_above_thirty_day [] = Ok comfort
     /\ ca_apparent_temp comfort = Py.Float (Py.double 30)
     /\ Py.str (ca_apparent_temp comfort) = "30.0"
     /\ ca_comfort_level comfort = "偏热")
  /\ (exists comfort,
        _analyze_comfort dry_heat_day [] = Ok comfort
        /\ ca_apparent_temp comfort = Py.Float (Py.double 30)
        /\ Py.str (ca_apparent_temp comfort) = "30.0"
        /\ ca_comfort_level comfort = "偏热")
  /\ comfort_level (Py.Float (Py.double 30)) = "较舒适".
Proof.
  split; [|split].
  - eexists. split; [vm_compute; reflexivity|].
    repeat split; vm_compute; reflexivity.
  - eexists. split; [vm_compute; reflexivity|].
    repeat split; vm_compute; reflexivity.
  - vm_compute. reflexivity.
Qed.

(** C3, amended.  With [temp_max] and [temp_min] present and no int beyond
    the range of floats, [_analyze_comfort] returns.  The apparent
    temperature it computes is [temp_max] unless [temp_max > 25], and else
    the float [temp_max + (humidity - 50) * 0.1], with humidity 50 when the
    key is absent.  The comfort level is taken on that value, not on the
    reported one: 'comfortable' on [18, 26], 'fairly comfortable' on
    [15, 18) and (26, 30], 'cold' below 15, 'hot' above 30 and on a NaN, so
    that a value of 18.0 is 'comfortable' and a value of 30.0 'fairly
    comfortable'.  The field [apparent_temp] of the result is the value
    rounded to one decimal. *)
Theorem comfort_level_reads_unrounded_apparent day historical t_max t_min :
  temp_max day = Some t_max -> temp_min day = Some t_min ->
  let hum := get (humidity day) (Py.Int 50) in
  moderate t_max -> moderate t_min -> moderate hum ->
  exists apparent diff : Py.num,
    apparent_temp t_max hum = Ok apparent
    /\ Py.sub t_max t_min = Ok diff
    /\ _analyze_comfort day historical
       = Ok {| ca_apparent_temp := Py.round1 apparent;
               ca_comfort_level := comfort_level apparent;
               ca_humidity := hum;
               ca_temp_diff := diff |}
    /\ (humidity day = None -> hum = Py.Int 50)
    /\ (~ num_lt (Py.Int 25) t_max -> apparent = t_max)
    /\ (num_lt (Py.Int 25) t_max ->
        exists excess share,
          Py.sub hum (Py.Int 50) = Ok excess
          /\ Py.mul excess (Py.Float (Py.double (1 # 10))) = Ok share
          /\ Py.add t_max share = Ok apparent)
    /\ (num_le (Py.Int 18) apparent /\ num_le apparent (Py.Int 26)
        -> comfort_level apparent = "舒适")
    /\ ((num_le (Py.Int 15) apparent /\ num_lt apparent (Py.Int 18))
        \/ (num_lt (Py.Int 26) apparent /\ num_le apparent (Py.Int 30))
        -> comfort_level apparent = "较舒适")
    /\ (num_lt apparent (Py.Int 15) -> comfort_level apparent = "偏冷")
    /\ (num_lt (Py.Int 30) apparent -> comfort_level apparent = "偏热")
    /\ (Py.val apparent = Py.NaN -> comfort_level apparent = "偏热")
    /\ comfort_level (Py.Float (Py.double 18)) = "舒适"
    /\ comfort_level (Py.Float (Py.double 30)) = "较舒适".
Proof.
  intros Hmax Hmin hum Mmax Mmin Mhum.
  destruct (comfort_returns day historical t_max t_min Hmax Hmin Mmax Mmin Mhum)
    as (apparent & diff & Happarent & Hdiff & Hcomfort).
  fold hum in Happarent, Hcomfort.
  exists apparent, diff. split; [exact Happarent|]. split; [exact Hdiff|].
  split; [exact Hcomfort|].
  split; [intro H; unfold hum; rewrite H; reflexivity|].
  split; [|split].
  - intro H. apply gt_false_iff in H. unfold apparent_temp in Happarent.
    rewrite H in Happarent. congruence.
  - intro H. apply gt_iff in H. unfold apparent_temp in Happarent.
    rewrite H in Happarent.
    destruct (Py.sub hum (Py.Int 50)) as [excess|]; [|discriminate Happarent].
    cbn [bind] in Happarent.
    destruct (Py.mul excess _) as [share|] eqn:Eshare;
      [|discriminate Happarent].
    exists excess, share. auto.
  - destruct (comfort_level_bands apparent) as (H1 & H2 & H3 & H4 & H5).
    repeat split; try assumption; vm_compute; reflexivity.
Qed.

Example humid_day_comfort :
  _analyze_comfort humid_day []
  = Ok {| ca_apparent_temp := Py.Float (Py.double 30);
          ca_comfort_level := "较舒适";
          ca_humidity := Py.Int 60; ca_temp_diff := Py.Int 5 |}.
Proof. vm_compute. reflexivity. Qed.

Lemma comfort_level_reads_unrounded_apparent_witness :
  temp_max dry_heat_day = Some (Py.Float (Py.double (322 # 10)))
  /\ temp_min dry_heat_day = Some (Py.Int 25)
  /\ moderate (Py.Float (Py.double (322 # 10))) /\ moderate (Py.Int 25)
  /\ moderate (get (humidity dry_heat_day) (Py.Int 50))
  /\ exists apparent diff : Py.num,
       apparent_temp (Py.Float (Py.double (322 # 10)))
         (get (humidity dry_heat_day) (Py.Int 50)) = Ok apparent
       /\ Py.sub (Py.Float (Py.double (322 # 10))) (Py.Int 25) = Ok diff
       /\ _analyze_comfort dry_heat_day []
          = Ok {| ca_apparent_temp := Py.round1 apparent;
                  ca_comfort_level := comfort_level apparent;
                  ca_humidity := get (humidity dry_heat_day) (Py.Int 50);
                  ca_temp_diff := diff |}
       /\ (num_lt (Py.Int 30) apparent -> comfort_level apparent = "偏热").
Proof.
  split; [reflexivity|]. split; [reflexivity|]. split; [exact I|].
  split; [cbn; lia|]. split; [cbn; lia|].
  destruct (comfort_level_reads_unrounded_apparent dry_heat_day []
              (Py.Float (Py.double (322 # 10))) (Py.Int 25))
    as (apparent & diff & H1 & H2 & H3 & _ & _ & _ & _ & _ & _ & H4 & _);
    try reflexivity; try exact I; try (cbn; lia).
  exists apparent, diff. auto.
Defined.

(** ** Temperature trend *)

Lemma collect_nonempty {A B : Type} (f : A -> option B) (l : list A) a b :
  In a l -> f a = Some b -> collect f l <> [].
Proof.
  induction l as [|h l IH]; intros Hin Hf; [contradiction|].
  cbn [collect]. destruct (f h) eqn:E; [discriminate|].
  destruct Hin as [->|Hin]; [congruence|]. apply IH; assumption.
Qed.

(** A record without the field takes no part in the statistics of that
    field. *)
Lemma collect_skips {A B : Type} (f : A -> option B) (l1 l2 : list A) a :
  f a = None -> collect f (l1 ++ a :: l2) = collect f (l1 ++ l2).
Proof.
  intro H. induction l1 as [|h l1 IH]; cbn [app collect].
  - rewrite H. reflexivity.
  - rewrite IH. reflexivity.
Qed.

(** Splits a successful bind found in the context. *)
Ltac bind_ok H :=
  match type of H with
  | bind ?r _ = Ok _ =>
      let v := fresh "v" in
      let E := fresh "E" in
      destruct r as [v|] eqn:E; cbn [bind] in H; [|discriminate H]
  end.

(** What a returned trend over a history with a [temp_max] is made of. *)
Lemma temperature_trend_parts cfg day historical trend :
  _analyze_temperature_trend cfg day historical = Ok trend ->
  collect temp_max historical <> [] ->
  exists t_max t_min avg_max avg_min delta_max delta_min std diff hist_diff,
    temp_max day = Some t_max /\ temp_min day = Some t_min
    /\ Py.mean (collect temp_max historical) = Ok avg_max
    /\ Py.mean (collect temp_min historical) = Ok avg_min
    /\ Py.sub t_max avg_max = Ok delta_max
    /\ Py.sub t_min avg_min = Ok delta_min
    /\ (if (1 <? List.length (collect temp_max historical))%nat
        then Py.stdev (collect temp_max historical) else Ok (Py.Int 0)) = Ok std
    /\ Py.sub t_max t_min = Ok diff
    /\ Py.sub avg_max avg_min = Ok hist_diff
    /\ trend
       = {| tt_trend :=
              Some (if Py.gt (Py.abs delta_max)
                         (get (temp_change_threshold cfg) (Py.Int 3))
                    then (if Py.gt delta_max (Py.Int 0)
                          then "显著升温" else "显著降温")
                    else if Py.gt (Py.abs delta_max)
                              (Py.Float (Py.double (3 # 2)))
                    then (if Py.gt delta_max (Py.Int 0)
                          then "小幅升温" else "小幅降温")
                    else "稳定");
            tt_max_temp_change := Some (Py.round1 delta_max);
            tt_min_temp_change := Some (Py.round1 delta_min);
            tt_avg_max_temp := Some (Py.round1 avg_max);
            tt_avg_min_temp := Some (Py.round1 avg_min);
            tt_tomorrow_diff := Some (Py.round1 diff);
            tt_avg_hist_diff := Some (Py.round1 hist_diff);
            tt_volatility :=
              Some (if Py.gt std (Py.Int 5) then "high" else "normal");
            tt_temp_std := Some (Py.round1 std) |}.
Proof.
  intros H Hne. unfold _analyze_temperature_trend in H.
  destruct (collect temp_max historical) as [|m ms] eqn:Ec; [congruence|].
  destruct (Py.mean (m :: ms)) as [avg_max|] eqn:Eavg_max; cbn [bind] in H;
    [|discriminate H].
  destruct (Py.mean (collect temp_min historical)) as [avg_min|] eqn:Eavg_min;
    cbn [bind] in H; [|discriminate H].
  destruct (temp_max day) as [t_max|]; cbn [getitem bind] in H;
    [|discriminate H].
  destruct (Py.sub t_max avg_max) as [delta_max|] eqn:Edmax; cbn [bind] in H;
    [|discriminate H].
  destruct (temp_min day) as [t_min|]; cbn [getitem bind] in H;
    [|discriminate H].
  destruct (Py.sub t_min avg_min) as [delta_min|] eqn:Edmin; cbn [bind] in H;
    [|discriminate H].
  match type of H with
  | bind ?r _ = _ => destruct r as [std|] eqn:Estd; cbn [bind] in H;
                     [|discriminate H]
  end.
  destruct (Py.sub t_max t_min) as [diff|] eqn:Ediff; cbn [bind] in H;
    [|discriminate H].
  destruct (Py.sub avg_max avg_min) as [hist_diff|] eqn:Ehdiff; cbn [bind] in H;
    [|discriminate H].
  injection H as <-.
  exists t_max, t_min, avg_max, avg_min, delta_max, delta_min, std, diff,
    hist_diff.
  repeat split; try assumption; reflexivity.
Qed.

(** The trend of [_analyze_temperature_trend] whenever it is returned for a
    history that holds a [temp_max]: the label is decided on the unrounded
    change against the mean, the reported change is its rounding. *)
Lemma temperature_trend_unrounded cfg day historical trend :
  _analyze_temperature_trend cfg day historical = Ok trend ->
  collect temp_max historical <> [] ->
  exists t_max avg_max delta,
    temp_max day = Some t_max
    /\ Py.mean (collect temp_max historical) = Ok avg_max
    /\ Py.sub t_max avg_max = Ok delta
    /\ tt_max_temp_change trend = Some (Py.round1 delta)
    /\ let significant := get (temp_change_threshold cfg) (Py.Int 3) in
       let slight := Py.Float (Py.double (3 # 2)) in
       (num_lt significant (Py.abs delta) -> num_lt (Py.Int 0) delta ->
        tt_trend trend = Some "显著升温")
       /\ (num_lt significant (Py.abs delta) -> ~ num_lt (Py.Int 0) delta ->
           tt_trend trend = Some "显著降温")
       /\ (~ num_lt significant (Py.abs delta) -> num_lt slight (Py.abs delta) ->
           num_lt (Py.Int 0) delta -> tt_trend trend = Some "小幅升温")
       /\ (~ num_lt significant (Py.abs delta) -> num_lt slight (Py.abs delta) ->
           ~ num_lt (Py.Int 0) delta -> tt_trend trend = Some "小幅降温")
       /\ (~ num_lt significant (Py.abs delta) ->
           ~ num_lt slight (Py.abs delta) -> tt_trend trend = Some "稳定").
Proof.
  intros H Hne.
  destruct (temperature_trend_parts cfg day historical trend H Hne)
    as (t_max & t_min & avg_max & avg_min & delta & dmin & std & diff & hd
        & Hmax & _ & Eavg & _ & Edelta & _ & _ & _ & _ & ->).
  exists t_max, avg_max, delta. split; [exact Hmax|]. split; [exact Eavg|].
  split; [exact Edelta|]. split; [reflexivity|]. cbn [tt_trend]. cbv zeta.
  destruct (Py.gt (Py.abs delta) (get _ _)) eqn:Esig;
    [|destruct (Py.gt (Py.abs delta) (Py.Float (Py.double (3 # 2))))
        eqn:Eslight];
    try destruct (Py.gt delta (Py.Int 0)) eqn:Epos;
    tests_to_props; repeat split; intros; try reflexivity; contradiction.
Qed.

(** A change of 3.04 against the mean is reported as 3.0 and still
    classified as a significant rise: the comparison reads the unrounded
    value. *)
Example trend_compares_unrounded :
  (t <- _analyze_temperature_trend default_config close_to_threshold_day
          [spring_day] ;;
   Ok (tt_trend t, option_map Py.str (tt_max_temp_change t)))
  = Ok (Some "显著升温", Some "3.0").
Proof. vm_compute. reflexivity. Qed.

(** ** Clothing *)

Lemma to_float_raises (a : Py.num) (e : exn) :
  Py.to_float a = Raise e ->
  e = OverflowError "int too large to convert to float".
Proof.
  destruct a as [z|f]; cbn [Py.to_float]; [|discriminate].
  destruct (_ <? _); [discriminate|]. congruence.
Qed.

(** The clothing text ends in the [ValueError] of the format specification
    [". 0f"] exactly on a diurnal range of 12 or more with a maximum of 20
    or more. *)
Lemma clothing_raises_iff (t_max t_min apparent diff : Py.num) :
  Py.sub t_max t_min = Ok diff ->
  _get_clothing_suggestion t_max t_min apparent
  = Raise (ValueError "Format specifier missing precision")
  <-> num_le (Py.Int 12) diff /\ num_le (Py.Int 20) t_max.
Proof.
  intro Hdiff. unfold _get_clothing_suggestion. rewrite Hdiff. cbn [bind].
  change (Py.format t_max ". 0f")
    with (@Raise string (ValueError "Format specifier missing precision")).
  change (Py.format t_max ".0f")
    with (f <- Py.to_float t_max ;; Ok (Py.fixed false 0 f)).
  change (Py.format diff ".0f")
    with (f <- Py.to_float diff ;; Ok (Py.fixed false 0 f)).
  destruct (Py.ge diff (Py.Int 12)) eqn:E12;
    destruct (Py.ge t_max (Py.Int 20)) eqn:E20;
    try destruct (Py.ge t_max (Py.Int 15)) eqn:E15;
    try destruct (Py.ge diff (Py.Int 8)) eqn:E8;
    cbn [bind]; tests_to_props;
    (split; [|intros [H1 H2]; try reflexivity; contradiction]);
    try (intros _; split; assumption);
    destruct (Py.to_float t_max) as [x|ex] eqn:Ex;
    try (apply to_float_raises in Ex; subst ex);
    destruct (Py.to_float diff) as [y|ey] eqn:Ey;
    try (apply to_float_raises in Ey; subst ey);
    cbn [bind]; discriminate.
Qed.

(** The clothing text is returned in every other case, as long as the
    maximum and the diurnal range convert to float. *)
Lemma clothing_returns (t_max t_min apparent diff : Py.num) :
  Py.sub t_max t_min = Ok diff ->
  (exists f, Py.to_float t_max = Ok f) -> (exists f, Py.to_float diff = Ok f) ->
  ~ (num_le (Py.Int 12) diff /\ num_le (Py.Int 20) t_max) ->
  exists text, _get_clothing_suggestion t_max t_min apparent = Ok text.
Proof.
  intros Hdiff [x Hx] [y Hy] Hno.
  pose proof (clothing_raises_iff t_max t_min apparent diff Hdiff) as Hiff.
  unfold _get_clothing_suggestion in *. rewrite Hdiff in *. cbn [bind] in *.
  change (Py.format t_max ".0f")
    with (f <- Py.to_float t_max ;; Ok (Py.fixed false 0 f)) in *.
  change (Py.format diff ".0f")
    with (f <- Py.to_float diff ;; Ok (Py.fixed false 0 f)) in *.
  rewrite Hx, Hy in *. cbn [bind] in *.
  destruct (Py.ge diff (Py.Int 12)); [destruct (Py.ge t_max (Py.Int 20))|];
    cbn [bind] in *.
  - exfalso. apply Hno, Hiff. reflexivity.
  - destruct (Py.ge t_max (Py.Int 15)); eexists; reflexivity.
  - destruct (Py.ge diff (Py.Int 8)); [|eexists; reflexivity].
    destruct (Py.ge t_max (Py.Int 20)); eexists; reflexivity.
Qed.

(** The apparent temperature handed to [_get_clothing_suggestion] is not
    used. *)
Lemma clothing_ignores_apparent (t_max t_min a1 a2 : Py.num) :
  _get_clothing_suggestion t_max t_min a1
  = _get_clothing_suggestion t_max t_min a2.
Proof. reflexivity. Qed.

(** The clothing text of a returned analysis is the text computed from
    tomorrow's two temperatures. *)
Lemma analysis_clothing cfg day historical analysis :
  analyze_weather_trend cfg day historical = Ok analysis ->
  exists t_max t_min text,
    temp_max day = Some t_max /\ temp_min day = Some t_min
    /\ _get_clothing_suggestion t_max t_min t_max = Ok text
    /\ clothing (suggestions analysis) = Some text.
Proof.
  unfold analyze_weather_trend. destruct historical as [|h rest].
  - unfold _generate_simple_report.
    destruct (temp_max day) as [t_max|], (temp_min day) as [t_min|];
      cbn [getitem bind]; try discriminate.
    intro H. bind_ok H. injection H as <-.
    exists t_max, t_min, v. auto.
  - intro H. do 4 bind_ok H. injection H as <-. revert E2.
    unfold _generate_suggestions. cbn [tomorrow comfort_analysis].
    destruct (temp_max day) as [t_max|], (temp_min day) as [t_min|];
      cbn [getitem bind]; try discriminate.
    intro H. do 2 bind_ok H. injection H as <-.
    exists t_max, t_min, v3. rewrite <- E2. auto.
Qed.

(** C9. Two forecasts with the same [temp_max] and the same [temp_min] get
    the same clothing text, whatever their other fields, the rest of the
    analysis, the history and the configuration are: the composition yields
    the same clothing outcome for both, and two returned analyses carry the
    same clothing text. *)
Theorem clothing_depends_on_temperatures_only (d1 d2 : WeatherData) :
  temp_max d1 = temp_max d2 -> temp_min d1 = temp_min d2 ->
  (forall an1 an2, tomorrow an1 = d1 -> tomorrow an2 = d2 ->
     clothing_of (_generate_suggestions an1)
     = clothing_of (_generate_suggestions an2))
  /\ (forall cfg1 cfg2 h1 h2 r1 r2,
        analyze_weather_trend cfg1 d1 h1 = Ok r1 ->
        analyze_weather_trend cfg2 d2 h2 = Ok r2 ->
        clothing (suggestions r1) = clothing (suggestions r2)).
Proof.
  intros Hmax Hmin. split.
  - intros an1 an2 H1 H2. unfold clothing_of, _generate_suggestions.
    rewrite H1, H2, Hmax, Hmin.
    destruct (temp_max d2) as [t_max|], (temp_min d2) as [t_min|];
      cbn [getitem bind]; try reflexivity.
    rewrite (clothing_ignores_apparent t_max t_min _ t_max).
    rewrite (clothing_ignores_apparent t_max t_min
               (match comfort_analysis an2 with
                | Some c => ca_apparent_temp c
                | None => t_max
                end) t_max).
    destruct (_get_clothing_suggestion t_max t_min t_max) as [text|e] eqn:Ec;
      cbn [bind]; [|reflexivity].
    unfold _get_clothing_suggestion in Ec.
    unfold _get_health_suggestion.
    destruct (Py.sub t_max t_min) as [diff|]; cbn [bind] in *;
      [|discriminate Ec].
    repeat match goal with
      | |- context [if ?b then _ else _] => destruct b
      end; cbn [app bind]; reflexivity.
  - intros cfg1 cfg2 h1 h2 r1 r2 H1 H2.
    apply analysis_clothing in H1. apply analysis_clothing in H2.
    destruct H1 as (x1 & n1 & text1 & Ex1 & En1 & Ec1 & ->).
    destruct H2 as (x2 & n2 & text2 & Ex2 & En2 & Ec2 & ->).
    congruence.
Qed.

Example dry_and_wet_analyses :
  (a <- analyze_weather_trend default_config dry_day [] ;;
   Ok (clothing (suggestions a)),
   a <- analyze_weather_trend default_config wet_day [dry_day] ;;
   Ok (clothing (suggestions a), activity (suggestions a)))
  = (Ok (Some "👕 长袖衬衫/卫衣"),
     Ok (Some "👕 长袖衬衫/卫衣", Some "☔ 不适宜户外活动，建议室内运动或休息")).
Proof. vm_compute. reflexivity. Qed.

Lemma clothing_depends_on_temperatures_only_witness :
  temp_max dry_day = temp_max wet_day
  /\ temp_min dry_day = temp_min wet_day
  /\ (forall an1 an2, tomorrow an1 = dry_day -> tomorrow an2 = wet_day ->
        clothing_of (_generate_suggestions an1)
        = clothing_of (_generate_suggestions an2))
  /\ (forall cfg1 cfg2 h1 h2 r1 r2,
        analyze_weather_trend cfg1 dry_day h1 = Ok r1 ->
        analyze_weather_trend cfg2 wet_day h2 = Ok r2 ->
        clothing (suggestions r1) = clothing (suggestions r2)).
Proof.
  split; [reflexivity|]. split; [reflexivity|].
  apply (clothing_depends_on_temperatures_only dry_day wet_day); reflexivity.
Defined.

(** ** Failures of the analysis *)

(** Without history the analysis is the reduced one whenever the clothing
    text can be built. *)
Lemma simple_report_degenerate cfg day t_max t_min text :
  temp_max day = Some t_max -> temp_min day = Some t_min ->
  _get_clothing_suggestion t_max t_min t_max = Ok text ->
  exists analysis,
    analyze_weather_trend cfg day [] = Ok analysis
    /\ tt_trend (temperature_trend analysis) = Some "暂无历史数据对比"
    /\ weather_warnings analysis = []
    /\ clothing (suggestions analysis) = Some text.
Proof.
  intros Hmax Hmin Hc. eexists. split.
  - unfold analyze_weather_trend, _generate_simple_report.
    rewrite Hmax, Hmin. cbn [getitem bind]. rewrite Hc. reflexivity.
  - auto.
Qed.

(** The defaults of the optional keys: probability 0, humidity 50, and the
    description 'unknown' in the precipitation analysis. *)
Lemma optional_defaults day historical t_max t_min :
  temp_max day = Some t_max -> temp_min day = Some t_min ->
  moderate t_max -> moderate t_min ->
  humidity day = None -> precipitation_probability day = None ->
  weather day = None ->
  pt_probability (_analyze_precipitation day historical) = Py.Int 0
  /\ pt_weather_desc (_analyze_precipitation day historical) = "未知"
  /\ exists comfort, _analyze_comfort day historical = Ok comfort
                     /\ ca_humidity comfort = Py.Int 50.
Proof.
  intros Hmax Hmin Mmax Mmin Hh Hp Hw.
  split; [unfold _analyze_precipitation; rewrite Hp; reflexivity|].
  split; [unfold _analyze_precipitation; rewrite Hw; reflexivity|].
  destruct (comfort_returns day historical
              t_max t_min Hmax Hmin Mmax Mmin) as (a & d & _ & _ & H).
  - rewrite Hh. cbn. lia.
  - eexists. split; [exact H|]. cbn [ca_humidity]. rewrite Hh. reflexivity.
Qed.

(** A missing [temp_max] or [temp_min] of tomorrow always ends the analysis
    with an exception. *)
Lemma analysis_needs_both_temperatures cfg day historical :
  temp_max day = None \/ temp_min day = None ->
  exists e, analyze_weather_trend cfg day historical = Raise e.
Proof.
  intro H.
  destruct (analyze_weather_trend cfg day historical) as [a|e] eqn:E.
  - apply analysis_clothing in E. destruct E as (x & n & t & Hx & Hn & _).
    destruct H; congruence.
  - exists e. reflexivity.
Qed.

(** C1. Failing input: no history and a forecast of 28 and 14 degrees, both
    present.  The reduced analysis is not returned: the clothing text takes
    the branch whose format specification is [". 0f"] and the analysis ends
    with [ValueError]. *)
Theorem simple_report_raises_on_summer_day :
  analyze_weather_trend default_config summer_day []
  = Raise (ValueError "Format specifier missing precision").
Proof. vm_compute. reflexivity. Qed.

(** C8. Failing input: tomorrow with [temp_max] 30 and [temp_min] 15 present
    and a well-formed history of one day.  The analysis fails although both
    required fields are present: the clothing text raises [ValueError]. *)
Theorem analysis_raises_with_both_temperatures :
  analyze_weather_trend default_config bare_warm_day [spring_day]
  = Raise (ValueError "Format specifier missing precision").
Proof. vm_compute. reflexivity. Qed.

(** C4. Failing input: tomorrow at 20 degrees against a history whose only
    record carries [temp_max] 18 and no [temp_min].  The change is 2, above
    1.5, so the label should be the slight rise; no label is produced: the
    mean of the empty list of minima raises [StatisticsError]. *)
Theorem trend_raises_without_historical_temp_min :
  _analyze_temperature_trend default_config mild_day [day_without_temp_min]
  = Raise (StatisticsError "mean requires at least one data point").
Proof. vm_compute. reflexivity. Qed.

(** C5. Failing input: a history of one record that lacks [temp_min].  The
    record is not set aside: the whole analysis is aborted by
    [StatisticsError]. *)
Theorem analysis_aborts_on_record_without_temp_min :
  analyze_weather_trend default_config mild_day [day_without_temp_min]
  = Raise (StatisticsError "mean requires at least one data point").
Proof. vm_compute. reflexivity. Qed.

(** With one more record that is well formed the same malformed record is
    set aside and the analysis is returned. *)
Example malformed_record_among_others :
  (a <- analyze_weather_trend default_config mild_day
          [day_without_temp_min; spring_day] ;;
   Ok (tt_trend (temperature_trend a), tt_avg_max_temp (temperature_trend a),
       tt_avg_min_temp (temperature_trend a)))
  = Ok (Some "稳定", Some (Py.Int 21), Some (Py.Int 16)).
Proof. vm_compute. reflexivity. Qed.

(** The filter is per field: a record that lacks [temp_max] still counts
    in the mean of the minima, here (0 + 16) / 2. *)
Example record_without_temp_max_counts_in_minima :
  (t <- _analyze_temperature_trend default_config mild_day
          [cold_night_without_temp_max; spring_day] ;;
   Ok (tt_avg_max_temp t, tt_avg_min_temp t))
  = Ok (Some (Py.Int 24), Some (Py.Int 8)).
Proof. vm_compute. reflexivity. Qed.

(** ** Numbers in the report *)

Lemma round_half_even_nearest (q : Q) :
  (Qabs (inject_Z (Py.round_half_even q) - q) <= 1 # 2)%Q.
Proof.
  unfold Py.round_half_even.
  pose proof (Qfloor_le q) as Hlo. pose proof (Qlt_floor q) as Hhi.
  rewrite inject_Z_plus in Hhi. change (inject_Z 1) with 1%Q in Hhi.
  assert (Hup : (inject_Z (Qfloor q + 1) == inject_Z (Qfloor q) + 1)%Q)
    by (rewrite inject_Z_plus; reflexivity).
  apply Qabs_Qle_condition.
  destruct (Qcompare_spec (q - inject_Z (Qfloor q)) (1 # 2)) as [E|E|E];
    [destruct (Z.even (Qfloor q))| |]; rewrite ?Hup; split; lra.
Qed.

Lemma round_half_even_nonneg (q : Q) :
  (0 <= q)%Q -> 0 <= Py.round_half_even q.
Proof.
  intro H. unfold Py.round_half_even.
  assert (0 <= Qfloor q) by (apply (Qfloor_resp_le 0 q) in H; exact H).
  destruct (_ ?= _)%Q; [destruct (Z.even _)| |]; lia.
Qed.

Lemma digits_only_uint (u : Decimal.uint) :
  digits_only (NilEmpty.string_of_uint u) = true.
Proof. induction u; cbn; auto. Qed.

Lemma str_Z_digits (z : Z) : 0 <= z -> digits_only (Py.str_Z z) = true.
Proof.
  intro H. unfold Py.str_Z. destruct z as [|p|p]; [reflexivity| |lia].
  cbn [Z.to_int NilZero.string_of_int]. unfold NilZero.string_of_uint.
  destruct (Pos.to_uint p) eqn:E; try reflexivity;
    rewrite <- E; apply digits_only_uint.
Qed.

Lemma str_Z_digit (d : Z) :
  0 <= d < 10 ->
  Py.str_Z d = String (Py.digit d) "" /\ Py.is_digit (Py.digit d) = true.
Proof.
  intro H.
  assert (C : d = 0 \/ d = 1 \/ d = 2 \/ d = 3 \/ d = 4 \/ d = 5 \/ d = 6
              \/ d = 7 \/ d = 8 \/ d = 9) by lia.
  repeat (destruct C as [->|C]; [split; reflexivity|]). subst d.
  split; reflexivity.
Qed.

Lemma SF2Q_pos (m : positive) (e : Z) : (0 < Py.SF2Q false m e)%Q.
Proof.
  unfold Py.SF2Q. destruct e as [|p|p].
  - reflexivity.
  - unfold Qlt, inject_Z. cbn [Qnum Qden].
    assert (0 < 2 ^ Z.pos p) by (apply Z.pow_pos_nonneg; lia). nia.
  - reflexivity.
Qed.

Lemma magnitude_nonneg (f : spec_float) : (0 <= Py.magnitude f)%Q.
Proof.
  destruct f; cbn [Py.magnitude]; try discriminate.
  apply Qlt_le_weak, SF2Q_pos.
Qed.

Lemma fixed_one_decimal (plus : bool) (x : Py.num) (f : spec_float) :
  Py.to_float x = Ok f -> Py.is_finite (Py.Float f) = true ->
  one_decimal plus x (Py.fixed plus 1 f).
Proof.
  intros Hx Hf. exists f, (Py.round_half_even (Py.magnitude f * 10)).
  pose proof (round_half_even_nonneg (Py.magnitude f * 10)) as Hk.
  assert (Hpos : (0 <= Py.magnitude f * 10)%Q).
  { pose proof (magnitude_nonneg f). apply Qmult_le_0_compat; lra. }
  specialize (Hk Hpos).
  set (k := Py.round_half_even (Py.magnitude f * 10)) in *.
  assert (Hmod : 0 <= k mod 10 < 10) by (apply Z.mod_pos_bound; lia).
  destruct (str_Z_digit _ Hmod) as [Hd Hdig].
  split; [exact Hx|]. split; [apply round_half_even_nearest|]. split.
  - assert (Hfix : Py.fixed plus 1 f
                   = Py.sign_text plus (Py.signbit f)
                     ++ Py.fixed_digits 1 (Py.magnitude f)).
    { destruct f as [s|s| |s m e]; try reflexivity; try discriminate Hf.
      destruct s; discriminate Hf. }
    rewrite Hfix. unfold Py.fixed_digits. change (10 ^ Z.of_nat 1) with 10.
    change (inject_Z 10) with 10%Q. fold k. rewrite Hd. reflexivity.
  - split; [|exact Hdig]. apply str_Z_digits. apply Z.div_pos; lia.
Qed.

Lemma format_one_decimal (plus : bool) (x : Py.num) :
  printable x ->
  exists s, Py.format x (if plus then "+.1f" else ".1f") = Ok s
            /\ one_decimal plus x s.
Proof.
  intros (f & Hx & Hf). exists (Py.fixed plus 1 f). split.
  - destruct plus.
    + change (Py.format x "+.1f")
        with (f <- Py.to_float x ;; Ok (Py.fixed true 1 f)).
      rewrite Hx. reflexivity.
    + change (Py.format x ".1f")
        with (f <- Py.to_float x ;; Ok (Py.fixed false 1 f)).
      rewrite Hx. reflexivity.
  - apply fixed_one_decimal; assumption.
Qed.

(** C7, counterexample.  A maximum of 23.456 degrees is printed in the header
    of the report as it is, "23.456", and "23.5" is nowhere in the report. *)
Lemma header_prints_temperature_unrounded :
  exists analysis report,
    analyze_weather_trend default_config fractional_day [] = Ok analysis
    /\ format_report morning analysis = Ok report
    /\ Py.contains "**温度**: 15.5°C ~ 23.456°C" report = true
    /\ Py.contains "23.5" report = false.
Proof.
  eexists. eexists. split; [vm_compute; reflexivity|].
  split; [vm_compute; reflexivity|]. split; vm_compute; reflexivity.
Qed.

(** C7, amended.  The four figures of the temperature-trend section, as
    long as they are finite numbers within the range of floats, are printed
    with exactly one decimal, rounded to the nearest tenth and not truncated
    (the two changes with their sign); the header prints [temp_min] and
    [temp_max] with Python's default text of the stored number, so that
    23.456 appears as "23.456" and the int 23 as "23"; the precipitation
    section prints the probability the same way, "80.0" for the float 80,
    and the count of rainy days with digits only; the comfort section prints
    the stored apparent temperature the same way. *)
Theorem report_number_formats :
  (forall trend : TemperatureTrend,
     Forall printable (trend_figures trend) ->
     exists max_change min_change t_diff h_diff,
       trend_section trend
       = Ok ("## 📊 温度趋势分析" ++ Py.nl
             ++ "**趋势**: " ++ get (tt_trend trend) "稳定" ++ "  " ++ Py.nl
             ++ "**较近期平均温度**: 最高温" ++ max_change ++ "°C，最低温"
             ++ min_change ++ "°C  " ++ Py.nl
             ++ "**早晚温差**: " ++ t_diff ++ "°C  " ++ Py.nl
             ++ "**近期平均温差**: " ++ h_diff ++ "°C  " ++ Py.nl ++ Py.nl)
       /\ one_decimal true (get (tt_max_temp_change trend) (Py.Int 0)) max_change
       /\ one_decimal true (get (tt_min_temp_change trend) (Py.Int 0)) min_change
       /\ one_decimal false (get (tt_tomorrow_diff trend) (Py.Int 0)) t_diff
       /\ one_decimal false (get (tt_avg_hist_diff trend) (Py.Int 0)) h_diff)
  /\ (forall d t_max t_min w h p ws wd,
        header_section
          {| date := Some d; temp_max := Some t_max; temp_min := Some t_min;
             weather := Some w; humidity := Some h;
             precipitation_probability := p; wind_scale := Some ws;
             wind_dir := wd |}
        = Ok ("# 🌤️ 南京明日天气播报" ++ Py.nl ++ Py.nl
              ++ "## 📅 基本信息" ++ Py.nl
              ++ "**日期**:  " ++ d ++ "  " ++ Py.nl
              ++ "**天气**: " ++ w ++ "  " ++ Py.nl
              ++ "**温度**: " ++ Py.str t_min ++ "°C ~ " ++ Py.str t_max
              ++ "°C  " ++ Py.nl
              ++ "**湿度**: " ++ Py.str h ++ "%  " ++ Py.nl
              ++ "**风力**: " ++ ws ++ Py.nl ++ Py.nl))
  /\ (forall precip : PrecipitationTrend,
        exists days,
          precipitation_section precip
          = "## 🌧️ 降水分析" ++ Py.nl
            ++ "**降水概率**: " ++ Py.str (pt_probability precip) ++ "%  "
            ++ Py.nl
            ++ "**趋势**: " ++ pt_trend precip ++ "  " ++ Py.nl
            ++ "**近7天降雨**:  " ++ days ++ "天  " ++ Py.nl ++ Py.nl
          /\ digits_only days = true)
  /\ (forall comfort : ComfortAnalysis,
        comfort_section comfort
        = "## 🌡️ 体感舒适度" ++ Py.nl
          ++ "**体感温度**: " ++ Py.str (ca_apparent_temp comfort) ++ "°C  "
          ++ Py.nl
          ++ "**舒适等级**: " ++ ca_comfort_level comfort ++ "  " ++ Py.nl
          ++ Py.nl)
  /\ Py.format (Py.Float (Py.double (23456 # 1000))) ".1f" = Ok "23.5"
  /\ Py.str (Py.Float (Py.double (23456 # 1000))) = "23.456"
  /\ Py.str (Py.Int 23) = "23"
  /\ Py.str (Py.Float (Py.double 80)) = "80.0".
Proof.
  split; [|split; [|split; [|split]]].
  - intros trend Hp. unfold trend_figures in Hp.
    inversion Hp as [|? ? H1 Hp1]; subst. inversion Hp1 as [|? ? H2 Hp2]; subst.
    inversion Hp2 as [|? ? H3 Hp3]; subst. inversion Hp3 as [|? ? H4 _]; subst.
    destruct (format_one_decimal true _ H1) as (s1 & E1 & D1).
    destruct (format_one_decimal true _ H2) as (s2 & E2 & D2).
    destruct (format_one_decimal false _ H3) as (s3 & E3 & D3).
    destruct (format_one_decimal false _ H4) as (s4 & E4 & D4).
    exists s1, s2, s3, s4. unfold trend_section.
    rewrite E1, E2, E3, E4. cbn [bind]. auto.
  - reflexivity.
  - intro precip. eexists. split; [reflexivity|].
    apply str_Z_digits. lia.
  - reflexivity.
  - repeat split; vm_compute; reflexivity.
Qed.

Lemma report_number_formats_witness :
  Forall printable (trend_figures two_day_trend)
  /\ exists max_change min_change t_diff h_diff,
       trend_section two_day_trend
       = Ok ("## 📊 温度趋势分析" ++ Py.nl
             ++ "**趋势**: " ++ get (tt_trend two_day_trend) "稳定" ++ "  "
             ++ Py.nl
             ++ "**较近期平均温度**: 最高温" ++ max_change ++ "°C，最低温"
             ++ min_change ++ "°C  " ++ Py.nl
             ++ "**早晚温差**: " ++ t_diff ++ "°C  " ++ Py.nl
             ++ "**近期平均温差**: " ++ h_diff ++ "°C  " ++ Py.nl ++ Py.nl)
       /\ one_decimal true (get (tt_max_temp_change two_day_trend) (Py.Int 0))
            max_change
       /\ one_decimal true (get (tt_min_temp_change two_day_trend) (Py.Int 0))
            min_change
       /\ one_decimal false (get (tt_tomorrow_diff two_day_trend) (Py.Int 0))
            t_diff
       /\ one_decimal false (get (tt_avg_hist_diff two_day_trend) (Py.Int 0))
            h_diff.
Proof.
  assert (H : Forall printable (trend_figures two_day_trend)).
  { repeat (apply Forall_cons; [eexists; split; reflexivity|]).
    apply Forall_nil. }
  split; [exact H|].
  exact (proj1 report_number_formats two_day_trend H).
Defined.

(** A figure that is not finite is printed without decimals. *)
Example infinite_figures :
  (Py.format (Py.Float S754_nan) "+.1f",
   Py.format (Py.Float (S754_infinity true)) ".1f")
  = (Ok "+nan", Ok "-inf").
Proof. vm_compute. reflexivity. Qed.

(** ** The report and the clock *)

Example dry_analysis_computed :
  analyze_weather_trend default_config dry_day [] = Ok dry_analysis.
Proof. vm_compute. reflexivity. Qed.

(** C6, counterexample.  The same analysis rendered at two readings of the
    clock gives two different reports. *)
Lemma report_changes_with_the_clock :
  format_report morning dry_analysis <> format_report evening dry_analysis.
Proof.
  intro H. apply (f_equal text_of) in H. apply String.eqb_eq in H.
  vm_compute in H. discriminate H.
Qed.

(** C6, amended.  The analysis and the composition of suggestions are
    functions of their arguments alone; a report is a function of the
    analysis and of the reading of the clock: it fails whatever the clock
    says, or it is a body that does not depend on the clock followed by the
    footer that carries the time, so that two renderings of one analysis
    are identical as soon as the two readings print the same time. *)
Theorem report_is_body_and_timestamp (analysis : Analysis) :
  ((exists e, forall now, format_report now analysis = Raise e)
   \/ (exists body, forall now,
         format_report now analysis = Ok (body ++ footer now)))
  /\ (forall now1 now2, strftime now1 = strftime now2 ->
        format_report now1 analysis = format_report now2 analysis)
  /\ (forall cfg day historical r1 r2,
        analyze_weather_trend cfg day historical = r1 ->
        analyze_weather_trend cfg day historical = r2 -> r1 = r2)
  /\ (forall s1 s2,
        _generate_suggestions analysis = s1 ->
        _generate_suggestions analysis = s2 -> s1 = s2).
Proof.
  split; [|split; [|split]].
  - unfold format_report.
    destruct (header_section (tomorrow analysis)) as [header|e];
      [|left; exists e; reflexivity].
    cbn [bind].
    destruct (trend_nonempty (temperature_trend analysis)).
    + destruct (trend_section (temperature_trend analysis)) as [section|e];
        [|left; exists e; reflexivity].
      right. eexists. intro now. reflexivity.
    + right. eexists. intro now. reflexivity.
  - intros now1 now2 H. unfold format_report, footer. rewrite H. reflexivity.
  - intros; congruence.
  - intros; congruence.
Qed.

(** * Further properties of the analysis *)

(** What a returned analysis over a non-empty history is made of. *)
Lemma analysis_parts cfg day h rest analysis :
  analyze_weather_trend cfg day (h :: rest) = Ok analysis ->
  exists t_max t_min trend apparent diff change text advice,
    temp_max day = Some t_max /\ temp_min day = Some t_min
    /\ _analyze_temperature_trend cfg day (h :: rest) = Ok trend
    /\ apparent_temp t_max (get (humidity day) (Py.Int 50)) = Ok apparent
    /\ Py.sub t_max t_min = Ok diff
    /\ Py.sub t_max (recent_max (h :: rest) t_max) = Ok change
    /\ _get_clothing_suggestion t_max t_min t_max = Ok text
    /\ _get_health_suggestion (get (tt_trend trend) "") t_max t_min = Ok advice
    /\ analysis
       = {| tomorrow := day;
            temperature_trend := trend;
            precipitation_trend := Some (_analyze_precipitation day (h :: rest));
            comfort_analysis :=
              Some {| ca_apparent_temp := Py.round1 apparent;
                      ca_comfort_level := comfort_level apparent;
                      ca_humidity := get (humidity day) (Py.Int 50);
                      ca_temp_diff := diff |};
            weather_warnings :=
              map (warning_text day t_max t_min diff change)
                (filter (tested cfg day (h :: rest) t_max t_min diff change)
                   evaluation_order);
            suggestions :=
              {| clothing := Some text;
                 activity :=
                   Some (_get_activity_suggestion (get (weather day) "")
                           (comfort_level apparent)
                           (get (precipitation_probability day) (Py.Int 0)));
                 health := Some advice |} |}.
Proof.
  intro H. unfold analyze_weather_trend in H.
  destruct (_analyze_temperature_trend cfg day (h :: rest)) as [trend|] eqn:Et;
    cbn [bind] in H; [|discriminate H].
  unfold _analyze_comfort in H.
  destruct (temp_max day) as [t_max|] eqn:Hmax; cbn [getitem bind] in H;
    [|discriminate H].
  destruct (temp_min day) as [t_min|] eqn:Hmin; cbn [getitem bind] in H;
    [|discriminate H].
  destruct (apparent_temp t_max _) as [apparent|] eqn:Ea; cbn [bind] in H;
    [|discriminate H].
  destruct (Py.sub t_max t_min) as [diff|] eqn:Ed; cbn [bind] in H;
    [|discriminate H].
  destruct (_check_warnings cfg day (h :: rest)) as [warnings|] eqn:Ew;
    cbn [bind] in H; [|discriminate H].
  assert (Hchange : exists change,
            Py.sub t_max (recent_max (h :: rest) t_max) = Ok change).
  { revert Ew. unfold _check_warnings. rewrite Hmax, Hmin.
    cbn [getitem bind recent_max]. rewrite Ed. cbn [bind].
    match goal with
    | |- bind ?r _ = _ -> _ => destruct r; cbn [bind]; [|discriminate]
    end.
    destruct (Py.sub t_max (get (temp_max h) t_max)) as [c|];
      [|discriminate]. intros _. exists c. reflexivity. }
  destruct Hchange as [change Hchange].
  rewrite (check_warnings_filter cfg day (h :: rest) t_max t_min diff change
             Hmax Hmin Ed Hchange) in Ew. injection Ew as <-.
  unfold _generate_suggestions in H.
  cbn [tomorrow comfort_analysis temperature_trend] in H.
  rewrite Hmax, Hmin in H. cbn [getitem bind] in H.
  rewrite (clothing_ignores_apparent t_max t_min _ t_max) in H.
  destruct (_get_clothing_suggestion t_max t_min t_max) as [text|] eqn:Ec;
    cbn [bind] in H; [|discriminate H].
  destruct (_get_health_suggestion _ t_max t_min) as [advice|] eqn:Eh;
    cbn [bind] in H; [|discriminate H].
  injection H as <-.
  exists t_max, t_min, trend, apparent, diff, change, text, advice.
  repeat split; try assumption; reflexivity.
Qed.

Lemma temperature_trend_needs_minima cfg day historical :
  collect temp_max historical <> [] -> collect temp_min historical = [] ->
  exists e, _analyze_temperature_trend cfg day historical = Raise e.
Proof.
  intros Hmax Hmin.
  destruct (_analyze_temperature_trend cfg day historical) as [trend|e] eqn:E;
    [|exists e; reflexivity].
  destruct (temperature_trend_parts cfg day historical trend E Hmax)
    as (? & ? & ? & avg_min & ? & ? & ? & ? & ? & _ & _ & _ & Havg & _).
  rewrite Hmin in Havg. discriminate Havg.
Qed.

Lemma activity_indoor_iff (w c : string) (p : Py.num) :
  _get_activity_suggestion w c p = "☔ 不适宜户外活动，建议室内运动或休息"
  <-> num_lt (Py.Int 70) p.
Proof.
  unfold _get_activity_suggestion.
  destruct (Py.gt p (Py.Int 70)) eqn:E; tests_to_props.
  - split; [intros _; exact E|reflexivity].
  - split; [|intro H; contradiction].
    destruct (_ || _), (String.eqb c "舒适"), (String.eqb c "较舒适"),
      (String.eqb c "偏热"), (String.eqb c "偏冷"); intro H; discriminate H.
Qed.

Lemma warning_listed_iff cfg day historical t_max t_min diff change k :
  Py.sub t_max t_min = Ok diff ->
  Py.sub t_max (recent_max historical t_max) = Ok change ->
  In (warning_text day t_max t_min diff change k)
    (map (warning_text day t_max t_min diff change)
       (filter (tested cfg day historical t_max t_min diff change)
          evaluation_order))
  <-> fires cfg day historical t_max t_min k.
Proof.
  intros Hdiff Hchange.
  rewrite <- (tested_iff cfg day historical t_max t_min diff change k
                Hdiff Hchange). split.
  - intro H. apply in_map_iff in H. destruct H as (k' & Hk & Hin).
    apply warning_text_inj in Hk. subst k'. apply filter_In in Hin. tauto.
  - intro H. apply in_map, filter_In. split;
      [apply evaluation_order_complete|exact H].
Qed.

(** X2. In an analysis over a non-empty history, a probability of rain above
    70 shows in three places at once and in none otherwise: the
    precipitation trend is the high-probability label, the rain warning is
    in the warnings, and the activity advice is the one to stay indoors. *)
Theorem heavy_rain_shows_everywhere cfg day h rest analysis :
  analyze_weather_trend cfg day (h :: rest) = Ok analysis ->
  let p := get (precipitation_probability day) (Py.Int 0) in
  (num_lt (Py.Int 70) p
   <-> option_map pt_trend (precipitation_trend analysis) = Some "大概率降雨")
  /\ (num_lt (Py.Int 70) p
      <-> In (rain_warning p) (weather_warnings analysis))
  /\ (num_lt (Py.Int 70) p
      <-> activity (suggestions analysis)
          = Some "☔ 不适宜户外活动，建议室内运动或休息").
Proof.
  intros H p.
  destruct (analysis_parts cfg day h rest analysis H)
    as (t_max & t_min & trend & apparent & diff & change & text & advice
        & Hmax & Hmin & _ & _ & Hdiff & Hchange & _ & _ & ->).
  cbn [precipitation_trend weather_warnings suggestions activity option_map].
  split; [|split].
  - unfold _analyze_precipitation. cbn [pt_trend]. fold p.
    destruct (Py.gt p (Py.Int 70)) eqn:E70; [|destruct (Py.gt p (Py.Int 40))];
      tests_to_props;
      (split; [intro Hp; try reflexivity; contradiction
              |intro Hl; try exact E70; discriminate Hl]).
  - change (rain_warning p)
      with (warning_text day t_max t_min diff change Rain).
    rewrite (warning_listed_iff cfg day (h :: rest) t_max t_min diff change
               Rain Hdiff Hchange). reflexivity.
  - fold p. rewrite <- (activity_indoor_iff (get (weather day) "")
                         (comfort_level apparent) p).
    split; [intros ->; reflexivity|intro Hs; injection Hs as Hs; exact Hs].
Qed.

Lemma heavy_rain_shows_everywhere_witness :
  analyze_weather_trend default_config wet_day [dry_day] = Ok wet_analysis
  /\ (num_lt (Py.Int 70) (get (precipitation_probability wet_day) (Py.Int 0))
      <-> In (rain_warning (get (precipitation_probability wet_day) (Py.Int 0)))
            (weather_warnings wet_analysis)).
Proof.
  split; [vm_compute; reflexivity|].
  apply (heavy_rain_shows_everywhere default_config wet_day dry_day []
           wet_analysis).
  vm_compute. reflexivity.
Defined.

(** X3. No analysis carries the fall-back activity advice: without history
    the advice is the fixed text, with history the comfort level is always
    one of the four that the rules name. *)
Theorem fallback_activity_is_never_given cfg day historical analysis :
  analyze_weather_trend cfg day historical = Ok analysis ->
  activity (suggestions analysis) <> Some "🚶 可适度户外活动"
  /\ In (activity (suggestions analysis))
       [Some "暂无建议";
        Some "☔ 不适宜户外活动，建议室内运动或休息";
        Some "🏠 户外活动受限，可选择室内健身、看书等";
        Some "🎯 天气宜人，适合户外运动、郊游、散步";
        Some "🚶 适合适度户外活动，避免剧烈运动";
        Some "🌡️ 天气较热，户外活动请选择早晚时段，注意防暑";
        Some "❄️ 天气较冷，户外活动请做好保暖措施"].
Proof.
  intro H. destruct historical as [|h rest].
  - unfold analyze_weather_trend, _generate_simple_report in H.
    destruct (temp_max day), (temp_min day); cbn [getitem bind] in H;
      try discriminate H.
    bind_ok H. injection H as <-. cbn [suggestions activity].
    split; [discriminate|]. left. reflexivity.
  - destruct (analysis_parts cfg day h rest analysis H)
      as (t_max & t_min & trend & apparent & diff & change & text & advice
          & _ & _ & _ & _ & _ & _ & _ & _ & ->).
    cbn [suggestions activity].
    set (c := comfort_level _).
    assert (Hc : c = "舒适" \/ c = "较舒适" \/ c = "偏冷" \/ c = "偏热").
    { unfold c, comfort_level. destruct (_ && _); [auto|].
      destruct (_ || _); [auto|]. destruct (Py.lt _ _); auto. }
    clearbody c. unfold _get_activity_suggestion.
    destruct (Py.gt _ (Py.Int 70)); [split; [discriminate|cbn [In]; auto 10]|].
    destruct (_ || _); [split; [discriminate|cbn [In]; auto 10]|].
    destruct Hc as [-> | [-> | [-> | ->]]]; vm_compute;
      (split; [discriminate|auto 10]).
Qed.

Lemma fallback_activity_is_never_given_witness :
  analyze_weather_trend default_config wet_day [dry_day] = Ok wet_analysis
  /\ activity (suggestions wet_analysis) <> Some "🚶 可适度户外活动".
Proof.
  split; [vm_compute; reflexivity|].
  apply (fallback_activity_is_never_given default_config wet_day [dry_day]
           wet_analysis).
  vm_compute. reflexivity.
Defined.

(** X4. Whenever the diurnal range can be computed, the health advice is the
    default sentence exactly when no rule applies: the trend names neither a
    fall nor a rise, the diurnal range is not above 12, the minimum not
    below 10 and the maximum not above 30.  The range is the difference that
    Python computes: 12.000000000000002 for 22.1 and 10.1 degrees. *)
Theorem health_default_iff (trend : string) (t_max t_min diff : Py.num) :
  Py.sub t_max t_min = Ok diff ->
  _get_health_suggestion trend t_max t_min = Ok "💊 天气适宜，注意规律作息"
  <-> Py.contains "降温" trend = false /\ Py.contains "升温" trend = false
      /\ ~ num_lt (Py.Int 12) diff /\ ~ num_lt t_min (Py.Int 10)
      /\ ~ num_lt (Py.Int 30) t_max.
Proof.
  intro Hdiff. unfold _get_health_suggestion. rewrite Hdiff. cbn [bind].
  destruct (Py.contains "降温" trend), (Py.contains "升温" trend),
    (Py.gt diff (Py.Int 12)) eqn:Ed,
    (Py.lt t_min (Py.Int 10)) eqn:Em, (Py.gt t_max (Py.Int 30)) eqn:Ex;
    cbn [app Py.join]; tests_to_props;
    (split;
     [intro H; try discriminate H; repeat split; assumption
     |intros (H1 & H2 & H3 & H4 & H5); try discriminate H1;
      try discriminate H2; try reflexivity; contradiction]).
Qed.

Example health_on_floats :
  (_get_health_suggestion "稳定" (Py.Float (Py.double (221 # 10)))
     (Py.Float (Py.double (101 # 10))),
   _get_health_suggestion "稳定" (Py.Int 22) (Py.Int 10))
  = (Ok "💊 温差较大，心血管疾病患者请注意", Ok "💊 天气适宜，注意规律作息").
Proof. vm_compute. reflexivity. Qed.

Lemma health_default_iff_witness :
  Py.sub (Py.Float (Py.double (221 # 10))) (Py.Float (Py.double (101 # 10)))
  = Ok (Py.Float (Py.double (12000000000000002 # 1000000000000000)))
  /\ (_get_health_suggestion "稳定" (Py.Float (Py.double (221 # 10)))
        (Py.Float (Py.double (101 # 10)))
      = Ok "💊 天气适宜，注意规律作息"
      <-> Py.contains "降温" "稳定" = false /\ Py.contains "升温" "稳定" = false
          /\ ~ num_lt (Py.Int 12)
                 (Py.Float (Py.double (12000000000000002 # 1000000000000000)))
          /\ ~ num_lt (Py.Float (Py.double (101 # 10))) (Py.Int 10)
          /\ ~ num_lt (Py.Int 30) (Py.Float (Py.double (221 # 10)))).
Proof.
  split; [vm_compute; reflexivity|].
  apply (health_default_iff "稳定" (Py.Float (Py.double (221 # 10)))
           (Py.Float (Py.double (101 # 10)))).
  vm_compute. reflexivity.
Defined.

(** ** The sign of a rounded float *)

Lemma shr_1_nonneg (mrs : shr_record) : 0 <= shr_m mrs -> 0 <= shr_m (shr_1 mrs).
Proof.
  destruct mrs as [m r s]. destruct m as [|[p|p|]|[p|p|]]; cbn; lia.
Qed.

Lemma iter_shr_1_nonneg (n : positive) :
  forall mrs, 0 <= shr_m mrs -> 0 <= shr_m (iter_pos shr_1 n mrs).
Proof.
  induction n as [n IH|n IH|]; intros mrs H; cbn [iter_pos].
  - apply IH, IH, shr_1_nonneg, H.
  - apply IH, IH, H.
  - apply shr_1_nonneg, H.
Qed.

Lemma shr_fexp_nonneg (m e : Z) (l : location) :
  0 <= m -> 0 <= shr_m (fst (shr_fexp Py.prec Py.emax m e l)).
Proof.
  intro H. unfold shr_fexp, shr.
  assert (H0 : 0 <= shr_m (shr_record_of_loc m l))
    by (destruct l as [|[]]; exact H).
  destruct (_ - e) as [|p|p]; cbn [fst]; try exact H0.
  apply iter_shr_1_nonneg, H0.
Qed.

Lemma binary_round_aux_sign (sx : bool) (mx ex : Z) (lx : location) :
  0 <= mx ->
  binary_round_aux Py.prec Py.emax sx mx ex lx <> S754_nan
  /\ Py.signbit (binary_round_aux Py.prec Py.emax sx mx ex lx) = sx.
Proof.
  intro H. unfold binary_round_aux.
  pose proof (shr_fexp_nonneg mx ex lx H) as H1.
  destruct (shr_fexp Py.prec Py.emax mx ex lx) as [mrs' e'].
  cbn [fst] in H1.
  assert (H2 : 0 <= round_nearest_even (shr_m mrs') (loc_of_shr_record mrs')).
  { unfold round_nearest_even.
    destruct (loc_of_shr_record mrs') as [|[]]; try exact H1;
      [destruct (Z.even _)|]; lia. }
  pose proof (shr_fexp_nonneg _ e' loc_Exact H2) as H3.
  destruct (shr_fexp Py.prec Py.emax _ e' loc_Exact) as [mrs'' e''].
  cbn [fst] in H3.
  destruct (shr_m mrs'') as [|m|m]; [| |lia].
  - split; [discriminate|reflexivity].
  - destruct (e'' <=? _); split; try discriminate; reflexivity.
Qed.

Lemma quotient_sign (s : bool) (n d : positive) :
  Py.quotient s n d <> S754_nan /\ Py.signbit (Py.quotient s n d) = s.
Proof.
  unfold Py.quotient, SFdiv.
  destruct (SFdiv_core_binary Py.prec Py.emax (Z.pos n) 0 (Z.pos d) 0)
    as [[mz ez] lz] eqn:E.
  replace (xorb s false) with s by (destruct s; reflexivity).
  apply binary_round_aux_sign.
  unfold SFdiv_core_binary in E.
  match type of E with
  | (let '(q, r) := Z.div_eucl ?a ?b in _) = _ =>
      pose proof (Z_div_mod a b eq_refl) as Hdiv;
      assert (Ha : 0 <= a); [|destruct (Z.div_eucl a b) as [q r]]
  end.
  - destruct (_ - _ - _) as [|p|p]; try lia. apply Z.shiftl_nonneg. lia.
  - injection E as <- _ _. destruct Hdiv as [Hq Hr]. nia.
Qed.

Lemma true_div_unsigned (n : Z) (d : positive) (f : spec_float) :
  0 <= n -> Py.true_div n d = Ok f -> unsigned f.
Proof.
  intros Hn H. unfold Py.true_div in H.
  destruct (_ <? _); [|discriminate H]. injection H as <-.
  destruct n as [|p|p]; [split; [discriminate|reflexivity]| |lia].
  apply quotient_sign.
Qed.

Lemma rto_nonneg (n m : Z) : 0 <= Py._integer_sqrt_of_frac_rto n m.
Proof.
  unfold Py._integer_sqrt_of_frac_rto. apply Z.lor_nonneg. split.
  - apply Z.sqrt_nonneg.
  - destruct (_ =? _); lia.
Qed.

Lemma float_sqrt_unsigned (n m : Z) (f : spec_float) :
  Py._float_sqrt_of_frac n m = Ok f -> unsigned f.
Proof.
  unfold Py._float_sqrt_of_frac. destruct (0 <=? _); intro H.
  - apply true_div_unsigned in H; [exact H|].
    apply Z.shiftl_nonneg, rto_nonneg.
  - apply true_div_unsigned in H; [exact H|]. apply rto_nonneg.
Qed.

Lemma stdev_unsigned (data : list Py.num) (s : Py.num) :
  Py.stdev data = Ok s -> exists f, s = Py.Float f /\ unsigned f.
Proof.
  unfold Py.stdev. destruct (_ <? 2); [discriminate|].
  destruct (forallb _ _); [|discriminate].
  intro H. bind_ok H. injection H as <-. exists v. split; [reflexivity|].
  eapply float_sqrt_unsigned, E.
Qed.

Lemma round1_unsigned (f : spec_float) :
  unsigned f -> exists g, Py.round1 (Py.Float f) = Py.Float g /\ unsigned g.
Proof.
  intros [Hn Hs]. destruct f as [s|s| |s m e]; cbn [Py.round1].
  - eexists. split; [reflexivity|]. split; assumption.
  - eexists. split; [reflexivity|]. split; assumption.
  - congruence.
  - cbn [Py.signbit] in Hs. subst s.
    destruct (Py.round_half_even _) as [|k|k]; eexists;
      (split; [reflexivity|]); try (split; [discriminate|reflexivity]).
    apply quotient_sign.
Qed.

Lemma unsigned_nonneg (f : spec_float) :
  unsigned f -> num_le (Py.Int 0) (Py.Float f).
Proof.
  intros [Hn Hs]. unfold num_le. cbn [Py.val].
  destruct f as [s|s| |s m e]; cbn [Py.signbit] in Hs; try subst s;
    cbn [Py.float_val value_le]; try congruence.
  - discriminate.
  - exact I.
  - change (inject_Z 0) with 0%Q. apply Qlt_le_weak, SF2Q_pos.
Qed.

(** ** The deviation of equal data *)

Lemma denotes_finite (a : Py.num) (v : Q) :
  denotes a v -> Py.is_finite a = true /\ (Py.exact a == v)%Q.
Proof.
  unfold denotes, Py.is_finite, Py.exact.
  destruct (Py.val a); intro H; try contradiction. split; [reflexivity|exact H].
Qed.

Lemma constant_data (data : list Py.num) (v : Q) :
  Forall (fun a => denotes a v) data ->
  forallb Py.is_finite data = true
  /\ (Py.total data == inject_Z (Z.of_nat (List.length data)) * v)%Q
  /\ (Py.total_of_squares data
      == inject_Z (Z.of_nat (List.length data)) * (v * v))%Q.
Proof.
  induction 1 as [|a data Ha _ (IH1 & IH2 & IH3)].
  - repeat split; reflexivity.
  - apply denotes_finite in Ha. destruct Ha as [Hf He].
    cbn [forallb]. rewrite Hf, IH1. split; [reflexivity|].
    unfold Py.total, Py.total_of_squares in *.
    cbn [fold_right List.length]. rewrite IH2, IH3, He.
    rewrite Nat2Z.inj_succ. unfold Z.succ. rewrite inject_Z_plus.
    change (inject_Z 1) with 1%Q. split; ring.
Qed.

Lemma stdev_of_constant (data : list Py.num) (v : Q) :
  (1 < List.length data)%nat -> Forall (fun a => denotes a v) data ->
  Py.stdev data = Ok (Py.Float (S754_zero false)).
Proof.
  intros Hlen Hall. destruct (constant_data data v Hall) as (Hf & Ht & Hs).
  unfold Py.stdev. rewrite Hf.
  assert (E : (Z.of_nat (List.length data) <? 2) = false)
    by (apply Z.ltb_ge; lia).
  rewrite E.
  set (n := inject_Z (Z.of_nat (List.length data))) in *.
  assert (Hn : ~ (n == 0)%Q).
  { unfold n, Qeq, inject_Z. cbn [Qnum Qden]. lia. }
  assert (Hmss : Qred ((n * Py.total_of_squares data
                        - Py.total data * Py.total data) / n / (n - 1))
                 = 0%Q).
  { change 0%Q with (Qred 0). apply Qred_complete.
    rewrite Ht, Hs. unfold Qdiv.
    setoid_replace (n * (n * (v * v)) - n * v * (n * v))%Q with 0%Q by ring.
    ring. }
  rewrite Hmss. reflexivity.
Qed.

(** X5. The deviation that a temperature trend reports is never negative;
    when every maximum of the history has the same value (a single one for
    instance) it is zero and the volatility is 'normal'. *)
Theorem reported_deviation cfg day historical trend :
  _analyze_temperature_trend cfg day historical = Ok trend ->
  collect temp_max historical <> [] ->
  exists std,
    tt_temp_std trend = Some std /\ num_le (Py.Int 0) std
    /\ forall v,
         Forall (fun a => denotes a v) (collect temp_max historical) ->
         denotes std 0 /\ tt_volatility trend = Some "normal".
Proof.
  intros H Hne.
  destruct (temperature_trend_parts cfg day historical trend H Hne)
    as (? & ? & ? & ? & ? & ? & std & ? & ?
        & _ & _ & _ & _ & _ & _ & Hstd & _ & _ & ->).
  cbn [tt_temp_std tt_volatility]. exists (Py.round1 std).
  split; [reflexivity|].
  destruct (1 <? List.length (collect temp_max historical))%nat eqn:Elen.
  - destruct (stdev_unsigned _ _ Hstd) as (f & -> & Hf).
    destruct (round1_unsigned f Hf) as (g & Hg & Hu). rewrite Hg.
    split; [apply unsigned_nonneg, Hu|].
    intros v Hall. apply Nat.ltb_lt in Elen.
    rewrite (stdev_of_constant _ v Elen Hall) in Hstd.
    injection Hstd as <-. rewrite <- Hg. split; reflexivity.
  - injection Hstd as <-. cbn [Py.round1]. split.
    + unfold num_le. cbn. discriminate.
    + intros v _. split; reflexivity.
Qed.

Lemma reported_deviation_witness :
  _analyze_temperature_trend default_config mild_day [spring_day] = Ok mild_trend
  /\ collect temp_max [spring_day] <> []
  /\ exists std,
       tt_temp_std mild_trend = Some std /\ num_le (Py.Int 0) std
       /\ forall v,
            Forall (fun a => denotes a v) (collect temp_max [spring_day]) ->
            denotes std 0 /\ tt_volatility mild_trend = Some "normal".
Proof.
  split; [vm_compute; reflexivity|]. split; [discriminate|].
  apply (reported_deviation default_config mild_day [spring_day] mild_trend).
  - vm_compute. reflexivity.
  - discriminate.
Defined.

(** The deviation of 24 and 22 degrees, of twice 24 degrees and of a single
    day. *)
Example deviation_samples :
  (option_map Py.str (tt_temp_std two_day_trend),
   t <- _analyze_temperature_trend default_config mild_day
          [spring_day; spring_day] ;;
   Ok (option_map Py.str (tt_temp_std t), tt_volatility t),
   option_map Py.str (tt_temp_std mild_trend), tt_volatility mild_trend)
  = (Some "1.4", Ok (Some "0.0", Some "normal"), Some "0", Some "normal").
Proof. vm_compute. reflexivity. Qed.

(** X6. With a configured [temp_change_threshold] of 1.5 or less the two
    'slight' labels are never given: a change is significant or the trend is
    stable. *)
Theorem low_threshold_gives_no_slight_label cfg day historical trend threshold :
  temp_change_threshold cfg = Some threshold ->
  num_le threshold (Py.Float (Py.double (3 # 2))) ->
  _analyze_temperature_trend cfg day historical = Ok trend ->
  tt_trend trend <> Some "小幅升温" /\ tt_trend trend <> Some "小幅降温".
Proof.
  intros Hcfg Hthr H.
  destruct (collect temp_max historical) as [|m ms] eqn:Ec.
  - unfold _analyze_temperature_trend in H. rewrite Ec in H.
    injection H as <-. split; discriminate.
  - assert (Hne : collect temp_max historical <> [])
      by (rewrite Ec; discriminate).
    destruct (temperature_trend_parts cfg day historical trend H Hne)
      as (? & ? & ? & ? & delta & ? & ? & ? & ?
          & _ & _ & _ & _ & _ & _ & _ & _ & _ & ->).
    cbn [tt_trend]. rewrite Hcfg. cbn [get].
    destruct (Py.gt (Py.abs delta) threshold) eqn:Esig;
      [destruct (Py.gt delta (Py.Int 0)); split; discriminate|].
    destruct (Py.gt (Py.abs delta) (Py.Float (Py.double (3 # 2)))) eqn:Eslight;
      [|split; discriminate].
    exfalso. tests_to_props. apply Esig. revert Hthr Eslight.
    unfold num_le, num_lt.
    destruct (Py.val threshold), (Py.val (Py.Float (Py.double (3 # 2)))),
      (Py.val (Py.abs delta)); cbn [value_le value_lt]; try tauto.
    intros; lra.
Qed.

Lemma low_threshold_gives_no_slight_label_witness :
  temp_change_threshold strict_config = Some (Py.Int 1)
  /\ num_le (Py.Int 1) (Py.Float (Py.double (3 # 2)))
  /\ _analyze_temperature_trend strict_config mild_day [spring_day]
     = Ok strict_trend
  /\ tt_trend strict_trend <> Some "小幅升温"
  /\ tt_trend strict_trend <> Some "小幅降温".
Proof.
  split; [reflexivity|]. split; [vm_compute; discriminate|].
  split; [vm_compute; reflexivity|].
  apply (low_threshold_gives_no_slight_label strict_config mild_day
           [spring_day] strict_trend (Py.Int 1)).
  - reflexivity.
  - vm_compute. discriminate.
  - vm_compute. reflexivity.
Defined.

(** * Further properties of the report *)

Lemma append_empty_r (s : string) : s ++ "" = s.
Proof. induction s as [|c s IH]; cbn; [reflexivity|now rewrite IH]. Qed.

Lemma append_assoc (a b c : string) : (a ++ b) ++ c = a ++ b ++ c.
Proof. induction a as [|x a IH]; cbn; [reflexivity|now rewrite IH]. Qed.

Lemma prefix_app (w a b : string) :
  prefix w a = true -> prefix w (a ++ b) = true.
Proof.
  revert a. induction w as [|x w IH]; intros a H; [destruct a, b; reflexivity|].
  destruct a as [|y a]; cbn in *; [discriminate|].
  destruct (ascii_dec x y); [apply IH, H|discriminate].
Qed.

Lemma prefix_self (w b : string) : prefix w (w ++ b) = true.
Proof.
  induction w as [|x w IH]; cbn; [destruct b; reflexivity|].
  destruct (ascii_dec x x); [exact IH|congruence].
Qed.

Lemma contains_app_r (w a b : string) :
  Py.contains w b = true -> Py.contains w (a ++ b) = true.
Proof.
  intro H. induction a as [|x a IH]; [exact H|].
  cbn [append Py.contains]. rewrite IH. apply orb_true_r.
Qed.

Lemma contains_app_l (w a b : string) :
  Py.contains w a = true -> Py.contains w (a ++ b) = true.
Proof.
  induction a as [|x a IH]; intro H.
  - destruct w; [destruct b; reflexivity|discriminate H].
  - cbn [append]. cbn [Py.contains] in *. apply orb_true_iff in H.
    apply orb_true_iff. destruct H as [H|H].
    + left. exact (prefix_app w (String x a) b H).
    + right. apply IH, H.
Qed.

Lemma contains_prefix (w h : string) :
  prefix w h = true -> Py.contains w h = true.
Proof. intro H. destruct h; cbn [Py.contains]; rewrite H; reflexivity. Qed.

Lemma contains_middle (w a b : string) : Py.contains w (a ++ w ++ b) = true.
Proof. apply contains_app_r, contains_prefix, prefix_self. Qed.

Lemma warnings_loop_contains (w : string) (warnings : list string) :
  forall report,
    In w warnings \/ Py.contains w report = true ->
    Py.contains w
      (fold_left (fun report warning => report ++ warning ++ Py.nl ++ Py.nl)
         warnings report) = true.
Proof.
  induction warnings as [|x warnings IH]; intros report H; cbn [fold_left].
  - destruct H as [[]|H]. exact H.
  - apply IH. destruct H as [[->|H]|H].
    + right. apply contains_middle.
    + left. exact H.
    + right. apply contains_app_l, H.
Qed.

Lemma trend_section_returns_iff (trend : TemperatureTrend) :
  (exists section, trend_section trend = Ok section)
  <-> Forall converts (trend_figures trend).
Proof.
  unfold trend_section, trend_figures.
  change (Py.format ?x "+.1f")
    with (f <- Py.to_float x ;; Ok (Py.fixed true 1 f)).
  change (Py.format ?x ".1f")
    with (f <- Py.to_float x ;; Ok (Py.fixed false 1 f)).
  split.
  - intros [section H]. do 4 bind_ok H. cbn [bind] in *.
    repeat match goal with
      | E : bind (Py.to_float ?x) _ = Ok _ |- _ =>
          destruct (Py.to_float x) eqn:?; cbn [bind] in E; [|discriminate E]
      end.
    repeat constructor; eexists; eassumption.
  - intro H. inversion H as [|? ? [f1 H1] Hp1]; subst.
    inversion Hp1 as [|? ? [f2 H2] Hp2]; subst.
    inversion Hp2 as [|? ? [f3 H3] Hp3]; subst.
    inversion Hp3 as [|? ? [f4 H4] _]; subst.
    rewrite H1, H2, H3, H4. cbn [bind]. eexists. reflexivity.
Qed.

(** X7. A report is rendered exactly when tomorrow has its date and its two
    temperatures and the four figures of a temperature trend that is not
    empty convert to float; the first key missing among ['date'],
    ['temp_min'] and ['temp_max'], in this order, is the one the [KeyError]
    names.  An analysis, which never reads the date, can thus be returned
    and still not be rendered. *)
Theorem format_report_needs_three_keys now analysis :
  (date (tomorrow analysis) = None ->
   format_report now analysis = Raise (KeyError "date"))
  /\ (date (tomorrow analysis) <> None ->
      temp_min (tomorrow analysis) = None ->
      format_report now analysis = Raise (KeyError "temp_min"))
  /\ (date (tomorrow analysis) <> None ->
      temp_min (tomorrow analysis) <> None ->
      temp_max (tomorrow analysis) = None ->
      format_report now analysis = Raise (KeyError "temp_max"))
  /\ (date (tomorrow analysis) <> None ->
      temp_min (tomorrow analysis) <> None ->
      temp_max (tomorrow analysis) <> None ->
      ((exists report, format_report now analysis = Ok report)
       <-> (trend_nonempty (temperature_trend analysis) = true ->
            Forall converts (trend_figures (temperature_trend analysis))))).
Proof.
  unfold format_report, header_section.
  destruct (date (tomorrow analysis)) as [d|],
    (temp_min (tomorrow analysis)) as [t_min|],
    (temp_max (tomorrow analysis)) as [t_max|];
    cbn [getitem bind]; repeat split; intros; try congruence.
  - destruct (trend_nonempty (temperature_trend analysis)); [|discriminate].
    apply trend_section_returns_iff.
    destruct (trend_section (temperature_trend analysis)) as [s|e];
      [exists s; reflexivity|].
    destruct H2 as [report Hr]. discriminate Hr.
  - destruct (trend_nonempty (temperature_trend analysis)).
    + destruct (proj2 (trend_section_returns_iff (temperature_trend analysis))
                  (H2 eq_refl)) as [s Hs].
      rewrite Hs. cbn [bind]. eexists. reflexivity.
    + cbn [bind]. eexists. reflexivity.
Qed.

(** A forecast without its date is analysed and cannot be rendered. *)
Example undated_forecast_is_not_rendered :
  (a <- analyze_weather_trend default_config undated_day [spring_day] ;;
   Ok (tt_trend (temperature_trend a), weather_warnings a),
   a <- analyze_weather_trend default_config undated_day [spring_day] ;;
   format_report morning a)
  = (Ok (Some "显著降温", []), Raise (KeyError "date")).
Proof. vm_compute. reflexivity. Qed.

(** A trend whose change is an int beyond the range of floats is returned
    by the analysis and cannot be rendered. *)
Example huge_figure_is_not_rendered :
  (a <- analyze_weather_trend default_config frozen_day [spring_day] ;;
   Ok (tt_trend (temperature_trend a)),
   a <- analyze_weather_trend default_config frozen_day [spring_day] ;;
   format_report morning a)
  = (Ok (Some "显著降温"),
     Raise (OverflowError "int too large to convert to float")).
Proof. vm_compute. reflexivity. Qed.

(** X8. Every warning of the analysis is in the rendered report, under the
    title of the warnings section. *)
Theorem every_warning_is_rendered now analysis report w :
  format_report now analysis = Ok report ->
  In w (weather_warnings analysis) ->
  Py.contains w report = true
  /\ Py.contains "## ⚠️ 天气预警" report = true.
Proof.
  intros H Hin. unfold format_report in H. do 2 bind_ok H. injection H as <-.
  assert (Hw : forall x,
             In x (weather_warnings analysis)
             \/ Py.contains x ("## ⚠️ 天气预警" ++ Py.nl) = true ->
             Py.contains x (warnings_section (weather_warnings analysis))
             = true).
  { intros x Hx. unfold warnings_section.
    destruct (weather_warnings analysis) as [|y ys] eqn:Ew; [contradiction|].
    apply warnings_loop_contains. exact Hx. }
  cbv zeta.
  split; apply contains_app_l;
    (destruct (suggestions_nonempty (suggestions analysis));
     [apply contains_app_l|]); apply contains_app_r, Hw.
  - left. exact Hin.
  - left. exact Hin.
  - right. reflexivity.
  - right. reflexivity.
Qed.

Lemma every_warning_is_rendered_witness :
  format_report morning wet_analysis = Ok wet_report
  /\ In (rain_warning (Py.Float (Py.double 90))) (weather_warnings wet_analysis)
  /\ Py.contains (rain_warning (Py.Float (Py.double 90))) wet_report = true
  /\ Py.contains "## ⚠️ 天气预警" wet_report = true.
Proof.
  split; [vm_compute; reflexivity|]. split; [left; vm_compute; reflexivity|].
  apply (every_warning_is_rendered morning wet_analysis wet_report
           (rain_warning (Py.Float (Py.double 90)))).
  - vm_compute. reflexivity.
  - left. vm_compute. reflexivity.
Defined.

(** X9. The report of an analysis without history is the header, a
    temperature-trend section that prints the label of the missing history
    with changes of +0.0 and ranges of 0.0, the suggestions and the footer:
    it has no precipitation, comfort or warnings section. *)
Theorem report_without_history cfg day now analysis d :
  analyze_weather_trend cfg day [] = Ok analysis ->
  date day = Some d ->
  exists header,
    header_section day = Ok header
    /\ format_report now analysis
       = Ok (header ++ no_history_trend_text
             ++ suggestions_section (suggestions analysis) ++ footer now).
Proof.
  intros H Hd. unfold analyze_weather_trend, _generate_simple_report in H.
  destruct (temp_max day) as [t_max|] eqn:Hmax; cbn [getitem bind] in H;
    [|discriminate H].
  destruct (temp_min day) as [t_min|] eqn:Hmin; cbn [getitem bind] in H;
    [|discriminate H].
  bind_ok H. injection H as <-.
  unfold format_report, header_section.
  cbn [tomorrow temperature_trend precipitation_trend comfort_analysis
       weather_warnings suggestions].
  rewrite Hd, Hmax, Hmin. cbn [getitem bind]. eexists. split; [reflexivity|].
  change (trend_nonempty _) with true. cbv iota.
  change (trend_section _) with (Ok no_history_trend_text).
  cbn [bind warnings_section suggestions_nonempty present clothing orb].
  rewrite append_empty_r, !append_assoc. reflexivity.
Qed.

Lemma report_without_history_witness :
  analyze_weather_trend default_config dry_day [] = Ok dry_analysis
  /\ date dry_day = Some "2025-04-10"
  /\ exists header,
       header_section dry_day = Ok header
       /\ format_report morning dry_analysis
          = Ok (header ++ no_history_trend_text
                ++ suggestions_section (suggestions dry_analysis)
                ++ footer morning).
Proof.
  split; [vm_compute; reflexivity|]. split; [reflexivity|].
  apply (report_without_history default_config dry_day morning dry_analysis
           "2025-04-10").
  - vm_compute. reflexivity.
  - reflexivity.
Defined.


(** * When the analysis returns *)

(** ** Numbers within bounds *)

Lemma ordinary_exact (a : Py.num) :
  ordinary a ->
  Py.is_finite a = true /\ (Qabs (Py.exact a) <= inject_Z (2 ^ 500))%Q.
Proof.
  intros (q & Hq & Hb). unfold Py.is_finite, Py.exact. rewrite Hq. auto.
Qed.

Lemma ordinary_int (z : Z) : ordinary (Py.Int z) -> Z.abs z <= 2 ^ 500.
Proof.
  intros (q & Hq & Hb). cbn [Py.val] in Hq. injection Hq as <-.
  unfold Qle, Qabs, inject_Z in Hb. cbn [Qnum Qden] in Hb. lia.
Qed.

Lemma pow_500_1000 : 2 ^ 500 <= 2 ^ 1000.
Proof. apply Z.pow_le_mono_r; lia. Qed.

Lemma pow_1000_bound : 2 ^ 1000 + 2 ^ 1000 < Py.overflow_bound.
Proof. vm_compute. reflexivity. Qed.

Lemma ordinary_moderate (a : Py.num) : ordinary a -> moderate a.
Proof.
  destruct a as [z|f]; intro H; [|exact I]. apply ordinary_int in H.
  cbn [moderate]. pose proof pow_500_1000. lia.
Qed.

Lemma moderate_converts (a : Py.num) : moderate a -> converts a.
Proof. apply moderate_to_float. Qed.

(** The difference of two ordinary numbers converts to float. *)
Lemma ordinary_sub (a b : Py.num) :
  ordinary a -> ordinary b ->
  exists c, Py.sub a b = Ok c /\ converts c.
Proof.
  intros Ha Hb. destruct a as [x|x], b as [y|y];
    try (destruct (moderate_sub _ _ (ordinary_moderate _ Ha)
                     (ordinary_moderate _ Hb)) as [c Hc];
         exists c; split; [exact Hc|];
         unfold Py.sub, Py.arith in Hc;
         repeat match type of Hc with
           | bind ?r _ = _ => destruct r; cbn [bind] in Hc; [|discriminate Hc]
           end;
         injection Hc as <-; eexists; reflexivity).
  apply ordinary_int in Ha, Hb. exists (Py.Int (x - y)).
  split; [reflexivity|]. apply moderate_converts. cbn [moderate].
  pose proof pow_500_1000. pose proof pow_1000_bound.
  assert (2 ^ 500 + 2 ^ 500 <= 2 ^ 1000).
  { change (2 ^ 1000) with (2 ^ (500 + 500)). rewrite Z.pow_add_r by lia.
    assert (2 <= 2 ^ 500) by (change 2 with (2 ^ 1) at 1;
                              apply Z.pow_le_mono_r; lia). nia. }
  lia.
Qed.

(** ** The mean of ordinary data *)

Lemma total_bound (data : list Py.num) (B : Q) :
  Forall (fun a => (Qabs (Py.exact a) <= B)%Q) data ->
  (Qabs (Py.total data) <= inject_Z (Z.of_nat (List.length data)) * B)%Q.
Proof.
  induction 1 as [|a data Ha _ IH].
  - cbn. compute. discriminate.
  - unfold Py.total in *. cbn [fold_right List.length].
    rewrite Nat2Z.inj_succ. unfold Z.succ. rewrite inject_Z_plus.
    change (inject_Z 1) with 1%Q.
    eapply Qle_trans; [apply Qabs_triangle|]. lra.
Qed.

Lemma ordinary_data (data : list Py.num) :
  Forall ordinary data ->
  forallb Py.is_finite data = true
  /\ Forall (fun a => (Qabs (Py.exact a) <= inject_Z (2 ^ 500))%Q) data.
Proof.
  induction 1 as [|a data Ha _ [IH1 IH2]]; [split; constructor|].
  apply ordinary_exact in Ha. destruct Ha as [Hf Hb].
  cbn [forallb]. rewrite Hf, IH1. split; [reflexivity|]. constructor; assumption.
Qed.

Lemma count_positive {A : Type} (l : list A) :
  l <> [] -> (0 < inject_Z (Z.of_nat (List.length l)))%Q.
Proof.
  intro H. destruct l; [congruence|]. cbn [List.length].
  unfold Qlt, inject_Z. cbn [Qnum Qden]. lia.
Qed.

Lemma mean_bound (data : list Py.num) (B : Q) :
  data <> [] -> Forall (fun a => (Qabs (Py.exact a) <= B)%Q) data ->
  (Qabs (Py.total data / inject_Z (Z.of_nat (List.length data))) <= B)%Q.
Proof.
  intros Hne Hall. pose proof (total_bound data B Hall) as Ht.
  pose proof (count_positive data Hne) as Hn.
  set (n := inject_Z (Z.of_nat (List.length data))) in *.
  apply Qabs_Qle_condition in Ht. destruct Ht as [Hlo Hhi].
  apply Qabs_Qle_condition. split.
  - apply Qle_shift_div_l; [exact Hn|]. lra.
  - apply Qle_shift_div_r; [exact Hn|]. lra.
Qed.

Lemma Qabs_bound_num (q : Q) (b : Z) :
  (Qabs q <= inject_Z b)%Q -> Z.abs (Qnum q) <= b * Z.pos (Qden q).
Proof.
  destruct q as [n d]. unfold Qle, Qabs, inject_Z. cbn [Qnum Qden]. lia.
Qed.

Lemma true_div_returns (n : Z) (d : positive) :
  Z.abs n <= 2 ^ 1000 * Z.pos d -> exists f, Py.true_div n d = Ok f.
Proof.
  intro H. unfold Py.true_div.
  assert (E : (Z.abs n <? Py.overflow_bound * Z.pos d) = true).
  { apply Z.ltb_lt. pose proof pow_1000_bound.
    assert (0 < 2 ^ 1000) by (apply Z.pow_pos_nonneg; lia). nia. }
  rewrite E. eexists. reflexivity.
Qed.

(** The mean of ordinary data is returned, and it is moderate. *)
Lemma mean_returns (data : list Py.num) :
  data <> [] -> Forall ordinary data ->
  exists m, Py.mean data = Ok m /\ moderate m.
Proof.
  intros Hne Hall. destruct (ordinary_data data Hall) as [Hf Hb].
  pose proof (mean_bound data _ Hne Hb) as Hm.
  unfold Py.mean. destruct data as [|a data]; [congruence|]. rewrite Hf.
  set (m := Qred (Py.total (a :: data)
                  / inject_Z (Z.of_nat (List.length (a :: data))))) in *.
  assert (Hq : (Qabs m <= inject_Z (2 ^ 500))%Q).
  { unfold m. rewrite Qred_correct. exact Hm. }
  apply Qabs_bound_num in Hq. pose proof pow_500_1000 as Hp.
  destruct (forallb Py.is_int (a :: data) && (Qden m =? 1)%positive) eqn:E.
  - exists (Py.Int (Qnum m)). split; [reflexivity|]. cbn [moderate].
    apply andb_true_iff in E. destruct E as [_ E]. apply Pos.eqb_eq in E.
    rewrite E in Hq. lia.
  - destruct (true_div_returns (Qnum m) (Qden m)) as [f Hf'].
    + nia.
    + rewrite Hf'. exists (Py.Float f). split; [reflexivity|exact I].
Qed.

(** ** The deviation of ordinary data *)

Lemma rto_le (n m : Z) :
  Py._integer_sqrt_of_frac_rto n m <= Z.sqrt (n / m) + 1.
Proof.
  unfold Py._integer_sqrt_of_frac_rto.
  pose proof (Z.sqrt_nonneg (n / m)) as Ha.
  destruct (_ =? _); [rewrite Z.lor_0_r; lia|].
  pose proof (Z.add_lor_land (Z.sqrt (n / m)) 1) as Hs.
  assert (0 <= Z.land (Z.sqrt (n / m)) 1) by (apply Z.land_nonneg; lia).
  lia.
Qed.

(** The root of a quotient, scaled back, is bounded by the root of the
    bound. *)
Lemma sqrt_quotient_bound (n m r : Z) :
  0 < m -> 0 <= r -> n <= r * r * m -> Z.sqrt (n / m) <= r.
Proof.
  intros Hm Hr Hn. pose proof (Z.sqrt_nonneg (n / m)) as Ha.
  destruct (Z_lt_le_dec (n / m) 0) as [Hneg|Hpos].
  - rewrite Z.sqrt_neg by exact Hneg. exact Hr.
  - apply Z.square_le_simpl_nonneg; [exact Hr|].
    pose proof (Z.sqrt_spec (n / m) Hpos) as [Hlo _].
    pose proof (Z.mul_div_le n m Hm) as Hdiv.
    apply (Zmult_lt_0_le_reg_r _ _ m Hm). nia.
Qed.

Lemma bit_length_positive (m : Z) : 0 < m -> Py.bit_length m = Z.log2 m + 1.
Proof.
  intro H. unfold Py.bit_length.
  destruct (m =? 0) eqn:E; [apply Z.eqb_eq in E; lia|].
  rewrite Z.abs_eq by lia. reflexivity.
Qed.

Lemma bit_length_bound (n m : Z) :
  0 < m -> Z.abs n <= 2 ^ 1002 * m ->
  Py.bit_length n <= 1002 + Py.bit_length m.
Proof.
  intros Hm Hn. rewrite (bit_length_positive m Hm).
  pose proof (Z.log2_nonneg m) as Hl.
  unfold Py.bit_length. destruct (n =? 0) eqn:E; [lia|].
  apply Z.eqb_neq in E.
  assert (Hlt : Z.log2 (Z.abs n) < 1002 + (Z.log2 m + 1)).
  { apply Z.log2_lt_pow2; [lia|].
    destruct (Z.log2_spec m Hm) as [_ Hhi]. unfold Z.succ in Hhi.
    rewrite Z.pow_add_r by lia.
    assert (0 < 2 ^ 1002) by (apply Z.pow_pos_nonneg; lia). nia. }
  lia.
Qed.

Lemma pow_501_square : 2 ^ 501 * 2 ^ 501 = 2 ^ 1002.
Proof. rewrite <- Z.pow_add_r by lia. reflexivity. Qed.

Lemma float_sqrt_returns (n m : Z) :
  0 < m -> Z.abs n <= 2 ^ 1002 * m ->
  exists f, Py._float_sqrt_of_frac n m = Ok f.
Proof.
  intros Hm Hn. pose proof (bit_length_bound n m Hm Hn) as Hbits.
  unfold Py._float_sqrt_of_frac.
  set (q := (Py.bit_length n - Py.bit_length m - 109) / 2).
  assert (Hq : q <= 446).
  { unfold q. pose proof (Z.div_lt_upper_bound (Py.bit_length n - Py.bit_length m - 109) 2 447). lia. }
  assert (H501 : 0 < 2 ^ 501) by (apply Z.pow_pos_nonneg; lia).
  destruct (0 <=? q) eqn:E.
  - apply Z.leb_le in E. apply true_div_returns.
    rewrite Z.shiftl_mul_pow2 by exact E.
    rewrite Z.shiftl_mul_pow2 by lia.
    pose proof (rto_nonneg n (m * 2 ^ (2 * q))) as H0.
    pose proof (rto_le n (m * 2 ^ (2 * q))) as H1.
    assert (Hpq : 0 < 2 ^ q) by (apply Z.pow_pos_nonneg; lia).
    assert (Hp2 : 2 ^ (2 * q) = 2 ^ q * 2 ^ q)
      by (rewrite <- Z.pow_add_r by lia; f_equal; lia).
    assert (Ha : Z.sqrt (n / (m * 2 ^ (2 * q))) * 2 ^ q <= 2 ^ 501).
    { pose proof (Z.sqrt_nonneg (n / (m * 2 ^ (2 * q)))) as Hs.
      destruct (Z_lt_le_dec (n / (m * 2 ^ (2 * q))) 0) as [Hneg|Hpos].
      - rewrite Z.sqrt_neg by exact Hneg. lia.
      - apply Z.square_le_simpl_nonneg; [lia|].
        pose proof (Z.sqrt_spec _ Hpos) as [Hlo _].
        assert (Hm' : 0 < m * 2 ^ (2 * q)) by nia.
        pose proof (Z.mul_div_le n _ Hm') as Hdiv.
        rewrite pow_501_square.
        apply (Zmult_lt_0_le_reg_r _ _ m Hm).
        set (a := Z.sqrt (n / (m * 2 ^ (2 * q)))) in *.
        set (x := n / (m * 2 ^ (2 * q))) in *.
        rewrite Hp2 in Hdiv.
        assert (a * a * (m * (2 ^ q * 2 ^ q)) <= x * (m * (2 ^ q * 2 ^ q)))
          by (apply Z.mul_le_mono_nonneg_r; nia).
        nia. }
    assert (Hq' : 2 ^ q <= 2 ^ 446) by (apply Z.pow_le_mono_r; lia).
    assert (H446 : 2 ^ 501 + 2 ^ 446 <= 2 ^ 1000) by (vm_compute; discriminate).
    rewrite Z.abs_eq by nia. nia.
  - apply Z.leb_gt in E. apply true_div_returns.
    set (k := - q). assert (Hk : 0 < k) by (unfold k; lia).
    replace (- 2 * q) with (2 * k) by (unfold k; lia).
    rewrite !Z.shiftl_mul_pow2 by lia. rewrite Z.mul_1_l.
    assert (Hpk : 0 < 2 ^ k) by (apply Z.pow_pos_nonneg; lia).
    rewrite Z2Pos.id by exact Hpk.
    pose proof (rto_nonneg (n * 2 ^ (2 * k)) m) as H0.
    pose proof (rto_le (n * 2 ^ (2 * k)) m) as H1.
    assert (Hp2 : 2 ^ (2 * k) = 2 ^ k * 2 ^ k)
      by (rewrite <- Z.pow_add_r by lia; f_equal; lia).
    assert (Ha : Z.sqrt (n * 2 ^ (2 * k) / m) <= 2 ^ 501 * 2 ^ k).
    { apply sqrt_quotient_bound; [exact Hm|nia|].
      rewrite Hp2.
      replace (2 ^ 501 * 2 ^ k * (2 ^ 501 * 2 ^ k) * m)
        with (2 ^ 501 * 2 ^ 501 * m * (2 ^ k * 2 ^ k)) by ring.
      rewrite pow_501_square.
      apply Z.mul_le_mono_nonneg_r; [nia|lia]. }
    assert (H502 : 2 ^ 501 + 1 <= 2 ^ 1000) by (vm_compute; discriminate).
    rewrite Z.abs_eq by lia. nia.
Qed.

Lemma square_bound (x B : Q) : (Qabs x <= B)%Q -> (x * x <= B * B)%Q.
Proof.
  intro H. apply Qabs_Qle_condition in H. destruct H as [Hlo Hhi]. nra.
Qed.

Lemma squares_bound (data : list Py.num) (B : Q) :
  Forall (fun a => (Qabs (Py.exact a) <= B)%Q) data ->
  (0 <= Py.total_of_squares data)%Q
  /\ (Py.total_of_squares data
      <= inject_Z (Z.of_nat (List.length data)) * (B * B))%Q.
Proof.
  induction 1 as [|a data Ha _ [IH1 IH2]].
  - cbn. split; compute; discriminate.
  - unfold Py.total_of_squares in *. cbn [fold_right List.length].
    rewrite Nat2Z.inj_succ. unfold Z.succ. rewrite inject_Z_plus.
    change (inject_Z 1) with 1%Q. apply square_bound in Ha.
    assert (0 <= Py.exact a * Py.exact a)%Q by nra.
    split; lra.
Qed.

Lemma variance_bound (n sx sxx B : Q) :
  (2 <= n)%Q -> (0 <= B)%Q -> (Qabs sx <= n * B)%Q ->
  (0 <= sxx)%Q -> (sxx <= n * (B * B))%Q ->
  (Qabs ((n * sxx - sx * sx) / n / (n - 1)) <= 4 * (B * B))%Q.
Proof.
  intros Hn HB Hsx Hsxx0 Hsxx.
  apply square_bound in Hsx.
  assert (Hsq : (0 <= sx * sx)%Q) by nra.
  assert (HBB : (0 <= B * B)%Q) by nra.
  assert (Hhi : (n * sxx - sx * sx <= n * (n * (B * B)))%Q) by nra.
  assert (Hlo : (- (n * (n * (B * B))) <= n * sxx - sx * sx)%Q) by nra.
  assert (Hnn : (n * (n * (B * B)) <= 4 * (B * B) * (n - 1) * n)%Q) by nra.
  apply Qabs_Qle_condition. split.
  - apply Qle_shift_div_l; [lra|]. apply Qle_shift_div_l; [lra|]. lra.
  - apply Qle_shift_div_r; [lra|]. apply Qle_shift_div_r; [lra|]. lra.
Qed.

(** The deviation of two ordinary data or more is returned. *)
Lemma stdev_returns (data : list Py.num) :
  (1 < List.length data)%nat -> Forall ordinary data ->
  exists s, Py.stdev data = Ok s.
Proof.
  intros Hlen Hall. destruct (ordinary_data data Hall) as [Hf Hb].
  unfold Py.stdev. rewrite Hf.
  assert (E : (Z.of_nat (List.length data) <? 2) = false)
    by (apply Z.ltb_ge; lia).
  rewrite E.
  set (n := inject_Z (Z.of_nat (List.length data))).
  set (B := inject_Z (2 ^ 500)) in *.
  assert (Hn : (2 <= n)%Q).
  { unfold n, Qle, inject_Z. cbn [Qnum Qden]. lia. }
  assert (HB : (0 <= B)%Q).
  { unfold B, Qle, inject_Z. cbn [Qnum Qden].
    assert (0 < 2 ^ 500) by (apply Z.pow_pos_nonneg; lia). lia. }
  pose proof (total_bound data B Hb) as Hsx. fold n in Hsx.
  destruct (squares_bound data B Hb) as [Hs0 Hs1]. fold n in Hs1.
  pose proof (variance_bound n _ _ B Hn HB Hsx Hs0 Hs1) as Hv.
  set (mss := Qred ((n * Py.total_of_squares data
                     - Py.total data * Py.total data) / n / (n - 1))).
  assert (Hm : (Qabs mss <= inject_Z (2 ^ 1002))%Q).
  { unfold mss. rewrite Qred_correct.
    eapply Qle_trans; [exact Hv|]. unfold B.
    rewrite <- pow_501_square.
    change (2 ^ 501) with (2 * 2 ^ 500).
    rewrite !inject_Z_mult. change (inject_Z 2) with 2%Q. lra. }
  apply Qabs_bound_num in Hm.
  destruct (float_sqrt_returns (Qnum mss) (Z.pos (Qden mss))) as [f Hf'];
    [lia|exact Hm|].
  rewrite Hf'. eexists. reflexivity.
Qed.

(** ** The analysis of ordinary records *)

Lemma collect_ordinary (f : WeatherData -> option Py.num)
    (historical : list WeatherData) :
  Forall (fun d => forall v, f d = Some v -> ordinary v) historical ->
  Forall ordinary (collect f historical).
Proof.
  induction 1 as [|d l Hd _ IH]; cbn [collect]; [constructor|].
  destruct (f d) as [v|] eqn:E; [|exact IH].
  constructor; [apply Hd; reflexivity|exact IH].
Qed.

Lemma ordinary_maxima (historical : list WeatherData) :
  Forall ordinary_day historical ->
  Forall ordinary (collect temp_max historical)
  /\ Forall ordinary (collect temp_min historical).
Proof.
  intro H. split; apply collect_ordinary;
    (eapply Forall_impl; [|exact H]); intros d (H1 & H2 & H3); assumption.
Qed.

Lemma temperature_trend_returns cfg day historical t_max t_min :
  temp_max day = Some t_max -> temp_min day = Some t_min ->
  ordinary t_max -> ordinary t_min -> Forall ordinary_day historical ->
  collect temp_max historical = [] \/ collect temp_min historical <> [] ->
  exists trend, _analyze_temperature_trend cfg day historical = Ok trend.
Proof.
  intros Hmax Hmin Omax Omin Hall Hh.
  destruct (ordinary_maxima historical Hall) as [Hmaxima Hminima].
  unfold _analyze_temperature_trend.
  destruct (collect temp_max historical) as [|m ms] eqn:E;
    [exists empty_trend; reflexivity|].
  destruct Hh as [Hh|Hh]; [discriminate|].
  destruct (mean_returns (m :: ms)) as (avg_max & Eavg_max & Mavg_max);
    [discriminate|exact Hmaxima|].
  destruct (mean_returns _ Hh Hminima) as (avg_min & Eavg_min & Mavg_min).
  rewrite Eavg_max, Eavg_min, Hmax, Hmin. cbn [bind getitem].
  pose proof (ordinary_moderate _ Omax) as Mmax.
  pose proof (ordinary_moderate _ Omin) as Mmin.
  destruct (moderate_sub t_max avg_max Mmax Mavg_max) as [d1 ->].
  destruct (moderate_sub t_min avg_min Mmin Mavg_min) as [d2 ->].
  destruct (moderate_sub t_max t_min Mmax Mmin) as [d3 ->].
  destruct (moderate_sub avg_max avg_min Mavg_max Mavg_min) as [d4 ->].
  cbn [bind].
  destruct (1 <? List.length (m :: ms))%nat eqn:Elen.
  - apply Nat.ltb_lt in Elen.
    destruct (stdev_returns (m :: ms) Elen Hmaxima) as [s ->].
    cbn [bind]. eexists. reflexivity.
  - cbn [bind]. eexists. reflexivity.
Qed.

Lemma health_returns (trend : string) (t_max t_min diff : Py.num) :
  Py.sub t_max t_min = Ok diff ->
  exists advice, _get_health_suggestion trend t_max t_min = Ok advice.
Proof.
  intro H. unfold _get_health_suggestion. rewrite H. cbn [bind].
  repeat match goal with
    | |- context [if ?b then _ else _] => destruct b
    end; cbn [app]; eexists; reflexivity.
Qed.

Lemma ordinary_humidity (day : WeatherData) :
  ordinary_day day -> moderate (get (humidity day) (Py.Int 50)).
Proof.
  intros (_ & _ & H). destruct (humidity day) as [v|]; cbn [get].
  - apply ordinary_moderate, H. reflexivity.
  - cbn. pose proof pow_500_1000.
    assert (2 ^ 6 <= 2 ^ 500) by (apply Z.pow_le_mono_r; lia).
    change (2 ^ 6) with 64 in *. lia.
Qed.

Lemma ordinary_recent (historical : list WeatherData) (t_max : Py.num) :
  ordinary t_max -> Forall ordinary_day historical ->
  moderate (recent_max historical t_max).
Proof.
  intros Omax Hall. destruct historical as [|last rest]; cbn [recent_max];
    [apply ordinary_moderate, Omax|].
  inversion Hall as [|? ? (H & _) _]; subst.
  destruct (temp_max last) as [v|]; cbn [get]; apply ordinary_moderate;
    [apply H; reflexivity|exact Omax].
Qed.

(** The analysis of ordinary records returns whenever tomorrow has its two
    temperatures, the clothing text avoids the branch of [". 0f"], and the
    history holds a [temp_min] as soon as it holds a [temp_max]. *)
Lemma analysis_returns cfg day historical t_max t_min diff :
  temp_max day = Some t_max -> temp_min day = Some t_min ->
  ordinary_day day -> Forall ordinary_day historical ->
  Py.sub t_max t_min = Ok diff ->
  ~ (num_le (Py.Int 12) diff /\ num_le (Py.Int 20) t_max) ->
  collect temp_max historical = [] \/ collect temp_min historical <> [] ->
  exists analysis, analyze_weather_trend cfg day historical = Ok analysis.
Proof.
  intros Hmax Hmin Hday Hall Hdiff Hc Hh.
  assert (Omax : ordinary t_max) by (apply (proj1 Hday), Hmax).
  assert (Omin : ordinary t_min) by (apply (proj1 (proj2 Hday)), Hmin).
  pose proof (ordinary_moderate _ Omax) as Mmax.
  pose proof (ordinary_moderate _ Omin) as Mmin.
  assert (Hconv : converts diff).
  { destruct (ordinary_sub t_max t_min Omax Omin) as (c & Hc' & Hconv).
    congruence. }
  destruct (clothing_returns t_max t_min t_max diff Hdiff
              (moderate_converts _ Mmax) Hconv Hc) as [text Htext].
  destruct historical as [|h rest].
  - destruct (simple_report_degenerate cfg day t_max t_min text Hmax Hmin Htext)
      as (a & Ha & _).
    exists a. exact Ha.
  - destruct (temperature_trend_returns cfg day (h :: rest) t_max t_min
                Hmax Hmin Omax Omin Hall Hh) as [trend Htrend].
    destruct (comfort_returns day (h :: rest) t_max t_min Hmax Hmin Mmax Mmin
                (ordinary_humidity day Hday))
      as (apparent & d & _ & Hd & Hcomfort).
    destruct (moderate_sub t_max _ Mmax (ordinary_recent (h :: rest) t_max
                                           Omax Hall)) as [change Hchange].
    destruct (health_returns (get (tt_trend trend) "") t_max t_min diff Hdiff)
      as [advice Hadvice].
    unfold analyze_weather_trend. rewrite Htrend, Hcomfort. cbn [bind].
    rewrite (check_warnings_filter cfg day (h :: rest) t_max t_min diff change
               Hmax Hmin Hdiff Hchange).
    cbn [bind]. unfold _generate_suggestions.
    cbn [tomorrow comfort_analysis temperature_trend].
    rewrite Hmax, Hmin. cbn [getitem bind].
    rewrite (clothing_ignores_apparent t_max t_min _ t_max), Htext.
    cbn [bind]. rewrite Hadvice. cbn [bind]. eexists. reflexivity.
Qed.

(** A malformed record next to a well-formed one does not abort the
    analysis. *)
Lemma analysis_tolerates_malformed_record cfg day before bad after good
    t_max t_min diff :
  temp_max day = Some t_max -> temp_min day = Some t_min ->
  ordinary_day day -> Forall ordinary_day (before ++ bad :: after) ->
  Py.sub t_max t_min = Ok diff ->
  ~ (num_le (Py.Int 12) diff /\ num_le (Py.Int 20) t_max) ->
  In good (before ++ after) ->
  present (temp_max good) && present (temp_min good) = true ->
  exists analysis,
    analyze_weather_trend cfg day (before ++ bad :: after) = Ok analysis.
Proof.
  intros Hmax Hmin Hday Hall Hdiff Hc Hin Hgood.
  apply (analysis_returns cfg day _ t_max t_min diff Hmax Hmin Hday Hall
           Hdiff Hc).
  right. apply andb_true_iff in Hgood. destruct Hgood as [_ Hg].
  destruct (temp_min good) as [v|] eqn:E; [|discriminate].
  apply (collect_nonempty temp_min _ good v); [|exact E].
  apply in_or_app. apply in_app_or in Hin. destruct Hin; [left|right; right];
    assumption.
Qed.

(** X1. For records whose numbers are finite and of at most [2 ^ 500] in
    absolute value, [analyze_weather_trend] returns an analysis exactly when
    tomorrow has [temp_max] and [temp_min], the pair does not combine a
    diurnal range of 12 or more with a maximum of 20 or more, and the
    history carries a [temp_min] whenever it carries a [temp_max]; in every
    other case it raises.  The range is the difference that Python
    computes: 11.999999999999998 for 20.4 and 8.4 degrees. *)
Theorem analysis_returns_iff cfg day historical :
  ordinary_day day -> Forall ordinary_day historical ->
  (exists analysis, analyze_weather_trend cfg day historical = Ok analysis)
  <-> exists t_max t_min diff,
        temp_max day = Some t_max /\ temp_min day = Some t_min
        /\ Py.sub t_max t_min = Ok diff
        /\ ~ (num_le (Py.Int 12) diff /\ num_le (Py.Int 20) t_max)
        /\ (collect temp_max historical = []
            \/ collect temp_min historical <> []).
Proof.
  intros Hday Hall. split.
  - intros [analysis H].
    destruct (analysis_clothing cfg day historical analysis H)
      as (t_max & t_min & text & Hmax & Hmin & Hc & _).
    assert (Hdiff : exists diff, Py.sub t_max t_min = Ok diff).
    { unfold _get_clothing_suggestion in Hc.
      destruct (Py.sub t_max t_min) as [diff|]; [|discriminate Hc].
      exists diff. reflexivity. }
    destruct Hdiff as [diff Hdiff].
    exists t_max, t_min, diff. split; [exact Hmax|]. split; [exact Hmin|].
    split; [exact Hdiff|]. split.
    + intro Hd. apply (clothing_raises_iff t_max t_min t_max diff Hdiff) in Hd.
      congruence.
    + destruct (collect temp_max historical) as [|x xs] eqn:Ex;
        [left; reflexivity|].
      right. intro Hn.
      assert (Hne : collect temp_max historical <> [])
        by (rewrite Ex; discriminate).
      destruct (temperature_trend_needs_minima cfg day historical Hne Hn)
        as [e He].
      destruct historical as [|h rest]; [discriminate Ex|].
      unfold analyze_weather_trend in H. rewrite He in H. discriminate H.
  - intros (t_max & t_min & diff & Hmax & Hmin & Hdiff & Hd & Hh).
    exact (analysis_returns cfg day historical t_max t_min diff Hmax Hmin
             Hday Hall Hdiff Hd Hh).
Qed.

Lemma ordinary_small_int (z : Z) : Z.abs z <= 1000 -> ordinary (Py.Int z).
Proof.
  intro H. exists (inject_Z z). split; [reflexivity|].
  unfold Qle, Qabs, inject_Z. cbn [Qnum Qden].
  assert (2 ^ 10 <= 2 ^ 500) by (apply Z.pow_le_mono_r; lia).
  change (2 ^ 10) with 1024 in *. lia.
Qed.

Lemma ordinary_fair_day : ordinary_day fair_day.
Proof.
  repeat split; intros v H; cbn in H; injection H as <-.
  - eexists. split; [vm_compute; reflexivity|].
    intro C. vm_compute in C. discriminate C.
  - eexists. split; [vm_compute; reflexivity|].
    intro C. vm_compute in C. discriminate C.
  - apply ordinary_small_int. cbn. lia.
Qed.

Lemma ordinary_spring_day : ordinary_day spring_day.
Proof.
  repeat split; intros v H; cbn in H; injection H as <-;
    apply ordinary_small_int; cbn; lia.
Qed.

(** At 20.4 and 8.4 degrees the float difference is below 12 and the
    analysis is returned. *)
Example fair_day_is_analysed :
  (r <- Py.sub (Py.Float (Py.double (204 # 10))) (Py.Float (Py.double (84 # 10))) ;;
   Ok (Py.str r),
   a <- analyze_weather_trend default_config fair_day [spring_day] ;;
   Ok (clothing (suggestions a)))
  = (Ok "11.999999999999998",
     Ok (Some ("🧥 夹克/风衣 + 卫衣/毛衣" ++ Py.nl
               ++ "💡 温差12°C，中午20°C较暖，可减少外套"))).
Proof. vm_compute. reflexivity. Qed.

Lemma analysis_returns_iff_witness :
  ordinary_day fair_day /\ Forall ordinary_day [spring_day]
  /\ ((exists analysis,
         analyze_weather_trend default_config fair_day [spring_day]
         = Ok analysis)
      <-> exists t_max t_min diff,
            temp_max fair_day = Some t_max /\ temp_min fair_day = Some t_min
            /\ Py.sub t_max t_min = Ok diff
            /\ ~ (num_le (Py.Int 12) diff /\ num_le (Py.Int 20) t_max)
            /\ (collect temp_max [spring_day] = []
                \/ collect temp_min [spring_day] <> [])).
Proof.
  split; [exact ordinary_fair_day|].
  split; [repeat constructor; apply ordinary_spring_day|].
  apply (analysis_returns_iff default_config fair_day [spring_day]).
  - exact ordinary_fair_day.
  - repeat constructor; apply ordinary_spring_day.
Defined.

(** * Properties of the stored history *)

(** ** The order on dates *)

Lemma ltb_lt (a b : string) : String.ltb a b = true <-> String_as_OT.lt a b.
Proof.
  unfold String.ltb. rewrite <- String_as_OT.cmp_lt.
  change String_as_OT.cmp with String.compare.
  destruct (String.compare a b); split; congruence.
Qed.

Lemma leb_le (a b : string) :
  String.leb a b = true <-> a = b \/ String_as_OT.lt a b.
Proof.
  unfold String.leb. rewrite <- String_as_OT.cmp_lt.
  change String_as_OT.cmp with String.compare.
  destruct (String.compare a b) eqn:E.
  - apply String.compare_eq_iff in E. tauto.
  - tauto.
  - split; [discriminate|]. intros [->|H]; [|discriminate].
    assert (String_as_OT.cmp b b = Eq) by (apply String_as_OT.cmp_eq; reflexivity).
    change String_as_OT.cmp with String.compare in H. congruence.
Qed.

Lemma leb_refl (a : string) : String.leb a a = true.
Proof. apply leb_le. left. reflexivity. Qed.

Lemma leb_trans (a b c : string) :
  String.leb a b = true -> String.leb b c = true -> String.leb a c = true.
Proof.
  rewrite !leb_le. intros [->|H1] [->|H2]; auto.
  right. eapply String_as_OT.lt_trans; eassumption.
Qed.

Lemma ltb_false_leb (a b : string) :
  String.ltb a b = false <-> String.leb b a = true.
Proof.
  unfold String.ltb, String.leb. rewrite (String.compare_antisym b a).
  destruct (String.compare a b); cbn; split; congruence.
Qed.

Lemma ltb_leb (a b : string) : String.ltb a b = true -> String.leb a b = true.
Proof. unfold String.ltb, String.leb. destruct (String.compare a b); congruence. Qed.

(** ** The keys and the sort *)

Lemma keyed_inv (l : list WeatherData) ks :
  DataManager.keyed l = Ok ks -> map snd ks = l /\ Forall well_keyed ks.
Proof.
  revert ks. induction l as [|x l IH]; intros ks H; cbn [DataManager.keyed] in H.
  - injection H as <-. split; constructor.
  - destruct (date x) as [d|] eqn:Ed; cbn [getitem bind] in H; [|discriminate H].
    destruct (DataManager.keyed l) as [ks'|]; cbn [bind] in H; [|discriminate H].
    injection H as <-. destruct (IH ks' eq_refl) as [Hm Hf].
    split; [cbn; now rewrite Hm|]. constructor; [exact Ed|exact Hf].
Qed.

Lemma keyed_of_well_keyed ks :
  Forall well_keyed ks -> DataManager.keyed (map snd ks) = Ok ks.
Proof.
  induction 1 as [|[d x] ks Hp _ IH]; [reflexivity|].
  cbn [map snd DataManager.keyed]. unfold well_keyed in Hp. cbn [fst snd] in Hp.
  rewrite Hp, IH. reflexivity.
Qed.

Lemma keyed_returns (l : list WeatherData) :
  Forall dated l -> exists ks, DataManager.keyed l = Ok ks.
Proof.
  induction 1 as [|x l Hx _ [ks IH]]; [exists []; reflexivity|].
  cbn [DataManager.keyed]. destruct (date x) as [d|] eqn:Ed;
    [|exfalso; apply Hx, Ed].
  rewrite IH. eexists. reflexivity.
Qed.

Lemma keyed_raises (l : list WeatherData) :
  ~ Forall dated l -> DataManager.keyed l = Raise (KeyError "date").
Proof.
  induction l as [|x l IH]; intro H; [exfalso; apply H; constructor|].
  cbn [DataManager.keyed]. destruct (date x) as [d|] eqn:Ed; [|reflexivity].
  cbn [getitem bind]. rewrite IH; [reflexivity|].
  intro Hl. apply H. constructor; [unfold dated; congruence|exact Hl].
Qed.

Lemma dated_dec (l : list WeatherData) : Forall dated l \/ ~ Forall dated l.
Proof.
  induction l as [|x l [IH|IH]].
  - left. constructor.
  - destruct (date x) as [d|] eqn:Ed.
    + left. constructor; [unfold dated; congruence|exact IH].
    + right. intro H. inversion H as [|? ? Hx _]. apply Hx, Ed.
  - right. intro H. inversion H. contradiction.
Qed.

Lemma insert_desc_perm x l : Permutation (DataManager.insert_desc x l) (x :: l).
Proof.
  induction l as [|y l IH]; cbn [DataManager.insert_desc]; [reflexivity|].
  destruct (String.ltb (fst x) (fst y)); [|reflexivity].
  rewrite IH. apply perm_swap.
Qed.

Lemma sort_desc_perm l : Permutation (DataManager.sort_desc l) l.
Proof.
  induction l as [|x l IH]; cbn [DataManager.sort_desc]; [reflexivity|].
  rewrite insert_desc_perm. now constructor.
Qed.

Lemma insert_desc_sorted x l :
  StronglySorted key_not_older l ->
  StronglySorted key_not_older (DataManager.insert_desc x l).
Proof.
  induction 1 as [|y l Hs IH Hall]; cbn [DataManager.insert_desc].
  - repeat constructor.
  - destruct (String.ltb (fst x) (fst y)) eqn:E.
    + constructor; [exact IH|].
      apply (Permutation_Forall (Permutation_sym (insert_desc_perm x l))).
      constructor; [apply ltb_leb, E|exact Hall].
    + apply ltb_false_leb in E. constructor; [constructor; assumption|].
      constructor; [exact E|].
      eapply Forall_impl; [|exact Hall]. intros z Hz. unfold key_not_older in *.
      eapply leb_trans; eassumption.
Qed.

Lemma sort_desc_sorted l : StronglySorted key_not_older (DataManager.sort_desc l).
Proof.
  induction l as [|x l IH]; cbn [DataManager.sort_desc]; [constructor|].
  apply insert_desc_sorted, IH.
Qed.

Lemma sort_desc_id l :
  StronglySorted key_not_older l -> DataManager.sort_desc l = l.
Proof.
  induction 1 as [|x l Hs IH Hall]; [reflexivity|].
  cbn [DataManager.sort_desc]. rewrite IH.
  destruct l as [|y l]; [reflexivity|]. cbn [DataManager.insert_desc].
  inversion Hall as [|? ? Hy _]. apply ltb_false_leb in Hy. rewrite Hy.
  reflexivity.
Qed.

Lemma firstn_subset {A : Type} n (l : list A) x : In x (firstn n l) -> In x l.
Proof.
  revert l. induction n as [|n IH]; intros [|y l] H; cbn [firstn] in H;
    try contradiction.
  destruct H as [->|H]; [left; reflexivity|right; apply IH, H].
Qed.

Lemma sorted_firstn {A : Type} (R : A -> A -> Prop) n l :
  StronglySorted R l -> StronglySorted R (firstn n l).
Proof.
  revert l. induction n as [|n IH]; intros l H; [constructor|].
  destruct H as [|x l Hs Hall]; [constructor|]. cbn [firstn].
  constructor; [apply IH, Hs|]. apply Forall_forall. intros y Hy.
  rewrite Forall_forall in Hall. apply Hall. revert Hy. apply firstn_subset.
Qed.

Lemma newest_first_of_keys ks :
  Forall well_keyed ks -> StronglySorted key_not_older ks ->
  newest_first (map snd ks).
Proof.
  intros Hk Hs. induction Hs as [|p ks Hs IH Hall]; [constructor|].
  inversion Hk as [|? ? Hp Hks]; subst. cbn [map]. constructor; [apply IH, Hks|].
  apply Forall_map, Forall_forall. intros q Hq.
  rewrite Forall_forall in Hall, Hks. specialize (Hall q Hq).
  specialize (Hks q Hq). unfold not_older, well_keyed, key_not_older in *.
  rewrite Hp, Hks. exact Hall.
Qed.

(** The sort of the program on records that all carry a date. *)
Lemma sort_by_date_reverse_spec (l : list WeatherData) :
  Forall dated l ->
  exists ks,
    DataManager.sort_by_date_reverse l = Ok (map snd ks)
    /\ Forall well_keyed ks /\ StronglySorted key_not_older ks
    /\ Permutation (map snd ks) l.
Proof.
  intro H. destruct (keyed_returns l H) as [ks Hks].
  destruct (keyed_inv l ks Hks) as [Hm Hw].
  exists (DataManager.sort_desc ks). unfold DataManager.sort_by_date_reverse.
  rewrite Hks. cbn [bind]. split; [reflexivity|]. split; [|split].
  - apply (Permutation_Forall (Permutation_sym (sort_desc_perm ks))), Hw.
  - apply sort_desc_sorted.
  - rewrite <- Hm. apply Permutation_map, sort_desc_perm.
Qed.

Lemma sort_by_date_reverse_raises (l : list WeatherData) :
  ~ Forall dated l ->
  DataManager.sort_by_date_reverse l = Raise (KeyError "date").
Proof.
  intro H. unfold DataManager.sort_by_date_reverse.
  rewrite (keyed_raises l H). reflexivity.
Qed.

(** Sorting what is sorted changes nothing. *)
Lemma sort_by_date_reverse_id ks :
  Forall well_keyed ks -> StronglySorted key_not_older ks ->
  DataManager.sort_by_date_reverse (map snd ks) = Ok (map snd ks).
Proof.
  intros Hw Hs. unfold DataManager.sort_by_date_reverse.
  rewrite (keyed_of_well_keyed ks Hw). cbn [bind].
  rewrite (sort_desc_id ks Hs). reflexivity.
Qed.

(** * Properties of the data manager *)

Lemma slice_to_firstn {A : Type} (n : Z) (l : list A) :
  0 <= n -> DataManager.slice_to n l = firstn (Z.to_nat n) l.
Proof.
  intro H. unfold DataManager.slice_to.
  destruct (0 <=? n) eqn:E; [reflexivity|]. apply Z.leb_gt in E. lia.
Qed.

(** X10. When every stored record has a date and [days] is not negative,
    [get_historical_data] returns the [days] most recent records, newest
    first: together with the records it leaves out they are the stored
    records, sorted by decreasing date, and their number is the smaller of
    [days] and the number of stored records. *)
Theorem history_is_the_most_recent_days days s :
  0 <= days -> Forall dated (stored_records s) ->
  exists recent older,
    DataManager.get_historical_data days s = Ok recent
    /\ Permutation (recent ++ older) (stored_records s)
    /\ newest_first (recent ++ older)
    /\ List.length recent
       = Nat.min (Z.to_nat days) (List.length (stored_records s)).
Proof.
  intros Hd Hall.
  destruct (sort_by_date_reverse_spec _ Hall) as (ks & Hs & Hw & Hsorted & Hp).
  exists (firstn (Z.to_nat days) (map snd ks)),
    (skipn (Z.to_nat days) (map snd ks)).
  split; [|split; [|split]].
  - unfold DataManager.get_historical_data. fold (stored_records s).
    rewrite Hs. cbn [bind]. rewrite (slice_to_firstn days _ Hd). reflexivity.
  - rewrite firstn_skipn. exact Hp.
  - rewrite firstn_skipn. apply newest_first_of_keys; assumption.
  - rewrite length_firstn, (Permutation_length Hp). reflexivity.
Qed.

Lemma sample_store_dated : Forall dated (stored_records sample_store).
Proof. repeat constructor; discriminate. Qed.

Lemma history_is_the_most_recent_days_witness :
  0 <= 1
  /\ Forall dated (stored_records sample_store)
  /\ exists recent older,
       DataManager.get_historical_data 1 sample_store = Ok recent
       /\ Permutation (recent ++ older) (stored_records sample_store)
       /\ newest_first (recent ++ older)
       /\ List.length recent
          = Nat.min (Z.to_nat 1) (List.length (stored_records sample_store)).
Proof.
  split; [lia|]. split; [exact sample_store_dated|].
  apply (history_is_the_most_recent_days 1 sample_store);
    [lia|exact sample_store_dated].
Defined.

(** X11. Reading the history fails exactly when a stored record has no
    date, and then with [KeyError] on ['date'], whatever [days] is. *)
Theorem history_raises_iff days s :
  (DataManager.get_historical_data days s = Raise (KeyError "date")
   <-> ~ Forall dated (stored_records s))
  /\ ((exists l, DataManager.get_historical_data days s = Ok l)
      <-> Forall dated (stored_records s)).
Proof.
  unfold DataManager.get_historical_data. fold (stored_records s).
  destruct (dated_dec (stored_records s)) as [H|H].
  - destruct (sort_by_date_reverse_spec _ H) as (ks & Hs & _).
    rewrite Hs. cbn [bind]. split; split; intro H'; try assumption.
    + discriminate H'.
    + contradiction.
    + eexists. reflexivity.
  - rewrite (sort_by_date_reverse_raises _ H). cbn [bind].
    split; split; intro H'; try assumption; try reflexivity.
    + destruct H' as [l Hl]. discriminate Hl.
    + contradiction.
Qed.

Lemma sort_by_date_reverse_inv l sorted :
  DataManager.sort_by_date_reverse l = Ok sorted ->
  exists ks,
    sorted = map snd ks /\ Forall well_keyed ks
    /\ StronglySorted key_not_older ks /\ Permutation (map snd ks) l.
Proof.
  intro H. destruct (dated_dec l) as [Hd|Hd].
  - destruct (sort_by_date_reverse_spec l Hd) as (ks & Hs & Hrest).
    exists ks. split; [congruence|exact Hrest].
  - rewrite (sort_by_date_reverse_raises l Hd) in H. discriminate H.
Qed.

(** What a successful save leaves in the data file. *)
Lemma save_inv w s s' :
  DataManager.save_weather_data w s = Ok s' ->
  exists ks,
    Forall well_keyed ks /\ StronglySorted key_not_older ks
    /\ Permutation (map snd ks) (stored_records s ++ [w])
    /\ stored_records s' = map snd (firstn 60 ks)
    /\ DataManager.record_file s' = DataManager.record_file s.
Proof.
  unfold DataManager.save_weather_data. fold (stored_records s). intro H.
  destruct (DataManager.sort_by_date_reverse (stored_records s ++ [w]))
    as [sorted|] eqn:E; cbn [bind] in H; [|discriminate H].
  destruct (sort_by_date_reverse_inv _ _ E) as (ks & -> & Hw & Hs & Hp).
  injection H as <-. exists ks. repeat split; try assumption.
  unfold stored_records. cbn. rewrite firstn_map. reflexivity.
Qed.

Lemma dated_app_one l w : Forall dated l -> dated w -> Forall dated (l ++ [w]).
Proof. intros Hl Hw. apply Forall_app. split; [exact Hl|repeat constructor; exact Hw]. Qed.

(** X12. Saving a forecast into a store whose records all have a date keeps
    the 60 newest of the old records and the new one, newest first, and
    leaves the run record alone.  The number of records grows by one up to
    60, also when a record of the same date is already stored; below 60
    stored records the new record is always kept. *)
Theorem save_keeps_the_sixty_newest w s :
  Forall dated (stored_records s) -> dated w ->
  exists s' dropped,
    DataManager.save_weather_data w s = Ok s'
    /\ Permutation (stored_records s' ++ dropped) (stored_records s ++ [w])
    /\ newest_first (stored_records s' ++ dropped)
    /\ List.length (stored_records s')
       = Nat.min 60 (S (List.length (stored_records s)))
    /\ DataManager.record_file s' = DataManager.record_file s
    /\ ((List.length (stored_records s) < 60)%nat ->
        In w (stored_records s')).
Proof.
  intros Hall Hw.
  destruct (sort_by_date_reverse_spec _ (dated_app_one _ _ Hall Hw))
    as (ks0 & Hs & _).
  assert (Hsave : exists s', DataManager.save_weather_data w s = Ok s').
  { unfold DataManager.save_weather_data. fold (stored_records s).
    rewrite Hs. cbn [bind]. eexists. reflexivity. }
  destruct Hsave as [s' Hsave].
  destruct (save_inv w s s' Hsave) as (ks & Hk & Hsorted & Hp & Hst & Hr).
  exists s', (map snd (skipn 60 ks)).
  assert (Hjoin : (stored_records s' ++ map snd (skipn 60 ks))%list = map snd ks).
  { rewrite Hst, <- map_app, firstn_skipn. reflexivity. }
  assert (Hlen : List.length ks = S (List.length (stored_records s))).
  { rewrite <- (length_map snd ks), (Permutation_length Hp), length_app.
    cbn [List.length]. lia. }
  split; [exact Hsave|].
  split; [rewrite Hjoin; exact Hp|].
  split; [rewrite Hjoin; apply newest_first_of_keys; assumption|].
  split; [rewrite Hst, length_map, length_firstn, Hlen; reflexivity|].
  split; [exact Hr|].
  intro Hlt. rewrite Hst, firstn_all2 by lia.
  apply (Permutation_in _ (Permutation_sym Hp)), in_or_app. right. left.
  reflexivity.
Qed.

Lemma save_keeps_the_sixty_newest_witness :
  Forall dated (stored_records sample_store)
  /\ dated summer_day
  /\ exists s' dropped,
       DataManager.save_weather_data summer_day sample_store = Ok s'
       /\ Permutation (stored_records s' ++ dropped)
            (stored_records sample_store ++ [summer_day])
       /\ newest_first (stored_records s' ++ dropped)
       /\ List.length (stored_records s')
          = Nat.min 60 (S (List.length (stored_records sample_store)))
       /\ DataManager.record_file s' = DataManager.record_file sample_store
       /\ ((List.length (stored_records sample_store) < 60)%nat ->
           In summer_day (stored_records s')).
Proof.
  split; [exact sample_store_dated|]. split; [discriminate|].
  apply (save_keeps_the_sixty_newest summer_day sample_store);
    [exact sample_store_dated|discriminate].
Defined.

Lemma well_keyed_firstn n ks : Forall well_keyed ks -> Forall well_keyed (firstn n ks).
Proof.
  intro H. apply Forall_forall. intros p Hp. rewrite Forall_forall in H.
  apply H. revert Hp. apply firstn_subset.
Qed.

(** Reading a data file whose records are sorted. *)
Lemma history_of_sorted_store days s ks :
  0 <= days -> stored_records s = map snd ks ->
  Forall well_keyed ks -> StronglySorted key_not_older ks ->
  DataManager.get_historical_data days s
  = Ok (firstn (Z.to_nat days) (stored_records s)).
Proof.
  intros Hd Hst Hk Hs. unfold DataManager.get_historical_data.
  fold (stored_records s). rewrite Hst, (sort_by_date_reverse_id ks Hk Hs).
  cbn [bind]. rewrite (slice_to_firstn days _ Hd). reflexivity.
Qed.

Lemma history_after_save w s s' days :
  0 <= days -> DataManager.save_weather_data w s = Ok s' ->
  DataManager.get_historical_data days s'
  = Ok (firstn (Z.to_nat days) (stored_records s')).
Proof.
  intros Hd H. destruct (save_inv w s s' H) as (ks & Hk & Hs & _ & Hst & _).
  apply (history_of_sorted_store days s' (firstn 60 ks) Hd Hst).
  - apply well_keyed_firstn, Hk.
  - apply sorted_firstn, Hs.
Qed.

(** X13. What a save has written is read back as it is: after a successful
    save, [get_historical_data] returns the first [days] stored records in
    the stored order, all of them when [days] is 60 or more. *)
Theorem saved_records_are_read_back w s s' days :
  0 <= days -> DataManager.save_weather_data w s = Ok s' ->
  DataManager.get_historical_data days s'
  = Ok (firstn (Z.to_nat days) (stored_records s'))
  /\ (60 <= days ->
      DataManager.get_historical_data days s' = Ok (stored_records s')).
Proof.
  intros Hd H. split; [exact (history_after_save w s s' days Hd H)|].
  intro H60. rewrite (history_after_save w s s' days Hd H).
  destruct (save_inv w s s' H) as (ks & _ & _ & _ & Hst & _).
  rewrite firstn_all2; [reflexivity|].
  rewrite Hst, length_map, length_firstn. lia.
Qed.

Lemma saved_records_are_read_back_witness :
  0 <= 7
  /\ DataManager.save_weather_data summer_day sample_store
     = Ok sample_store_saved
  /\ DataManager.get_historical_data 7 sample_store_saved
     = Ok (firstn (Z.to_nat 7) (stored_records sample_store_saved)).
Proof.
  split; [lia|]. split; [vm_compute; reflexivity|].
  refine (proj1 (saved_records_are_read_back summer_day sample_store
                   sample_store_saved 7 _ _));
    [lia|vm_compute; reflexivity].
Defined.

Lemma sort_desc_newest_last ks x :
  Forall (fun k => String.ltb (fst k) (fst x) = true) ks ->
  DataManager.sort_desc (ks ++ [x]) = x :: DataManager.sort_desc ks.
Proof.
  induction 1 as [|k ks Hk _ IH]; [reflexivity|].
  cbn [app DataManager.sort_desc]. rewrite IH.
  cbn [DataManager.insert_desc]. rewrite Hk. reflexivity.
Qed.

Lemma keyed_app_one l w d ks :
  DataManager.keyed l = Ok ks -> date w = Some d ->
  DataManager.keyed (l ++ [w]) = Ok (ks ++ [(d, w)])%list.
Proof.
  revert ks. induction l as [|x l IH]; intros ks H Hw.
  - injection H as <-. cbn. rewrite Hw. reflexivity.
  - cbn [app DataManager.keyed] in *.
    destruct (date x) as [dx|]; cbn [getitem bind] in *; [|discriminate H].
    destruct (DataManager.keyed l) as [ks'|] eqn:E; cbn [bind] in H;
      [|discriminate H].
    injection H as <-. rewrite (IH ks' eq_refl Hw). reflexivity.
Qed.

(** X14. A forecast dated later than every stored record is the first
    record of the history read after it is saved. *)
Theorem newest_forecast_is_read_back_first w d s s' days :
  date w = Some d ->
  Forall (fun x => exists dx, date x = Some dx /\ String.ltb dx d = true)
    (stored_records s) ->
  1 <= days -> DataManager.save_weather_data w s = Ok s' ->
  exists rest, DataManager.get_historical_data days s' = Ok (w :: rest).
Proof.
  intros Hw Hall Hd Hsave.
  assert (Hdated : Forall dated (stored_records s)).
  { eapply Forall_impl; [|exact Hall]. intros x (dx & Hx & _).
    unfold dated. congruence. }
  destruct (keyed_returns _ Hdated) as [ks Hks].
  destruct (keyed_inv _ _ Hks) as [Hm Hk].
  assert (Hlt : Forall (fun k => String.ltb (fst k) (fst (d, w)) = true) ks).
  { apply Forall_forall. intros k Hin. rewrite Forall_forall in Hall, Hk.
    destruct (Hall (snd k)) as (dx & Hx & Hl).
    - rewrite <- Hm. apply in_map, Hin.
    - specialize (Hk k Hin). unfold well_keyed in Hk.
      assert (dx = fst k) by congruence. subst dx. exact Hl. }
  assert (Hst : exists rest, stored_records s' = w :: rest).
  { unfold DataManager.save_weather_data in Hsave.
    fold (stored_records s) in Hsave.
    unfold DataManager.sort_by_date_reverse in Hsave.
    rewrite (keyed_app_one _ w d ks Hks Hw) in Hsave. cbn [bind] in Hsave.
    rewrite (sort_desc_newest_last ks (d, w) Hlt) in Hsave.
    injection Hsave as <-. unfold stored_records. cbn. eexists. reflexivity. }
  destruct Hst as [rest Hst].
  rewrite (history_after_save w s s' days) by (lia || assumption).
  rewrite Hst. destruct (Z.to_nat days) as [|n] eqn:En; [lia|].
  cbn [firstn]. eexists. reflexivity.
Qed.

Lemma sample_store_older_than_june :
  Forall (fun x => exists dx, date x = Some dx
                             /\ String.ltb dx "2025-06-01" = true)
    (stored_records sample_store).
Proof. repeat constructor; eexists; split; reflexivity. Qed.

Lemma newest_forecast_is_read_back_first_witness :
  date summer_day = Some "2025-06-01"
  /\ Forall (fun x => exists dx, date x = Some dx
                                /\ String.ltb dx "2025-06-01" = true)
       (stored_records sample_store)
  /\ 1 <= 7
  /\ DataManager.save_weather_data summer_day sample_store
     = Ok sample_store_saved
  /\ exists rest,
       DataManager.get_historical_data 7 sample_store_saved
       = Ok (summer_day :: rest).
Proof.
  split; [reflexivity|]. split; [exact sample_store_older_than_june|].
  split; [lia|]. split; [vm_compute; reflexivity|].
  apply (newest_forecast_is_read_back_first summer_day "2025-06-01"
           sample_store sample_store_saved 7);
    first [exact sample_store_older_than_june | lia
          | vm_compute; reflexivity].
Defined.

Lemma filter_keys cutoff_date l ks :
  DataManager.keyed l = Ok ks ->
  map snd (filter (fun kx => String.leb cutoff_date (fst kx)) ks)
  = filter (recent_enough cutoff_date) l.
Proof.
  revert ks. induction l as [|x l IH]; intros ks H; cbn [DataManager.keyed] in H.
  - injection H as <-. reflexivity.
  - destruct (date x) as [d|] eqn:Ed; cbn [getitem bind] in H; [|discriminate H].
    destruct (DataManager.keyed l) as [ks'|]; cbn [bind] in H; [|discriminate H].
    injection H as <-. cbn [filter fst].
    assert (Hx : recent_enough cutoff_date x = String.leb cutoff_date d)
      by (unfold recent_enough; rewrite Ed; reflexivity).
    rewrite Hx.
    destruct (String.leb cutoff_date d); cbn [map snd]; rewrite (IH ks' eq_refl);
      reflexivity.
Qed.

Lemma filter_twice {A : Type} (f : A -> bool) (l : list A) :
  filter f (filter f l) = filter f l.
Proof.
  induction l as [|x l IH]; [reflexivity|]. cbn [filter].
  destruct (f x) eqn:E; [cbn [filter]; rewrite E, IH; reflexivity|exact IH].
Qed.

Lemma dated_filter (f : WeatherData -> bool) l :
  Forall dated l -> Forall dated (filter f l).
Proof.
  intro H. apply Forall_forall. intros x Hx. apply filter_In in Hx.
  rewrite Forall_forall in H. apply H, Hx.
Qed.

Lemma cleanup_returns cutoff s :
  Forall dated (stored_records s) ->
  DataManager.cleanup_old_data cutoff s
  = Ok {| DataManager.data_file :=
            DataManager.Holds
              {| DataManager.records :=
                   Some (filter (recent_enough (DataManager.strftime_date cutoff))
                           (stored_records s));
                 DataManager.other_keys :=
                   DataManager.other_keys
                     (DataManager._load_json DataManager.empty_doc
                        (DataManager.data_file s)) |};
          DataManager.record_file := DataManager.record_file s |}.
Proof.
  intro H. destruct (keyed_returns _ H) as [ks Hks].
  unfold DataManager.cleanup_old_data. fold (stored_records s).
  rewrite Hks. cbn [bind]. rewrite (filter_keys _ _ ks Hks). reflexivity.
Qed.

(** X15. Cleaning a store whose records all have a date keeps, in their
    order, exactly the records dated at the cut-off or later, so a store
    that is newest first stays so; the run record is not touched, and
    cleaning again with the same cut-off changes nothing. *)
Theorem cleanup_keeps_recent_records cutoff s :
  Forall dated (stored_records s) ->
  exists s',
    DataManager.cleanup_old_data cutoff s = Ok s'
    /\ stored_records s'
       = filter (recent_enough (DataManager.strftime_date cutoff))
           (stored_records s)
    /\ (newest_first (stored_records s) -> newest_first (stored_records s'))
    /\ DataManager.record_file s' = DataManager.record_file s
    /\ DataManager.cleanup_old_data cutoff s' = Ok s'.
Proof.
  intro H. eexists. split; [apply cleanup_returns, H|].
  split; [reflexivity|]. split; [|split; [reflexivity|]].
  - intro Hs. unfold stored_records at 1. cbn. apply sorted_filter, Hs.
  - rewrite cleanup_returns.
    + unfold stored_records at 1. cbn. rewrite filter_twice. reflexivity.
    + unfold stored_records. cbn. apply dated_filter, H.
Qed.

Lemma cleanup_keeps_recent_records_witness :
  Forall dated (stored_records sample_store)
  /\ exists s',
       DataManager.cleanup_old_data april_fifth sample_store = Ok s'
       /\ stored_records s'
          = filter (recent_enough (DataManager.strftime_date april_fifth))
              (stored_records sample_store)
       /\ (newest_first (stored_records sample_store) ->
           newest_first (stored_records s'))
       /\ DataManager.record_file s' = DataManager.record_file sample_store
       /\ DataManager.cleanup_old_data april_fifth s' = Ok s'.
Proof.
  split; [exact sample_store_dated|].
  apply (cleanup_keeps_recent_records april_fifth sample_store).
  exact sample_store_dated.
Defined.

(** X16. A data file that is missing or cannot be decoded counts as empty:
    the history is empty whatever [days] is, and saving a dated forecast
    replaces the file by one that holds this forecast alone. *)
Theorem unreadable_data_file_counts_as_empty w s days :
  DataManager.data_file s = DataManager.Unreadable
  \/ DataManager.data_file s = DataManager.Missing ->
  dated w ->
  DataManager.get_historical_data days s = Ok []
  /\ DataManager.save_weather_data w s
     = Ok {| DataManager.data_file :=
               DataManager.Holds {| DataManager.records := Some [w];
                                    DataManager.other_keys := [] |};
             DataManager.record_file := DataManager.record_file s |}.
Proof.
  intros Hf Hw. unfold dated in Hw.
  unfold DataManager.get_historical_data, DataManager.save_weather_data,
    DataManager.sort_by_date_reverse.
  destruct Hf as [-> | ->]; cbn; (destruct (date w) as [d|]; [|congruence]);
    cbn; (split; [|reflexivity]); unfold DataManager.slice_to;
    destruct (0 <=? days); cbn; rewrite ?firstn_nil; reflexivity.
Qed.

Lemma unreadable_data_file_counts_as_empty_witness :
  (DataManager.data_file broken_store = DataManager.Unreadable
   \/ DataManager.data_file broken_store = DataManager.Missing)
  /\ dated summer_day
  /\ DataManager.get_historical_data 7 broken_store = Ok [].
Proof.
  split; [left; reflexivity|]. split; [discriminate|].
  apply (unreadable_data_file_counts_as_empty summer_day broken_store 7);
    [left; reflexivity|discriminate].
Defined.

(** * Properties of the gate and of the retries *)

(** X17. Once the run record is updated, [should_run] refuses with the
    message of a run already made exactly when the clock prints the date of
    the update: on that day the hour and the window are not looked at, and
    on any other day this message is never given. *)
Theorem same_day_run_is_skipped settings now1 now2 today now s :
  WeatherBot.should_run settings today now
    (DataManager.update_run_record now1 now2 s) = (false, "今天已经运行过")
  <-> DataManager.strftime_date today = DataManager.strftime_date now1.
Proof.
  unfold WeatherBot.should_run, DataManager.check_already_run_today,
    DataManager.update_run_record.
  cbn [DataManager.record_file DataManager._load_json
       DataManager.last_run_date].
  destruct (String.eqb (DataManager.strftime_date now1)
              (DataManager.strftime_date today)) eqn:E.
  - apply String.eqb_eq in E. split; [intros _; congruence|reflexivity].
  - apply String.eqb_neq in E. split; [|intro H; congruence].
    destruct (negb _); intro H; cbn in H; discriminate H.
Qed.

Lemma retry_loop_spec settings answer n r a :
  (a + r = n)%nat ->
  match WeatherBot.retry_loop settings answer (Z.of_nat n) a r with
  | (WeatherBot.Forecast w, events) =>
      exists i,
        (a <= i < n)%nat /\ answer i = WeatherBot.Fetched w
        /\ (forall j, (a <= j < i)%nat -> not_fetched (answer j))
        /\ count_requests events = S (i - a)
        /\ count_sleeps events = (i - a)%nat
  | (WeatherBot.GaveUp, events) =>
      (forall j, (a <= j < n)%nat -> not_fetched (answer j))
      /\ count_requests events = r
      /\ count_sleeps events = (r - 1)%nat
  end.
Proof.
  revert a. induction r as [|r IH]; intros a Hn; cbn [WeatherBot.retry_loop].
  - split; [intros j Hj; lia|split; reflexivity].
  - assert (Hstep :
      not_fetched (answer a) ->
      match
        (let (outcome, events) :=
           WeatherBot.retry_loop settings answer (Z.of_nat n) (S a) r in
         (outcome,
          (WeatherBot.Request a
           :: (if Z.of_nat a <? Z.of_nat n - 1
               then [WeatherBot.Sleep (WeatherBot.retry_interval settings)]
               else []) ++ events)%list))
      with
      | (WeatherBot.Forecast w, events) =>
          exists i,
            (a <= i < n)%nat /\ answer i = WeatherBot.Fetched w
            /\ (forall j, (a <= j < i)%nat -> not_fetched (answer j))
            /\ count_requests events = S (i - a)
            /\ count_sleeps events = (i - a)%nat
      | (WeatherBot.GaveUp, events) =>
          (forall j, (a <= j < n)%nat -> not_fetched (answer j))
          /\ count_requests events = S r
          /\ count_sleeps events = (S r - 1)%nat
      end).
    { intro Ha. specialize (IH (S a) ltac:(lia)).
      destruct (WeatherBot.retry_loop settings answer (Z.of_nat n) (S a) r)
        as [[w|] events].
      - destruct IH as (i & Hi & Hw & Hbefore & Hreq & Hsl).
        exists i. split; [lia|]. split; [exact Hw|]. split.
        + intros j Hj. destruct (Nat.eq_dec j a) as [->|Hne]; [exact Ha|].
          apply Hbefore. lia.
        + destruct (Z.of_nat a <? Z.of_nat n - 1) eqn:E;
            [|apply Z.ltb_ge in E; lia].
          cbn [app count_requests count_sleeps]. rewrite Hreq, Hsl.
          split; lia.
      - destruct IH as (Hall & Hreq & Hsl). split.
        + intros j Hj. destruct (Nat.eq_dec j a) as [->|Hne]; [exact Ha|].
          apply Hall. lia.
        + destruct (Z.of_nat a <? Z.of_nat n - 1) eqn:E;
            cbn [app count_requests count_sleeps]; rewrite Hreq, Hsl;
            [apply Z.ltb_lt in E|apply Z.ltb_ge in E]; split; lia. }
    destruct (answer a) as [w| |] eqn:Ea.
    + exists a. split; [lia|]. split; [exact Ea|]. split; [intros j Hj; lia|].
      cbn [count_requests count_sleeps]. split; f_equal; lia.
    + apply Hstep. intros w. discriminate.
    + apply Hstep. intros w. discriminate.
Qed.

Lemma forecast_run_spec settings answer retry_times :
  match WeatherBot.get_weather_forecast settings answer retry_times with
  | (WeatherBot.Forecast w, events) =>
      exists i,
        Z.of_nat i < retry_times /\ answer i = WeatherBot.Fetched w
        /\ (forall j, (j < i)%nat -> not_fetched (answer j))
        /\ count_requests events = S i /\ count_sleeps events = i
  | (WeatherBot.GaveUp, events) =>
      (forall j, Z.of_nat j < retry_times -> not_fetched (answer j))
      /\ count_requests events = Z.to_nat retry_times
      /\ count_sleeps events = (Z.to_nat retry_times - 1)%nat
  end.
Proof.
  unfold WeatherBot.get_weather_forecast.
  destruct (Z.le_gt_cases retry_times 0) as [Hle|Hgt].
  - replace (Z.to_nat retry_times) with 0%nat by lia.
    cbn [WeatherBot.retry_loop]. split; [intros j Hj; lia|split; reflexivity].
  - pose proof (retry_loop_spec settings answer (Z.to_nat retry_times)
                  (Z.to_nat retry_times) 0 eq_refl) as H.
    rewrite Z2Nat.id in H by lia.
    destruct (WeatherBot.retry_loop settings answer retry_times 0
                (Z.to_nat retry_times)) as [[w|] events].
    + destruct H as (i & Hi & Hw & Hbefore & Hreq & Hsl). exists i.
      split; [lia|]. split; [exact Hw|]. split.
      * intros j Hj. apply Hbefore. lia.
      * rewrite Hreq, Hsl. split; f_equal; lia.
    + destruct H as (Hall & Hreq & Hsl). split; [|split; assumption].
      intros j Hj. apply Hall. lia.
Qed.

(** X18. The forecast that [get_weather_forecast] returns is the one of the
    first pass that fetched one; it is returned at once, after one request
    per pass and a sleep after each of the passes that failed before it. *)
Theorem forecast_is_the_first_fetched settings answer retry_times w :
  fst (WeatherBot.get_weather_forecast settings answer retry_times)
  = WeatherBot.Forecast w ->
  exists i,
    Z.of_nat i < retry_times /\ answer i = WeatherBot.Fetched w
    /\ (forall j, (j < i)%nat -> not_fetched (answer j))
    /\ count_requests
         (snd (WeatherBot.get_weather_forecast settings answer retry_times))
       = S i
    /\ count_sleeps
         (snd (WeatherBot.get_weather_forecast settings answer retry_times))
       = i.
Proof.
  intro H. pose proof (forecast_run_spec settings answer retry_times) as Hs.
  destruct (WeatherBot.get_weather_forecast settings answer retry_times)
    as [[w'|] events]; cbn [fst snd] in *; [|discriminate H].
  injection H as ->. exact Hs.
Qed.

Lemma forecast_is_the_first_fetched_witness :
  fst (WeatherBot.get_weather_forecast sample_settings third_time_lucky 3)
  = WeatherBot.Forecast summer_day
  /\ exists i,
       Z.of_nat i < 3 /\ third_time_lucky i = WeatherBot.Fetched summer_day
       /\ (forall j, (j < i)%nat -> not_fetched (third_time_lucky j))
       /\ count_requests
            (snd (WeatherBot.get_weather_forecast sample_settings
                    third_time_lucky 3))
          = S i
       /\ count_sleeps
            (snd (WeatherBot.get_weather_forecast sample_settings
                    third_time_lucky 3))
          = i.
Proof.
  split; [vm_compute; reflexivity|].
  apply (forecast_is_the_first_fetched sample_settings third_time_lucky 3
           summer_day).
  vm_compute. reflexivity.
Defined.

